(** * Spotify title hypothesis testing: a shallow embedding

    The development follows the Python sources module by module:
    - [Py]: the few builtins of Python the code relies on ([str.isdigit],
      [str.split], [int], list indexing); [//] and [%] are [Z.div] and
      [Z.modulo], which round as Python does;
    - [Collector]: [src/data_collection/optimised_title_collector.py];
    - [Recovery]: the recovery branch of [run_step_2] in [main.py];
    - [Cleaner]: [src/data_processing/data_cleaner.py];
    - [Stats]: [src/hypothesis_testing/statistical_tests.py] and the
      correlation bands of [results_interpretation.py];
    - [Menu], [CleanerSteps]: the menu selections and the basic cleaning of
      [main.py], and the later steps of the cleaner;
    - [PostEDA]: [src/data_processing/post_eda_cleaner.py];
    - [Analyzer], [Interpreter]: the results of the tests, their summary
      and their interpretation;
    - [Assumptions]: the normality step of the cleaner's
      [_check_statistical_assumptions];
    - [Step7]: [run_step_7] of [main.py] with the set-up of the tests.

    Definitions come first, the theorems about them afterwards. *)

From Stdlib Require Import ZArith List String Ascii Bool Lia.
From Stdlib Require Import DecimalString.
From Stdlib Require Import Floats.
Import ListNotations.

Open Scope string_scope.
Open Scope list_scope.

Set Implicit Arguments.
Set Warnings "-inexact-float".

(* ================================================================== *)
(** * Python builtins *)
(* ================================================================== *)

Module Py.

(** A Python [str] is modelled as a [string] whose characters are the code
    points [0..255]; the character classes below are those of Python 3 on
    that range. *)

Definition code (c : ascii) : N := N_of_ascii c.

Definition between (lo hi : N) (c : ascii) : bool :=
  ((lo <=? code c) && (code c <=? hi))%N.

Definition is_code (n : N) (c : ascii) : bool := (code c =? n)%N.

(** [c.isspace()] *)
Definition isspace (c : ascii) : bool :=
  between 9 13 c || between 28 32 c || is_code 133 c || is_code 160 c.

(** [c.isdecimal()] *)
Definition isdecimal (c : ascii) : bool := between 48 57 c.

(** [c.isdigit()]: the decimal digits and the superscripts 1, 2, 3. *)
Definition isdigit (c : ascii) : bool :=
  isdecimal c || is_code 178 c || is_code 179 c || is_code 185 c.

(** [c.isnumeric()]: adds the vulgar fractions. *)
Definition isnumeric (c : ascii) : bool := isdigit c || between 188 190 c.

(** [c.isalpha()] *)
Definition isalpha (c : ascii) : bool :=
  between 65 90 c || between 97 122 c
  || is_code 170 c || is_code 181 c || is_code 186 c
  || between 192 214 c || between 216 246 c || between 248 255 c.

(** [c.isalnum()] *)
Definition isalnum (c : ascii) : bool :=
  isalpha c || isdecimal c || isdigit c || isnumeric c.

(** [len(s)] *)
Definition len (s : string) : Z := Z.of_nat (String.length s).

(** [len(l)] on lists *)
Definition llen {A} (l : list A) : Z := Z.of_nat (List.length l).

(** [any(p(c) for c in s)] *)
Definition any (p : ascii -> bool) (s : string) : bool :=
  existsb p (list_ascii_of_string s).

(** [s.split()]: the maximal runs of non-whitespace characters. [cur] is
    the token being read. *)
Fixpoint split_from (cur : string) (s : string) : list string :=
  match s with
  | EmptyString => if String.eqb cur "" then [] else [cur]
  | String c s' =>
      if isspace c
      then (if String.eqb cur "" then split_from "" s'
            else cur :: split_from "" s')
      else split_from (cur ++ String c "")%string s'
  end.

Definition split (s : string) : list string := split_from "" s.

(** [s[:n]] *)
Definition prefix (n : nat) (s : string) : string := substring 0 n s.

(** ** [int(s)] on a string, base 10

    Surrounding whitespace is dropped, one sign is allowed, and the digits
    may be separated by single underscores. Of the whitespace characters
    below 128 only tab, newline, vertical tab, form feed, carriage return
    and space are dropped. *)

Definition int_space (c : ascii) : bool :=
  between 9 13 c || is_code 32 c || is_code 133 c || is_code 160 c.

Fixpoint lstrip (l : list ascii) : list ascii :=
  match l with
  | c :: l' => if int_space c then lstrip l' else l
  | [] => []
  end.

Definition strip (l : list ascii) : list ascii :=
  rev (lstrip (rev (lstrip l))).

Definition digit_val (c : ascii) : Z := Z.of_N (code c) - 48.

Fixpoint digits (after_digit : bool) (acc : Z) (l : list ascii) : option Z :=
  match l with
  | [] => if after_digit then Some acc else None
  | c :: l' =>
      if isdecimal c then digits true (10 * acc + digit_val c) l'
      else if is_code 95 c then (if after_digit then digits false acc l' else None)
      else None
  end.

Definition int (s : string) : option Z :=
  match strip (list_ascii_of_string s) with
  | c :: l =>
      if is_code 43 c then digits false 0 l
      else if is_code 45 c then option_map Z.opp (digits false 0 l)
      else digits false 0 (c :: l)
  | [] => None
  end.

(** [str(z)], as used by the f-strings that build the search queries. *)
Definition str (z : Z) : string := NilZero.string_of_int (Z.to_int z).

(** [l[i]] with Python's negative indices; [None] is an [IndexError]. *)
Definition index {A} (l : list A) (i : Z) : option A :=
  if (0 <=? i)%Z then nth_error l (Z.to_nat i)
  else if (- llen l <=? i)%Z then nth_error l (Z.to_nat (llen l + i))
  else None.

(** ** Exceptions and results *)

Inductive exn : Type :=
| KeyError (keys : list string)
| ValueError
| IndexError
| ZeroDivisionError
| AttributeError (attr : string).

Inductive result (A : Type) : Type :=
| Ok (a : A)
| Raise (e : exn).

Arguments Ok {A} a.
Arguments Raise {A} e.

End Py.

Open Scope Z_scope.

Notation "'let?' p ':=' c 'in' k" :=
  (match c with Some p => k | None => None end)
  (at level 10, p pattern, c at level 100, k at level 200, only parsing).

(* ================================================================== *)
(** * Data frames *)
(* ================================================================== *)

Module Pandas.

Import Py.

(** A cell of a frame; [CNaN] is a missing value. *)
Inductive cell : Type :=
| CStr (s : string)
| CInt (z : Z)
| CBool (b : bool)
| CNaN.

(** A frame: the column labels and the rows, one cell per column. *)
Record DataFrame : Type := {
  columns : list string;
  data : list (list cell)
}.

(** A Python dict with string keys, in insertion order. *)
Definition dict : Type := list (string * cell).

Definition mem (c : string) (l : list string) : bool :=
  existsb (String.eqb c) l.

Fixpoint dict_get (d : dict) (k : string) : option cell :=
  match d with
  | [] => None
  | (k', v) :: d' => if String.eqb k' k then Some v else dict_get d' k
  end.

(** The keys of the dicts in first-seen order. *)
Fixpoint add_keys (seen : list string) (ks : list string) : list string :=
  match ks with
  | [] => seen
  | k :: ks' => add_keys (if mem k seen then seen else seen ++ [k]) ks'
  end.

Definition all_keys (ds : list dict) : list string :=
  fold_left (fun seen d => add_keys seen (map fst d)) ds [].

(** [pd.DataFrame(list_of_dicts)] *)
Definition from_records (ds : list dict) : DataFrame :=
  let cols := all_keys ds in
  {| columns := cols;
     data := map (fun d => map (fun c => match dict_get d c with
                                         | Some v => v
                                         | None => CNaN
                                         end) cols) ds |}.

(** The position of a label among the columns. *)
Fixpoint position (c : string) (cols : list string) : option nat :=
  match cols with
  | [] => None
  | c' :: cols' =>
      if String.eqb c' c then Some O else option_map S (position c cols')
  end.

(** [df[c]]: a [KeyError] when there is no such column. *)
Definition column (df : DataFrame) (c : string) : result (list cell) :=
  match position c (columns df) with
  | Some i => Ok (map (fun row => nth i row CNaN) (data df))
  | None => Raise (KeyError [c])
  end.

Fixpoint set_nth (i : nat) (v : cell) (row : list cell) : list cell :=
  match i, row with
  | O, _ :: row' => v :: row'
  | S i', x :: row' => x :: set_nth i' v row'
  | _, [] => []
  end.

(** [df[c] = values]: replaces the column, or appends a new one. *)
Definition assign (df : DataFrame) (c : string) (values : list cell)
  : DataFrame :=
  match position c (columns df) with
  | Some i =>
      {| columns := columns df;
         data := map (fun rv => set_nth i (snd rv) (fst rv))
                     (combine (data df) values) |}
  | None =>
      {| columns := columns df ++ [c];
         data := map (fun rv => fst rv ++ [snd rv]) (combine (data df) values) |}
  end.

(** [series.str.len()] and [series.str.split().str.len()] *)
Definition str_len (v : cell) : cell :=
  match v with CStr s => CInt (len s) | _ => CNaN end.

Definition str_split_len (v : cell) : cell :=
  match v with CStr s => CInt (llen (split s)) | _ => CNaN end.

Definition isnull (v : cell) : bool :=
  match v with CNaN => true | _ => false end.

(** Equality of cells as [duplicated] sees it: missing values are equal
    to each other. It is the equality of pandas on columns that do not
    hold integers beside booleans; Python takes [1] and [True], [0] and
    [False] for equal, which this function does not. *)
Definition cell_eqb (u v : cell) : bool :=
  match u, v with
  | CStr a, CStr b => String.eqb a b
  | CInt a, CInt b => (a =? b)%Z
  | CBool a, CBool b => Bool.eqb a b
  | CNaN, CNaN => true
  | _, _ => false
  end.

End Pandas.

(* ================================================================== *)
(** * The collector: optimised_title_collector.py *)
(* ================================================================== *)

Module Collector.

Import Py.

(** ** Data *)

(** [track['album']['release_date']]: the key may be absent (a [KeyError]),
    the value may be JSON [null], or it is a string. *)
Inductive date_field : Type :=
| DateMissing
| DateNull
| DateStr (s : string).

(** One item of [results['tracks']['items']]. A field is [None] when
    reading it raises (missing key, empty artist list), and holds its
    value otherwise: a string for the two names, an integer for popularity
    and duration, as the Web API documents them. An item with JSON [null]
    in the place of one of these four values is outside this model (only
    the release date, which the code guards with [if album_date:], has its
    own [null]). *)
Record track_item : Type := {
  item_name : option string;          (* track['name'] *)
  item_artist : option string;        (* track['artists'][0]['name'] *)
  item_release_date : date_field;     (* track['album']['release_date'] *)
  item_popularity : option Z;         (* track['popularity'] *)
  item_duration_ms : option Z         (* track['duration_ms'] *)
}.

(** The dict appended to [year_tracks], one field per key. *)
Record TrackRecord : Type := {
  track_name : string;
  artist_name : string;
  popularity : Z;
  duration_ms : Z;
  title_length : Z;
  word_count : Z;
  has_numbers : bool;
  has_special_chars : bool;
  genre_category : string;
  release_year : Z
}.

(** What [self.sp.search(q=..., type='track', limit=50, offset=...)] gives:
    an exception, or the list [results['tracks']['items']]. *)
Inductive search_response : Type :=
| ApiError
| Items (tracks : list track_item).

(** The attributes of an [OptimisedTitleCollector] that the methods read
    and write ([self.sp] is the search oracle below). *)
Record Self : Type := {
  test_mode : bool;
  genres : list string;
  target_per_genre : Z;
  max_retries : Z;
  retry_delay : Z;
  years : list Z;
  tracks_per_year : Z;
  genre_categories : list (string * list string)
}.

(** ** Construction and configuration *)

Definition the_genres : list string :=
  ["pop"; "rock"; "hip-hop"; "electronic"; "jazz"; "classical"; "metal"; "r&b"].

Definition the_genre_categories : list (string * list string) :=
  [ ("pop",
     ["genre:pop"; "genre:dance-pop"; "genre:synth-pop"; "genre:electropop";
      "genre:indie-pop"; "genre:teen-pop"; "genre:art-pop"; "genre:dream-pop";
      "genre:britpop"; "genre:k-pop"; "genre:j-pop"]);
    ("rock",
     ["genre:rock"; "genre:alternative-rock"; "genre:indie-rock";
      "genre:classic-rock"; "genre:hard-rock"; "genre:post-rock";
      "genre:progressive-rock"; "genre:psychedelic-rock"; "genre:garage-rock";
      "genre:punk-rock"; "genre:folk-rock"]);
    ("hip-hop",
     ["genre:hip-hop"; "genre:rap"; "genre:trap"; "genre:old-school-hip-hop";
      "genre:east-coast-hip-hop"; "genre:west-coast-hip-hop";
      "genre:southern-hip-hop"; "genre:conscious-hip-hop"; "genre:gangsta-rap"]);
    ("electronic",
     ["genre:electronic"; "genre:techno"; "genre:house"; "genre:deep-house";
      "genre:tech-house"; "genre:progressive-house"; "genre:electro-house";
      "genre:trance"; "genre:dubstep"; "genre:drum-and-bass"]);
    ("jazz",
     ["genre:jazz"; "genre:smooth-jazz"; "genre:jazz-fusion";
      "genre:contemporary-jazz"; "genre:bebop"; "genre:hard-bop";
      "genre:cool-jazz"; "genre:free-jazz"; "genre:latin-jazz"; "genre:swing"]);
    ("classical",
     ["genre:classical"; "genre:baroque"; "genre:romantic";
      "genre:contemporary-classical"; "genre:classical-piano";
      "genre:chamber-music"; "genre:orchestral"; "genre:opera"]);
    ("metal",
     ["genre:metal"; "genre:heavy-metal"; "genre:death-metal";
      "genre:black-metal"; "genre:thrash-metal"; "genre:power-metal";
      "genre:progressive-metal"; "genre:doom-metal"; "genre:metalcore"]);
    ("r&b",
     ["genre:r&b"; "genre:rnb"; "genre:contemporary-r&b"; "genre:neo-soul";
      "genre:alternative-r&b"; "genre:soul"; "genre:funk"; "genre:gospel"]) ].

(** [__init__], with [_setup_spotify_client] and
    [_setup_collection_parameters] inlined. *)
Definition init (test : bool) : Self :=
  {| test_mode := test;
     genres := the_genres;
     target_per_genre := if test then 10 else 2000;
     max_retries := 3;
     retry_delay := 1;
     years := [2024; 2023; 2022; 2021; 2020];
     tracks_per_year := if test then 2 else 400;
     genre_categories := the_genre_categories |}.

Definition with_targets (self : Self) (per_year per_genre : Z) : Self :=
  {| test_mode := test_mode self;
     genres := genres self;
     target_per_genre := per_genre;
     max_retries := max_retries self;
     retry_delay := retry_delay self;
     years := years self;
     tracks_per_year := per_year;
     genre_categories := genre_categories self |}.

(** [set_collection_size] *)
Definition set_collection_size (self : Self) (size : string) : result Self :=
  if String.eqb size "test" then Ok (with_targets self 20 100)
  else if String.eqb size "medium" then Ok (with_targets self 50 250)
  else if String.eqb size "full" then Ok (with_targets self 800 4000)
  else if String.eqb size "mega" then Ok (with_targets self 1200 6000)
  else Raise ValueError.

(** The first statements of [collect_tracks]: the caller's total replaces
    the mode's targets. [//] is floor division and fails on a zero
    divisor. *)
Definition override_target (self : Self) (target : option Z) : result Self :=
  match target with
  | None => Ok self
  | Some t =>
      if llen (years self) =? 0 then Raise ZeroDivisionError
      else
        let per_year := t / llen (years self) in
        Ok (with_targets self (if per_year =? 0 then 1 else per_year) t)
  end.

(** [self.genre_categories[genre]] *)
Fixpoint lookup (d : list (string * list string)) (k : string)
  : result (list string) :=
  match d with
  | [] => Raise (KeyError [k])
  | (k', v) :: d' => if String.eqb k' k then Ok v else lookup d' k
  end.

(** ** Title features (lines 312-316) *)

Definition title_length_of (track_name : string) : Z := len track_name.
Definition word_count_of (track_name : string) : Z := llen (split track_name).
Definition has_numbers_of (track_name : string) : bool := any isdigit track_name.
Definition has_special_chars_of (track_name : string) : bool :=
  any (fun c => negb (isalnum c) && negb (isspace c)) track_name.

(** ** One candidate item (the body of [for track in tracks]) *)

Inductive item_outcome : Type :=
| Skipped                      (* [continue] *)
| Failed                       (* an exception leaves the page loop *)
| Added (r : TrackRecord).     (* [year_tracks.append] *)

Definition is_duplicate (year_tracks : list TrackRecord)
    (name artist : string) : bool :=
  existsb (fun t => String.eqb (track_name t) name
                    && String.eqb (artist_name t) artist) year_tracks.

(** The block under [# Verify release year]; [true] lets the item pass. *)
Definition release_year_ok (d : date_field) (target_year : Z) : bool :=
  match d with
  | DateMissing => false                       (* KeyError: continue *)
  | DateNull => true                           (* falsy: not checked *)
  | DateStr s =>
      if String.eqb s "" then true             (* falsy: not checked *)
      else match int (prefix 4 s) with
           | Some release => release =? target_year
           | None => false                     (* ValueError: continue *)
           end
  end.

Definition process_item (genre : string) (target_year : Z)
    (year_tracks : list TrackRecord) (track : track_item) : item_outcome :=
  match item_name track, item_artist track with
  | Some name, Some artist =>
      if is_duplicate year_tracks name artist then Skipped
      else if negb (release_year_ok (item_release_date track) target_year)
      then Skipped
      else match item_popularity track with
           | None => Failed
           | Some pop =>
               if pop <? 15 then Skipped
               else match item_duration_ms track with
                    | None => Failed
                    | Some dur =>
                        Added {| track_name := name;
                                 artist_name := artist;
                                 popularity := pop;
                                 duration_ms := dur;
                                 title_length := title_length_of name;
                                 word_count := word_count_of name;
                                 has_numbers := has_numbers_of name;
                                 has_special_chars := has_special_chars_of name;
                                 genre_category := genre;
                                 release_year := target_year |}
                    end
           end
  | _, _ => Failed
  end.

Section WithApi.

(** The search API is an oracle with its own state: a call takes the query
    string and the offset and answers with a page. *)
Variable St : Type.
Variable sp_search : St -> string -> Z -> search_response * St.

(** [for track in tracks]: the new [year_tracks] and whether an exception
    ended the loop. *)
Fixpoint page_loop (self : Self) (genre : string) (target_year : Z)
    (tracks : list track_item) (year_tracks : list TrackRecord)
  : list TrackRecord * bool :=
  match tracks with
  | [] => (year_tracks, false)
  | track :: rest =>
      if llen year_tracks >=? tracks_per_year self then (year_tracks, false)
      else match process_item genre target_year year_tracks track with
           | Skipped => page_loop self genre target_year rest year_tracks
           | Failed => (year_tracks, true)
           | Added r =>
               page_loop self genre target_year rest (year_tracks ++ [r])
           end
  end.

Definition max_offset : Z := 500.

(** The [while] of [_search_tracks]; [fuel] bounds the page requests. *)
Fixpoint search_loop (self : Self) (fuel : nat) (st : St)
    (search_query genre : string)
    (target_year : Z) (year_tracks : list TrackRecord) (offset : Z)
  : option (list TrackRecord * St) :=
  if (llen year_tracks <? tracks_per_year self) && (offset <? max_offset) then
    match fuel with
    | O => None
    | S fuel' =>
        let (response, st') := sp_search st search_query offset in
        match response with
        | ApiError => Some (year_tracks, st')
        | Items [] => Some (year_tracks, st')
        | Items tracks =>
            let (year_tracks', raised) :=
              page_loop self genre target_year tracks year_tracks in
            if raised then Some (year_tracks', st')
            else search_loop self fuel' st' search_query genre target_year
                   year_tracks' (offset + llen tracks)
        end
    end
  else Some (year_tracks, st).

(** [_search_tracks]: returns [tracks_found] together with the list it
    appended to and the oracle's state. *)
Definition _search_tracks (self : Self) (st : St) (search_query : string)
    (year_tracks : list TrackRecord) (genre : string) (target_year : Z)
  : option (Z * list TrackRecord * St) :=
  let tracks_before := llen year_tracks in
  let? (year_tracks', st') :=
    search_loop self (Z.to_nat max_offset) st search_query genre target_year
      year_tracks 0 in
  Some (llen year_tracks' - tracks_before, year_tracks', st').

(** ** One (genre, year) cell: lines 227-257 *)

(** A record of one turn of the [while] loop, kept for the statements
    about the loop: the variant picked and the queries handed to
    [_search_tracks]. It does not influence the run. *)
Record attempt : Type := {
  variant : string;
  issued : list string
}.

(** The two formulations built from a variant. *)
Definition search_queries (year : Z) (query genre : string) : list string :=
  [ ("year:" ++ str year ++ " " ++ query)%string;
    ("year:" ++ str year ++ " genre:" ++ genre)%string ].

(** [for search_query in search_queries] *)
Fixpoint formulations_loop (self : Self) (st : St) (queries : list string)
    (genre : string) (year : Z) (year_tracks : list TrackRecord)
    (sent : list string)
  : option (list TrackRecord * St * list string) :=
  match queries with
  | [] => Some (year_tracks, st, sent)
  | search_query :: rest =>
      if llen year_tracks >=? tracks_per_year self
      then Some (year_tracks, st, sent)
      else
        let? (_, year_tracks', st') :=
          _search_tracks self st search_query year_tracks genre year in
        formulations_loop self st' rest genre year year_tracks'
          (sent ++ [search_query])
  end.

Definition max_attempts (genre_queries : list string) : Z :=
  llen genre_queries * 3.

(** [genre_queries[query_index % len(genre_queries)]]; the list is not
    empty whenever the loop body runs. *)
Definition pick (genre_queries : list string) (query_index : Z) : string :=
  nth (Z.to_nat (query_index mod llen genre_queries)) genre_queries "".

(** The [while] over attempts; [fuel] bounds its turns. *)
Fixpoint attempts_loop (self : Self) (fuel : nat) (st : St)
    (genre_queries : list string) (genre : string) (year : Z)
    (year_tracks : list TrackRecord) (query_index attempts : Z)
    (log : list attempt)
  : option (list TrackRecord * St * Z * list attempt) :=
  if (llen year_tracks <? tracks_per_year self)
     && (attempts <? max_attempts genre_queries) then
    match fuel with
    | O => None
    | S fuel' =>
        let query := pick genre_queries query_index in
        let? (year_tracks', st', sent) :=
          formulations_loop self st (search_queries year query genre)
            genre year year_tracks [] in
        attempts_loop self fuel' st' genre_queries genre year year_tracks'
          (query_index + 1) (attempts + 1)
          (log ++ [{| variant := query; issued := sent |}])
    end
  else Some (year_tracks, st, attempts, log).

(** The body of [for year in self.years]: a fresh [year_tracks], filled by
    the attempts loop. Also returns the number of attempts and their log. *)
Definition collect_cell (self : Self) (st : St) (genre_queries : list string)
    (genre : string) (year : Z)
  : option (list TrackRecord * St * Z * list attempt) :=
  attempts_loop self (Z.to_nat (max_attempts genre_queries)) st genre_queries
    genre year [] 0 0 [].

(** [for year in self.years] *)
Fixpoint years_loop (self : Self) (st : St) (genre_queries : list string)
    (genre : string) (ys : list Z) (all_genre_tracks : list TrackRecord)
  : option (list TrackRecord * St) :=
  match ys with
  | [] => Some (all_genre_tracks, st)
  | year :: ys' =>
      let? (year_tracks, st', _, _) :=
        collect_cell self st genre_queries genre year in
      years_loop self st' genre_queries genre ys'
        (all_genre_tracks ++ year_tracks)
  end.

(** [_collect_genre_tracks] *)
Definition _collect_genre_tracks (self : Self) (st : St) (genre : string)
  : option (result (list TrackRecord) * St) :=
  match lookup (genre_categories self) genre with
  | Raise e => Some (Raise e, st)
  | Ok genre_queries =>
      let? (all_genre_tracks, st') :=
        years_loop self st genre_queries genre (years self) [] in
      Some (Ok all_genre_tracks, st')
  end.

(** ** The run: [collect_tracks] *)

(** [for genre in self.genres] inside the [try]. *)
Fixpoint genres_loop (self : Self) (st : St) (gs : list string)
    (all_tracks : list TrackRecord)
  : option (result (list TrackRecord) * St) :=
  match gs with
  | [] => Some (Ok all_tracks, st)
  | genre :: gs' =>
      let? (r, st') := _collect_genre_tracks self st genre in
      match r with
      | Raise e => Some (Raise e, st')
      | Ok genre_tracks =>
          genres_loop self st' gs'
            (match genre_tracks with
             | [] => all_tracks
             | _ => all_tracks ++ genre_tracks
             end)
      end
  end.

(** The dict literal of [year_tracks.append]. *)
Definition record_dict (r : TrackRecord) : Pandas.dict :=
  [ ("track_name", Pandas.CStr (track_name r));
    ("artist_name", Pandas.CStr (artist_name r));
    ("popularity", Pandas.CInt (popularity r));
    ("duration_ms", Pandas.CInt (duration_ms r));
    ("title_length", Pandas.CInt (title_length r));
    ("word_count", Pandas.CInt (word_count r));
    ("has_numbers", Pandas.CBool (has_numbers r));
    ("has_special_chars", Pandas.CBool (has_special_chars r));
    ("genre_category", Pandas.CStr (genre_category r));
    ("release_year", Pandas.CInt (release_year r)) ].

(** [pd.DataFrame(all_tracks)] and the two columns added when absent. *)
Definition build_frame (all_tracks : list TrackRecord)
  : result Pandas.DataFrame :=
  let df := Pandas.from_records (map record_dict all_tracks) in
  let with_length :=
    if Pandas.mem "title_length" (Pandas.columns df) then Ok df
    else match Pandas.column df "track_name" with
         | Ok names =>
             Ok (Pandas.assign df "title_length" (map Pandas.str_len names))
         | Raise e => Raise e
         end in
  match with_length with
  | Raise e => Raise e
  | Ok df1 =>
      if Pandas.mem "word_count" (Pandas.columns df1) then Ok df1
      else match Pandas.column df1 "track_name" with
           | Ok names =>
               Ok (Pandas.assign df1 "word_count"
                     (map Pandas.str_split_len names))
           | Raise e => Raise e
           end
  end.

(** [collect_tracks]. The override runs before the [try]; whatever is
    raised inside the [try] is printed and turned into [None]. *)
Definition collect_tracks (self : Self) (st : St) (target : option Z)
  : option (result (option Pandas.DataFrame) * St) :=
  match override_target self target with
  | Raise e => Some (Raise e, st)
  | Ok self' =>
      let? (r, st') := genres_loop self' st (genres self') [] in
      match r with
      | Raise _ => Some (Ok None, st')
      | Ok [] => Some (Ok None, st')
      | Ok all_tracks =>
          match build_frame all_tracks with
          | Ok df => Some (Ok (Some df), st')
          | Raise _ => Some (Ok None, st')
          end
      end
  end.

(** The records behind the frame: the list [all_tracks] when the loop over
    the genres ends. *)
Definition run_records (self : Self) (st : St) (target : option Z)
  : option (result (list TrackRecord) * St) :=
  match override_target self target with
  | Raise e => Some (Raise e, st)
  | Ok self' => genres_loop self' st (genres self') []
  end.

End WithApi.

(** ** Vocabulary for the statements about a cell and a run *)



(** The identity pair of a record, and the pair with its cell. *)
Definition key (r : TrackRecord) : string * string :=
  (track_name r, artist_name r).

Definition cell_key (r : TrackRecord) : string * string * string * Z :=
  (track_name r, artist_name r, genre_category r, release_year r).

(** A release date that passed the check for [year]: it is empty or null
    (unchecked), or its first four characters read as [year]. *)
Definition date_agrees (d : date_field) (year : Z) : Prop :=
  match d with
  | DateMissing => False
  | DateNull => True
  | DateStr s => s = "" \/ int (prefix 4 s) = Some year
  end.

(** The keys of the dict literal, in order. *)
Definition record_columns : list string :=
  ["track_name"; "artist_name"; "popularity"; "duration_ms"; "title_length";
   "word_count"; "has_numbers"; "has_special_chars"; "genre_category";
   "release_year"].

(** [track] is an item of some page that the search oracle answers. *)
Definition returned {St : Type}
    (sp_search : St -> string -> Z -> search_response * St)
    (track : track_item) : Prop :=
  exists st q offset tracks st',
    sp_search st q offset = (Items tracks, st') /\ In track tracks.

(** [r] is the record that [process_item] builds, in a search for the cell
    [(genre, year)], from an item that the oracle returned. *)
Definition from_item {St : Type}
    (sp_search : St -> string -> Z -> search_response * St)
    (genre : string) (year : Z) (r : TrackRecord) : Prop :=
  exists track year_tracks,
    returned sp_search track
    /\ process_item genre year year_tracks track = Added r.

End Collector.

(* ================================================================== *)
(** * Recovery of a partial collection: run_step_2 in main.py *)
(* ================================================================== *)

Module Recovery.

Import Py.

(** The names bound in the body of [class OptimisedTitleCollector]. *)
Definition class_methods : list string :=
  ["__init__"; "_setup_collection_parameters"; "set_collection_size";
   "collect_tracks"; "_setup_spotify_client"; "_collect_genre_tracks";
   "_search_tracks"].

(** The attributes [__init__] sets on the instance. *)
Definition instance_attributes : list string :=
  ["test_mode"; "genres"; "target_per_genre"; "max_retries"; "retry_delay";
   "sp"; "genre_categories"; "years"; "tracks_per_year"].

(** [collector.<attr>] on an instance of the class (which has no base
    class other than [object] and defines no [__getattr__]). *)
Definition getattr (attr : string) : result string :=
  if Pandas.mem attr instance_attributes || Pandas.mem attr class_methods
  then Ok attr
  else Raise (AttributeError attr).

(** How the branch of [run_step_2] for mode 5 ends. *)
Inductive outcome : Type :=
| NoPartialCollections       (* "No partial collections found" *)
| InvalidSelection           (* "Invalid selection" *)
| RecoveryComplete (df : Pandas.DataFrame)   (* the frame is saved *)
| RecoveryFailed.            (* "Recovery failed" *)

Section Loader.

(** What calling the loader on a directory would return, were the
    attribute found. *)
Variable loader : string -> option Pandas.DataFrame.

(** Mode 5 of [run_step_2]: [temp_dirs] is the result of the glob and
    [answer] the line typed by the user. The construction of the
    collector, between the selection and the call, is taken to succeed. *)
Definition recover (temp_dirs : list string) (answer : string)
  : result outcome :=
  match temp_dirs with
  | [] => Ok NoPartialCollections
  | _ =>
      match int answer with
      | None => Ok InvalidSelection                  (* ValueError *)
      | Some n =>
          match index temp_dirs (n - 1) with
          | None => Ok InvalidSelection              (* IndexError *)
          | Some selected_dir =>
              match getattr "recover_partial_collection" with
              | Raise e => Raise e                   (* not caught *)
              | Ok _ =>
                  match loader selected_dir with
                  | Some df => Ok (RecoveryComplete df)
                  | None => Ok RecoveryFailed
                  end
              end
          end
      end
  end.

End Loader.

End Recovery.

(* ================================================================== *)
(** * The cleaning pipeline: data_cleaner.py *)
(* ================================================================== *)

Module Cleaner.

Import Py Pandas.

(** [df.dropna(subset=...)]: labels that are no column raise a [KeyError]
    naming them; otherwise the rows with a missing value in one of the
    columns are dropped. *)
Definition dropna (df : DataFrame) (subset : list string) : result DataFrame :=
  match filter (fun c => negb (mem c (columns df))) subset with
  | [] =>
      Ok {| columns := columns df;
            data :=
              filter (fun row =>
                forallb (fun c =>
                  match position c (columns df) with
                  | Some i => negb (isnull (nth i row CNaN))
                  | None => true
                  end) subset) (data df) |}
  | absent => Raise (KeyError absent)
  end.

(** [df[c] = df[c].fillna(v)] under [if c in df.columns]. *)
Definition fillna_if_present (c : string) (v : cell) (df : DataFrame)
  : DataFrame :=
  if mem c (columns df) then
    match column df c with
    | Ok values =>
        assign df c (map (fun x => if isnull x then v else x) values)
    | Raise _ => df
    end
  else df.

Definition key_cols : list string :=
  ["track_name"; "artist_name"; "popularity"; "duration_ms"; "genre"].

(** [_handle_missing_values]: the value of [self.cleaned_df] afterwards. *)
Definition _handle_missing_values (df : DataFrame) : result DataFrame :=
  match dropna df key_cols with
  | Raise e => Raise e
  | Ok cleaned_df =>
      Ok (fillna_if_present "has_special_chars" (CBool false)
           (fillna_if_present "has_numbers" (CBool false)
             (fillna_if_present "word_count" (CInt 0)
               (fillna_if_present "title_length" (CInt 0) cleaned_df))))
  end.

Section Pipeline.

(** Steps 2.2 to 2.6 ([_remove_duplicates] to [_validate_cleaned_data])
    as one function of the frame left by step 2.1. *)
Variable later_steps : DataFrame -> result DataFrame.

(** [clean_data] *)
Definition clean_data (df : DataFrame) : result DataFrame :=
  match _handle_missing_values df with
  | Raise e => Raise e
  | Ok cleaned_df => later_steps cleaned_df
  end.

End Pipeline.

(** [drop_duplicates(subset=['track_name', 'artist_name'])], the step
    after the missing values. *)
Fixpoint drop_duplicates_rows (ia ib : nat) (seen : list (cell * cell))
    (rows : list (list cell)) : list (list cell) :=
  match rows with
  | [] => []
  | row :: rows' =>
      let k := (nth ia row CNaN, nth ib row CNaN) in
      if existsb (fun k' => cell_eqb (fst k') (fst k)
                            && cell_eqb (snd k') (snd k)) seen
      then drop_duplicates_rows ia ib seen rows'
      else row :: drop_duplicates_rows ia ib (k :: seen) rows'
  end.

Definition _remove_duplicates (df : DataFrame) : result DataFrame :=
  match position "track_name" (columns df),
        position "artist_name" (columns df) with
  | Some ia, Some ib =>
      Ok {| columns := columns df;
            data := drop_duplicates_rows ia ib [] (data df) |}
  | None, Some _ => Raise (KeyError ["track_name"])
  | Some _, None => Raise (KeyError ["artist_name"])
  | None, None => Raise (KeyError ["track_name"; "artist_name"])
  end.

End Cleaner.

(* ================================================================== *)
(** * The test suite: statistical_tests.py, results_interpretation.py *)
(* ================================================================== *)

Module Stats.

(** Python floats are binary64 values, as are the primitive floats. *)
Definition gt (x y : float) : bool := PrimFloat.ltb y x.
Definition lt (x y : float) : bool := PrimFloat.ltb x y.

(** A conclusion string, kept as the parts its f-string is built from:
    the band, the direction and the number shown. *)
Inductive conclusion : Type :=
| NotSignificant
| Found (band : string) (direction : option string) (shown : float).

(** [TitleFeatureAnalyzer._interpret_correlation] *)
Definition _interpret_correlation (correlation p_value : float) : conclusion :=
  if gt p_value 0.05 then NotSignificant
  else
    let strength :=
      if gt (abs correlation) 0.5 then "strong"
      else if gt (abs correlation) 0.3 then "moderate" else "weak" in
    let direction := if gt correlation 0 then "positive" else "negative" in
    Found strength (Some direction) correlation.

(** [TitleFeatureAnalyzer._interpret_anova] *)
Definition _interpret_anova (p_value eta_squared : float) : conclusion :=
  if gt p_value 0.05 then NotSignificant
  else
    let effect :=
      if gt eta_squared 0.14 then "large"
      else if gt eta_squared 0.06 then "medium" else "small" in
    Found effect None eta_squared.

(** [TitleFeatureAnalyzer._interpret_ttest] *)
Definition _interpret_ttest (p_value cohens_d : float) : conclusion :=
  if gt p_value 0.05 then NotSignificant
  else
    let effect :=
      if gt (abs cohens_d) 0.8 then "large"
      else if gt (abs cohens_d) 0.5 then "medium" else "small" in
    let direction := if gt cohens_d 0 then "higher" else "lower" in
    Found effect (Some direction) cohens_d.

(** The band a conclusion names, if it names one. *)
Definition band_of (c : conclusion) : option string :=
  match c with
  | NotSignificant => None
  | Found band _ _ => Some band
  end.

(** The entries of the dict built by
    [ResultsInterpreter._interpret_correlation] that depend on the
    numbers. *)
Record interpretation : Type := {
  significance : string;
  effect_size : string;
  direction : string
}.

Definition interpreter_correlation (corr p_value : float) : interpretation :=
  {| significance :=
       if lt p_value 0.05 then "significant" else "not significant";
     effect_size :=
       if lt (abs corr) 0.1 then "negligible"
       else if lt (abs corr) 0.3 then "small"
       else if lt (abs corr) 0.5 then "medium"
       else "large";
     direction := if gt corr 0 then "positive" else "negative" |}.

(** The bands as the specification words them, for comparison. *)
Definition spec_correlation_band (r : float) : string :=
  if lt r 0.1 then "negligible"
  else if lt r 0.3 then "small"
  else if lt r 0.5 then "medium" else "large".

Definition spec_cohen_band (d : float) : string :=
  if lt d 0.5 then "small" else if lt d 0.8 then "medium" else "large".

Definition spec_eta_band (eta : float) : string :=
  if lt eta 0.06 then "small" else if lt eta 0.14 then "medium" else "large".

End Stats.

(* ================================================================== *)
(** * Sample inputs *)
(* ================================================================== *)

Module Samples.

Import Py Collector.

(** A well-formed catalogue item. *)
Definition song (title artist date : string) (pop : Z) : track_item :=
  {| item_name := Some title;
     item_artist := Some artist;
     item_release_date := DateStr date;
     item_popularity := Some pop;
     item_duration_ms := Some 200000 |}.

(** An oracle that answers every query with the same first page and
    nothing after it; its state counts the requests. *)
Definition first_page (page : list track_item)
    (st : nat) (q : string) (offset : Z) : search_response * nat :=
  (if offset =? 0 then Items page else Items [], S st).

(** An oracle whose every request fails. *)
Definition failing (st : nat) (q : string) (offset : Z)
  : search_response * nat := (ApiError, S st).

Definition hello : track_item := song "Hello" "Adele" "2024-01-19" 50.
Definition untitled : track_item := song "" "Nobody" "2024-03-01" 50.
Definition loud : track_item := song "Loud" "Somebody" "2024-06-01" 150.
Definition undated : track_item := song "Intro" "Various" "" 40.

(** A run of the collector built by [__init__] against the oracle that
    knows one song, with a total of 5 per genre: its frame and the final
    state of the oracle. *)
Definition hello_run : option (result (option Pandas.DataFrame) * nat) :=
  collect_tracks (first_page [hello]) (init false) 0%nat (Some 5).

Definition hello_frame : Pandas.DataFrame :=
  match hello_run with
  | Some (Ok (Some df), _) => df
  | _ => {| Pandas.columns := []; Pandas.data := [] |}
  end.

Definition hello_records : list TrackRecord :=
  match run_records (first_page [hello]) (init false) 0%nat (Some 5) with
  | Some (Ok all_tracks, _) => all_tracks
  | _ => []
  end.

Definition hello_state : nat :=
  match hello_run with
  | Some (_, st) => st
  | None => 0%nat
  end.

(** A frame with the collector's columns and one row. *)
Definition one_row : Pandas.DataFrame :=
  Pandas.from_records
    [record_dict
       {| track_name := "Hello"; artist_name := "Adele"; popularity := 50;
          duration_ms := 200000; title_length := 5; word_count := 1;
          has_numbers := false; has_special_chars := false;
          genre_category := "pop"; release_year := 2024 |}].

End Samples.

(* ================================================================== *)
(** * Counting the requests of a search *)
(* ================================================================== *)

Module Instrumented.

Import Collector.

(** The same oracle with a counter of the requests made beside its
    state. It answers as the oracle does. *)
Definition counted {St : Type}
    (sp_search : St -> string -> Z -> search_response * St)
    (st : St * nat) (q : string) (offset : Z) : search_response * (St * nat) :=
  let (response, st') := sp_search (fst st) q offset in
  (response, (st', S (snd st))).

(** What a cell of the grid holds: records of its genre and year, at most
    the per-year target of them. *)
Definition cell_of (self : Self) (genre : string) (year : Z)
    (cell : list TrackRecord) : Prop :=
  Forall (fun r => genre_category r = genre /\ release_year r = year) cell
  /\ Py.llen cell <= Z.max 0 (tracks_per_year self).

End Instrumented.

(* ================================================================== *)
(** * More sample inputs *)
(* ================================================================== *)

Module MoreSamples.

Import Py Collector.

(** The record the collector builds from [Samples.hello] for pop, 2024. *)
Definition hello_record : TrackRecord :=
  {| track_name := "Hello"; artist_name := "Adele"; popularity := 50;
     duration_ms := 200000; title_length := 5; word_count := 1;
     has_numbers := false; has_special_chars := false;
     genre_category := "pop"; release_year := 2024 |}.

(** A collector whose list of genres was given a genre that has no entry
    in [genre_categories]. *)
Definition country_collector : Self :=
  {| test_mode := false;
     genres := "pop" :: "country" :: nil;
     target_per_genre := 10;
     max_retries := 3;
     retry_delay := 1;
     years := [2024];
     tracks_per_year := 2;
     genre_categories := the_genre_categories |}.

(** A collector whose list of years was emptied. *)
Definition no_years : Self :=
  {| test_mode := false;
     genres := the_genres;
     target_per_genre := 10;
     max_retries := 3;
     retry_delay := 1;
     years := [];
     tracks_per_year := 2;
     genre_categories := the_genre_categories |}.

(** The attempt that the cell (pop, 2024) logs for the variant
    "genre:pop". *)
Definition pop_attempt : attempt :=
  {| variant := "genre:pop";
     issued := ["year:2024 genre:pop"; "year:2024 genre:pop"] |}.

End MoreSamples.

(* ================================================================== *)
(** * Selecting from a numbered list: main.py *)
(* ================================================================== *)

Module Menu.

(** [items[int(choice) - 1]] under [except (ValueError, IndexError)], the
    way [run_step_2] to [run_step_8] read the user's choice; [None] is the
    branch that prints "Invalid selection". *)
Definition select {A : Type} (items : list A) (choice : string) : option A :=
  match Py.int choice with
  | None => None
  | Some n => Py.index items (n - 1)
  end.

End Menu.

(* ================================================================== *)
(** * More of the cleaning: data_cleaner.py, run_step_4 of main.py *)
(* ================================================================== *)

Module CleanerSteps.

Import Py Pandas Cleaner.

(** ** Frames, row by row *)

(** Every row has one cell per column. *)
Definition well_formed (df : DataFrame) : Prop :=
  Forall (fun row => List.length row = List.length (columns df)) (data df).

(** The cells under column [c] are all present. *)
Definition no_null_in (c : string) (df : DataFrame) : Prop :=
  forall i, position c (columns df) = Some i ->
            Forall (fun row => isnull (nth i row CNaN) = false) (data df).

(** ** Outliers: [_handle_outliers] *)

(** [Series.clip(lo, hi)] on one value of a column of numbers; [None]
    stands for a cell outside the model of this step: a string, which
    the conversion of the step before has turned into a missing value,
    or a boolean, which pandas would clip as a number. *)
Definition clip_cell (lo hi : Z) (v : cell) : option cell :=
  match v with
  | CInt z => Some (CInt (Z.min (Z.max z lo) hi))
  | CNaN => Some CNaN
  | _ => None
  end.

Fixpoint map_opt {A B : Type} (f : A -> option B) (l : list A)
  : option (list B) :=
  match l with
  | [] => Some []
  | x :: l' =>
      match f x, map_opt f l' with
      | Some y, Some ys => Some (y :: ys)
      | _, _ => None
      end
  end.

(** [df[col] = df[col].clip(lo, hi)] under [if col in df.columns]. *)
Definition clip_if_present (col : string) (lo hi : Z) (df : DataFrame)
  : option DataFrame :=
  if mem col (columns df) then
    match column df col with
    | Ok values =>
        match map_opt (clip_cell lo hi) values with
        | Some clipped => Some (assign df col clipped)
        | None => None
        end
    | Raise _ => Some df
    end
  else Some df.

Definition ranges : list (string * (Z * Z)) :=
  [ ("popularity", (0, 100));
    ("duration_ms", (0, 3600000));
    ("title_length", (0, 200));
    ("word_count", (0, 50)) ].

(** [_handle_outliers]: the loop over [ranges.items()]. *)
Definition _handle_outliers (df : DataFrame) : option DataFrame :=
  fold_left (fun acc r =>
               match acc with
               | Some d => clip_if_present (fst r) (fst (snd r)) (snd (snd r)) d
               | None => None
               end) ranges (Some df).

(** The value that [clip(lo, hi)] puts in place of a cell. *)
Definition clipped (lo hi : Z) (v : cell) : cell :=
  match clip_cell lo hi v with
  | Some v' => v'
  | None => v
  end.

(** The effect on one row of clipping the column [c]. *)
Definition clip_row (c : string) (lo hi : Z) (cols : list string)
    (row : list cell) : list cell :=
  match position c cols with
  | Some i => set_nth i (clipped lo hi (nth i row CNaN)) row
  | None => row
  end.

(** A row after each of the four clips, in the order of [ranges]. *)
Definition after_popularity (cols : list string) (row : list cell) :=
  clip_row "popularity" 0 100 cols row.
Definition after_duration (cols : list string) (row : list cell) :=
  clip_row "duration_ms" 0 3600000 cols (after_popularity cols row).
Definition after_title_length (cols : list string) (row : list cell) :=
  clip_row "title_length" 0 200 cols (after_duration cols row).
Definition after_word_count (cols : list string) (row : list cell) :=
  clip_row "word_count" 0 50 cols (after_title_length cols row).

(** A cell that [clip(lo, hi)] leaves alone. *)
Definition within (lo hi : Z) (v : cell) : Prop :=
  v = CNaN \/ exists z, v = CInt z /\ lo <= z <= hi.

(** ** Bins: [pd.cut] *)

(** An edge of a bin: a number or [float('inf')]. *)
Inductive edge : Type :=
| Fin (z : Z)
| Inf.

Definition above (e : edge) (z : Z) : bool :=      (* e < z *)
  match e with Fin x => x <? z | Inf => false end.

Definition upto (z : Z) (e : edge) : bool :=       (* z <= e *)
  match e with Fin x => z <=? x | Inf => true end.

(** [pd.cut(x, bins, labels)] on an integer: the label of the bin
    [(lo, hi]] that holds it, and a missing value when none does. *)
Fixpoint cut_int (bins : list edge) (labels : list string) (z : Z) : cell :=
  match bins, labels with
  | lo :: ((hi :: _) as rest), label :: labels' =>
      if above lo z && upto z hi then CStr label else cut_int rest labels' z
  | _, _ => CNaN
  end.

(** The groupings of [_create_derived_features]. *)
Definition title_length_group (z : Z) : cell :=
  cut_int [Fin 0; Fin 20; Fin 40; Fin 60; Inf]
    ["Very Short (0-20)"; "Short (21-40)"; "Medium (41-60)"; "Long (60+)"] z.

Definition word_count_group (z : Z) : cell :=
  cut_int [Fin 0; Fin 2; Fin 4; Inf]
    ["Short (1-2 words)"; "Medium (3-4 words)"; "Long (5+ words)"] z.

Definition popularity_category (z : Z) : cell :=
  cut_int [Fin 0; Fin 20; Fin 40; Fin 60; Fin 80; Fin 100]
    ["Very Low (0-20)"; "Low (21-40)"; "Medium (41-60)"; "High (61-80)";
     "Very High (81-100)"] z.

(** The grouping of [TitleFeatureAnalyzer._test_word_count_groups] in
    statistical_tests.py, written to the same column. *)
Definition analyzer_word_count_group (z : Z) : cell :=
  cut_int [Fin 0; Fin 1; Fin 3; Fin 5; Inf]
    ["Single"; "Short"; "Medium"; "Long"] z.

(** The f-string of [title_feature_group] on the two flags. *)
Definition title_feature_group (has_numbers has_special_chars : bool)
  : string :=
  ((if has_numbers then "Has Numbers" else "No Numbers") ++ ", "
   ++ (if has_special_chars then "Has Special Chars" else "No Special Chars"))
  %string.

(** ** The basic cleaning of [run_step_4] *)

Fixpoint row_eqb (r1 r2 : list cell) : bool :=
  match r1, r2 with
  | [], [] => true
  | u :: r1', v :: r2' => cell_eqb u v && row_eqb r1' r2'
  | _, _ => false
  end.

(** [df.drop_duplicates()]: a row equal to an earlier one is dropped. *)
Fixpoint drop_duplicates_all (seen : list (list cell))
    (rows : list (list cell)) : list (list cell) :=
  match rows with
  | [] => []
  | row :: rows' =>
      if existsb (row_eqb row) seen then drop_duplicates_all seen rows'
      else row :: drop_duplicates_all (row :: seen) rows'
  end.

Definition critical_columns : list string :=
  ["track_name"; "artist_name"; "popularity"].

(** The two cleaning statements of [run_step_4]. *)
Definition basic_clean (df : DataFrame) : result DataFrame :=
  let df_cleaned := {| columns := columns df;
                       data := drop_duplicates_all [] (data df) |} in
  dropna df_cleaned
    (filter (fun col => mem col (columns df_cleaned)) critical_columns).

(** A column that does not hold integers beside booleans, as every
    column of a frame that [pd.read_csv] returns: on such a column
    [cell_eqb] is the equality that [drop_duplicates] uses. *)
Definition is_int (v : cell) : bool :=
  match v with CInt _ => true | _ => false end.

Definition is_bool (v : cell) : bool :=
  match v with CBool _ => true | _ => false end.

Definition unmixed (i : nat) (rows : list (list cell)) : Prop :=
  Forall (fun row => is_int (nth i row CNaN) = false) rows
  \/ Forall (fun row => is_bool (nth i row CNaN) = false) rows.

(** The pair of cells that [_remove_duplicates] compares. *)
Definition pair_key (ia ib : nat) (row : list cell) : cell * cell :=
  (nth ia row CNaN, nth ib row CNaN).

End CleanerSteps.

(* ================================================================== *)
(** * Sample frames *)
(* ================================================================== *)

Module FrameSamples.

Import Pandas.

(** A frame with the columns that the cleaner asks for: the second row
    lacks its artist, the first its title length, and the third repeats
    the title and artist of the first. *)
Definition genre_frame : DataFrame :=
  {| columns := ["track_name"; "artist_name"; "popularity"; "duration_ms";
                 "genre"; "title_length"; "word_count"];
     data :=
       [ [CStr "Hello"; CStr "Adele"; CInt 150; CInt 200000; CStr "pop";
          CNaN; CInt 1];
         [CStr "Gone"; CNaN; CInt 10; CInt 1; CStr "pop"; CInt 4; CInt 1];
         [CStr "Hello"; CStr "Adele"; CInt 0; CInt 5000000; CStr "rock";
          CInt 5; CInt 75] ] |}.

(** The same frame after [_handle_outliers]. *)
Definition clipped_genre_frame : DataFrame :=
  match CleanerSteps._handle_outliers genre_frame with
  | Some df => df
  | None => genre_frame
  end.

End FrameSamples.

(* ================================================================== *)
(** * Bias correction: post_eda_cleaner.py *)
(* ================================================================== *)

Module PostEDA.

Import Pandas.

(** The dict stored under one action of [cleaning_report]. *)
Record details : Type := {
  applied : bool;
  method : string;
  parameters : string
}.

Definition placeholder : details :=
  {| applied := true; method := "placeholder";
     parameters := "TBD after EDA" |}.

(** The attributes of a [PostEDADataCleaner] that its methods touch. *)
Record Self : Type := {
  df : DataFrame;
  cleaned_df : option DataFrame;
  cleaning_report : list (string * details)
}.

(** [__init__] without EDA results. *)
Definition init (frame : DataFrame) : Self :=
  {| df := frame; cleaned_df := None; cleaning_report := [] |}.

(** [d[k] = v] on a dict, which keeps the order of first insertion. *)
Fixpoint setitem {V : Type} (k : string) (v : V) (d : list (string * V))
  : list (string * V) :=
  match d with
  | [] => [(k, v)]
  | (k', v') :: d' =>
      if String.eqb k' k then (k, v) :: d' else (k', v') :: setitem k v d'
  end.

Definition _determine_optimal_strategy (self : Self) : string :=
  "artist_limit".

(** The three strategies: each only writes its entry of the report. *)
Definition report (action : string) (self : Self) : Self :=
  {| df := df self; cleaned_df := cleaned_df self;
     cleaning_report := setitem action placeholder (cleaning_report self) |}.

Definition _apply_artist_limiting : Self -> Self := report "artist_limiting".
Definition _apply_stratified_sampling : Self -> Self :=
  report "stratified_sampling".
Definition _remove_artist_outliers : Self -> Self := report "outlier_removal".

(** [apply_bias_correction]: the frame returned and the object after. *)
Definition apply_bias_correction (self : Self) (strategy : string)
  : option DataFrame * Self :=
  let self := {| df := df self; cleaned_df := Some (df self);
                 cleaning_report := cleaning_report self |} in
  let strategy :=
    if String.eqb strategy "auto" then _determine_optimal_strategy self
    else strategy in
  if String.eqb strategy "artist_limit" then
    let self := _apply_artist_limiting self in (cleaned_df self, self)
  else if String.eqb strategy "stratified" then
    let self := _apply_stratified_sampling self in (cleaned_df self, self)
  else if String.eqb strategy "remove_outliers" then
    let self := _remove_artist_outliers self in (cleaned_df self, self)
  else (cleaned_df self, self).

(** [export_cleaned_data]: the frame written to [output_path], if any. *)
Definition export_cleaned_data (self : Self) : option DataFrame :=
  cleaned_df self.

End PostEDA.

(* ================================================================== *)
(** * The tests and their summary: statistical_tests.py *)
(* ================================================================== *)

Module Analyzer.

(** [TestResult], without its timestamp. *)
Record TestResult : Type := {
  test_name : string;
  hypothesis : string;
  test_statistic : float;
  p_value : float;
  effect_size : float;
  conclusion : Stats.conclusion
}.

(** What scipy and pandas compute from the data in one run of the
    three tests: the pairs returned by [stats.pearsonr], [stats.f_oneway]
    and [stats.ttest_ind], and the two effect sizes. *)
Record numbers : Type := {
  pearsonr : float * float;
  f_oneway : float * float;
  eta_squared : float;
  ttest_ind : float * float;
  cohens_d : float
}.

(** Each test appends its result to [self.results]. *)
Definition _test_title_length_correlation (results : list TestResult)
    (s : numbers) : list TestResult :=
  let '(correlation, p) := pearsonr s in
  results ++
  [ {| test_name := "Title Length Correlation";
       hypothesis := "Title length is correlated with popularity";
       test_statistic := correlation;
       p_value := p;
       effect_size := abs correlation;
       conclusion := Stats._interpret_correlation correlation p |} ].

Definition _test_word_count_groups (results : list TestResult)
    (s : numbers) : list TestResult :=
  let '(f_stat, p) := f_oneway s in
  results ++
  [ {| test_name := "Word Count ANOVA";
       hypothesis :=
         "Word count groups have different popularity distributions";
       test_statistic := f_stat;
       p_value := p;
       effect_size := eta_squared s;
       conclusion := Stats._interpret_anova p (eta_squared s) |} ].

Definition _test_special_characters (results : list TestResult)
    (s : numbers) : list TestResult :=
  let '(t_stat, p) := ttest_ind s in
  results ++
  [ {| test_name := "Special Characters t-test";
       hypothesis :=
         "Titles with special characters have different popularity";
       test_statistic := t_stat;
       p_value := p;
       effect_size := abs (cohens_d s);
       conclusion := Stats._interpret_ttest p (cohens_d s) |} ].

(** [run_all_tests]: the value of [self.results] afterwards, which is
    also what it returns. *)
Definition run_all_tests (results : list TestResult) (s : numbers)
  : list TestResult :=
  _test_special_characters
    (_test_word_count_groups
       (_test_title_length_correlation results s) s) s.

(** The two counts of [get_summary]. *)
Record summary : Type := {
  total_tests : nat;
  significant_tests : nat
}.

Definition get_summary (results : list TestResult) : summary :=
  {| total_tests := List.length results;
     significant_tests :=
       List.length (filter (fun r => Stats.lt (p_value r) 0.05) results) |}.

End Analyzer.

(* ================================================================== *)
(** * The interpreter: results_interpretation.py *)
(* ================================================================== *)

Module Interpreter.

Import Py.

(** The numbers of one test, a dict from names to floats. *)
Definition entry : Type := list (string * float).

(** What [ResultsInterpreter] is given: the dict its methods expect, or
    the list of [TestResult] that [run_step_7] passes. *)
Inductive results_arg : Type :=
| AsDict (d : list (string * entry))
| AsList (l : list Analyzer.TestResult).

(** [d.get(k)] *)
Fixpoint get {V : Type} (d : list (string * V)) (k : string) : option V :=
  match d with
  | [] => None
  | (k', v) :: d' => if String.eqb k' k then Some v else get d' k
  end.

(** [k in self.results]: a key of the dict; on the list, the string is
    compared with each [TestResult], and equals none. *)
Definition contains (results : results_arg) (k : string) : bool :=
  match results with
  | AsDict d => match get d k with Some _ => true | None => false end
  | AsList _ => false
  end.

(** [self.results[k]], reached only under [k in self.results]. *)
Definition getitem (results : results_arg) (k : string) : result entry :=
  match results with
  | AsDict d =>
      match get d k with
      | Some e => Ok e
      | None => Raise (KeyError [k])
      end
  | AsList _ => Raise (KeyError [k])
  end.

(** [p_value < 0.05] on [.get('p_value', 1)]: the default is the
    integer 1. *)
Definition p_significant (e : entry) : bool :=
  match get e "p_value" with
  | Some p => Stats.lt p 0.05
  | None => false
  end.

(** The entries of an interpretation that are made of strings. *)
Record interp : Type := {
  significance : string;
  effect_size : option string;
  direction : option string;
  interpretation : string;
  business_implication : string;
  recommendations : list string
}.

Definition significance_level (is_significant : bool) : string :=
  if is_significant then "significant" else "not significant".

Definition _get_correlation_business_insight (var1 var2 : string)
    (correlation : float) (is_significant : bool) : string :=
  if negb is_significant then
    ("No reliable relationship found between " ++ var1 ++ " and " ++ var2
     ++ ". Consider other factors.")%string
  else if String.eqb var1 "title length" then
    if Stats.gt correlation 0 then
      "Longer titles tend to be associated with higher popularity. Consider strategic title extension."
    else
      "Shorter titles tend to be associated with higher popularity. Consider concise title strategies."
  else
    ("Significant relationship between " ++ var1 ++ " and " ++ var2
     ++ " detected. Investigate further.")%string.

Definition _get_group_business_insight (group_name : string)
    (is_significant : bool) : string :=
  if negb is_significant then
    ("No meaningful difference between " ++ group_name
     ++ ". Standardised approach may be suitable.")%string
  else
    ("Meaningful differences detected between " ++ group_name
     ++ ". Targeted strategies recommended.")%string.

Definition _get_anova_business_insight (factor_name : string)
    (is_significant : bool) : string :=
  if negb is_significant then
    (factor_name
     ++ " does not significantly impact popularity. Focus on other factors.")
    %string
  else
    (factor_name
     ++ " significantly impacts popularity. Develop factor-specific optimisation strategies.")
    %string.

(** [_interpret_correlation]: both numbers are read with [d[k]]. *)
Definition _interpret_correlation (correlation_result : entry)
    (var1 var2 : string) : result interp :=
  match get correlation_result "correlation" with
  | None => Raise (KeyError ["correlation"])
  | Some corr =>
      match get correlation_result "p_value" with
      | None => Raise (KeyError ["p_value"])
      | Some p =>
          let is_significant := Stats.lt p 0.05 in
          let i := Stats.interpreter_correlation corr p in
          Ok {| significance := Stats.significance i;
                effect_size := Some (Stats.effect_size i);
                direction := Some (Stats.direction i);
                interpretation :=
                  ("There is a " ++ Stats.significance i ++ " "
                   ++ Stats.direction i ++ " " ++ Stats.effect_size i
                   ++ " correlation between " ++ var1 ++ " and " ++ var2
                   ++ ".")%string;
                business_implication :=
                  _get_correlation_business_insight var1 var2 corr
                    is_significant;
                recommendations :=
                  [ ("Analyse " ++ var1 ++ " patterns by genre")%string;
                    ("Consider " ++ var1
                     ++ " as a factor in track optimisation")%string;
                    ("Investigate outliers in " ++ var1 ++ " distribution")
                    %string ] |}
      end
  end.

(** [_interpret_group_comparison]: the numbers are read with [.get]. *)
Definition _interpret_group_comparison (group_result : entry)
    (group_name : string) : interp :=
  let is_significant := p_significant group_result in
  {| significance := significance_level is_significant;
     effect_size := None;
     direction := None;
     interpretation :=
       ("The difference between " ++ group_name ++ " is "
        ++ significance_level is_significant ++ ".")%string;
     business_implication :=
       _get_group_business_insight group_name is_significant;
     recommendations :=
       [ ("Analyse " ++ group_name ++ " patterns by genre")%string;
         ("Consider segmenting strategies by " ++ group_name)%string;
         ("Test " ++ group_name ++ " optimisation approaches")%string ] |}.

(** [_interpret_anova] *)
Definition _interpret_anova (anova_result : entry) (factor_name : string)
  : interp :=
  let is_significant := p_significant anova_result in
  {| significance := significance_level is_significant;
     effect_size := None;
     direction := None;
     interpretation :=
       ("The effect of " ++ factor_name ++ " on popularity is "
        ++ significance_level is_significant ++ ".")%string;
     business_implication :=
       _get_anova_business_insight factor_name is_significant;
     recommendations :=
       [ ("Analyse " ++ factor_name ++ " patterns by genre")%string;
         ("Develop " ++ factor_name ++ "-specific strategies")%string;
         ("Test targeted " ++ factor_name ++ " optimisations")%string ] |}.

(** A line of [business_insights], kept as the parts its f-string is
    built from: the opening line is one of three, and a line for a test
    shows its name and its business implication. *)
Inductive insight : Type :=
| NoneSignificant
| AllSignificant
| SomeSignificant (significant_tests total_tests : nat)
| ForTest (test_name business_implication : string).

Definition is_significant_interp (i : interp) : bool :=
  String.eqb (significance i) "significant".

(** [_generate_business_insights] *)
Definition _generate_business_insights
    (interpretations : list (string * interp)) : list insight :=
  let significant_tests :=
    List.length
      (filter (fun ni => is_significant_interp (snd ni)) interpretations) in
  let total_tests := List.length interpretations in
  let insights :=
    if Nat.eqb significant_tests 0 then [NoneSignificant]
    else if Nat.eqb significant_tests total_tests then [AllSignificant]
    else [SomeSignificant significant_tests total_tests] in
  insights ++
  map (fun ni => ForTest (fst ni) (business_implication (snd ni)))
    (filter (fun ni => is_significant_interp (snd ni)) interpretations).

(** [interpret_all_results] on a fresh interpreter: the dict it returns
    and [self.business_insights] afterwards. *)
Definition interpret_all_results (results : results_arg)
  : result (list (string * interp) * list insight) :=
  let interpretations : list (string * interp) := [] in
  match
    (if contains results "title_length_correlation" then
       match getitem results "title_length_correlation" with
       | Raise e => Raise e
       | Ok e =>
           match _interpret_correlation e "title length" "popularity" with
           | Raise e => Raise e
           | Ok i => Ok (PostEDA.setitem "title_length" i interpretations)
           end
       end
     else Ok interpretations)
  with
  | Raise e => Raise e
  | Ok interpretations =>
      match
        (if contains results "word_count_groups" then
           match getitem results "word_count_groups" with
           | Raise e => Raise e
           | Ok e =>
               Ok (PostEDA.setitem "word_count"
                     (_interpret_group_comparison e "word count groups")
                     interpretations)
           end
         else Ok interpretations)
      with
      | Raise e => Raise e
      | Ok interpretations =>
          match
            (if contains results "title_features_anova" then
               match getitem results "title_features_anova" with
               | Raise e => Raise e
               | Ok e =>
                   Ok (PostEDA.setitem "title_features"
                         (_interpret_anova e "title features")
                         interpretations)
               end
             else Ok interpretations)
          with
          | Raise e => Raise e
          | Ok interpretations =>
              Ok (interpretations,
                  _generate_business_insights interpretations)
          end
      end
  end.

End Interpreter.

(* ================================================================== *)
(** * Sample results *)
(* ================================================================== *)

Module ResultSamples.

(** A run in which every p-value is exactly 0.05. *)
Definition at_threshold : Analyzer.numbers :=
  {| Analyzer.pearsonr := (0.6, 0.05)%float;
     Analyzer.f_oneway := (4, 0.05)%float;
     Analyzer.eta_squared := 0.1%float;
     Analyzer.ttest_ind := (2, 0.05)%float;
     Analyzer.cohens_d := 0.9%float |}.

(** A run in which every test is clearly significant. *)
Definition clear_cut : Analyzer.numbers :=
  {| Analyzer.pearsonr := (0.6, 0.001)%float;
     Analyzer.f_oneway := (4, 0.001)%float;
     Analyzer.eta_squared := 0.1%float;
     Analyzer.ttest_ind := (2, 0.001)%float;
     Analyzer.cohens_d := 0.9%float |}.

(** The dict that the interpreter expects, with a correlation entry that
    lacks its p-value. *)
Definition without_p_value : list (string * Interpreter.entry) :=
  [ ("title_length_correlation", [("correlation", 0.4%float)]);
    ("word_count_groups", []) ].

(** A dict with all three tests: the first two significant. *)
Definition three_tests : list (string * Interpreter.entry) :=
  [ ("title_length_correlation",
     [("correlation", 0.4%float); ("p_value", 0.01%float)]);
    ("word_count_groups", [("p_value", 0.01%float)]);
    ("title_features_anova", [("f_statistic", 2%float)]) ].

End ResultSamples.

(* ================================================================== *)
(** * Statistical assumptions: data_cleaner.py *)
(* ================================================================== *)

Module Assumptions.

Import Py Pandas.

Section WithScipy.

(** The tests of scipy, each returning its statistic and its p-value, and
    the random draw of [Series.sample] when it can be made. *)
Variable shapiro : list cell -> float * float.
Variable normaltest : list cell -> float * float.
Variable draw : Z -> list cell -> list cell.

(** [series.sample(n)], which draws without replacement: a [ValueError]
    when the series has fewer than [n] values. *)
Definition sample (n : Z) (values : list cell) : result (list cell) :=
  if llen values <? n then Raise ValueError else Ok (draw n values).

(** The dict stored under 'normality'. *)
Record normality : Type := {
  title_length_normal : bool;
  word_count_normal : bool;
  popularity_normal : bool;
  test_used : string
}.

(** The first step of [_check_statistical_assumptions], up to the entry
    'normality' of the dict it builds. *)
Definition normality_tests (cleaned_df : DataFrame) : result normality :=
  if llen (data cleaned_df) <? 5000 then
    match column cleaned_df "title_length" with
    | Raise e => Raise e
    | Ok title_length =>
    match sample 5000 title_length with
    | Raise e => Raise e
    | Ok title_sample =>
    match column cleaned_df "word_count" with
    | Raise e => Raise e
    | Ok word_count =>
    match sample 5000 word_count with
    | Raise e => Raise e
    | Ok word_sample =>
    match column cleaned_df "popularity" with
    | Raise e => Raise e
    | Ok popularity =>
    match sample 5000 popularity with
    | Raise e => Raise e
    | Ok pop_sample =>
        Ok {| title_length_normal := Stats.gt (snd (shapiro title_sample)) 0.05;
              word_count_normal := Stats.gt (snd (shapiro word_sample)) 0.05;
              popularity_normal := Stats.gt (snd (shapiro pop_sample)) 0.05;
              test_used := "Shapiro-Wilk" |}
    end end end end end end
  else
    match column cleaned_df "title_length" with
    | Raise e => Raise e
    | Ok title_length =>
    match column cleaned_df "word_count" with
    | Raise e => Raise e
    | Ok word_count =>
    match column cleaned_df "popularity" with
    | Raise e => Raise e
    | Ok popularity =>
        Ok {| title_length_normal := Stats.gt (snd (normaltest title_length)) 0.05;
              word_count_normal := Stats.gt (snd (normaltest word_count)) 0.05;
              popularity_normal := Stats.gt (snd (normaltest popularity)) 0.05;
              test_used := "D'Agostino-Pearson" |}
    end end end.

End WithScipy.

End Assumptions.

(* ================================================================== *)
(** * Hypothesis testing from the menu: run_step_7 of main.py *)
(* ================================================================== *)

Module Step7.

Import Py Pandas.

(** The two handlers of [run_step_7]: [except (ValueError, IndexError)]
    and, after it, [except Exception]. *)
Inductive handler : Type :=
| ValueOrIndexError
| AnyOther.

(** How a call into pandas or scipy ends, as far as the handlers tell
    apart. *)
Inductive ended (A : Type) : Type :=
| Returned (a : A)
| Raised (h : handler).

Arguments Returned {A} a.
Arguments Raised {A} h.

(** The handler that catches an exception of the model. *)
Definition caught_by (e : exn) : handler :=
  match e with
  | ValueError | IndexError => ValueOrIndexError
  | KeyError _ | ZeroDivisionError | AttributeError _ => AnyOther
  end.

(** What [run_step_7] shows for the step; when all calls return, the
    dict of interpretations and the insights that the interpreter was left
    with. *)
Inductive shown : Type :=
| NoDatasets
| InvalidSelection
| ErrorMessage
| NotImplemented
| AllComplete (interpretations : list (string * Interpreter.interp))
              (insights : list Interpreter.insight).

Definition handled (h : handler) : shown :=
  match h with
  | ValueOrIndexError => InvalidSelection
  | AnyOther => ErrorMessage
  end.

Section WithLibraries.

(** The calls whose results the code does not compute itself:
    [pd.read_csv] on the selected file; [stats.shapiro]; the random draw
    of [Series.sample] when it can be made; and, for
    [TitleFeatureAnalyzer(df).run_all_tests()], the numbers that pandas
    and scipy compute from the frame, or the exception one of them
    raises. The modules are taken to import. *)
Variable read_csv : string -> ended DataFrame.
Variable shapiro : list cell -> ended (float * float).
Variable draw : Z -> list cell -> list cell.
Variable statistics : DataFrame -> ended Analyzer.numbers.

(** One test of [TestSetup._check_assumptions]:
    [stats.shapiro(self.df[col].sample(5000))]. *)
Definition normality_test (df : DataFrame) (col : string) : ended unit :=
  match column df col with
  | Raise e => Raised (caught_by e)
  | Ok values =>
      match Assumptions.sample draw 5000 values with
      | Raise e => Raised (caught_by e)
      | Ok drawn =>
          match shapiro drawn with
          | Raised h => Raised h
          | Returned _ => Returned tt
          end
      end
  end.

(** [TestSetup(df).setup_tests()]: the hypotheses and the designs are
    built from constants and from counts guarded by [in self.df.columns];
    [_check_assumptions] then tests the three columns in turn. *)
Definition setup_tests (df : DataFrame) : ended unit :=
  match normality_test df "title_length" with
  | Raised h => Raised h
  | Returned _ =>
      match normality_test df "word_count" with
      | Raised h => Raised h
      | Returned _ => normality_test df "popularity"
      end
  end.

(** [run_step_7], given the files found, the dataset chosen and the test
    chosen. *)
Definition run_step_7 (datasets : list string) (choice test_choice : string)
  : shown :=
  match datasets with
  | [] => NoDatasets
  | _ :: _ =>
      match Menu.select datasets choice with
      | None => InvalidSelection
      | Some selected =>
          match read_csv selected with
          | Raised h => handled h
          | Returned df =>
              if String.eqb test_choice "5" then
                match setup_tests df with
                | Raised h => handled h
                | Returned _ =>
                    match statistics df with
                    | Raised h => handled h
                    | Returned s =>
                        let results := Analyzer.run_all_tests [] s in
                        match
                          Interpreter.interpret_all_results
                            (Interpreter.AsList results)
                        with
                        | Raise e => handled (caught_by e)
                        | Ok (interpretations, insights) =>
                            AllComplete interpretations insights
                        end
                    end
                end
              else NotImplemented
          end
      end
  end.

End WithLibraries.

End Step7.

(** Splits a conjunction into its parts, and nothing else. *)
Ltac conj := repeat match goal with |- _ /\ _ => split end.

(* ================================================================== *)
(** * Theorems: title features *)
(* ================================================================== *)

Module FeatureFacts.

Import Py Collector.

Lemma any_iff (p : ascii -> bool) (s : string) :
  any p s = true <-> exists c, In c (list_ascii_of_string s) /\ p c = true.
Proof. unfold any. apply existsb_exists. Qed.

(** The tokens of [split] are counted by the starts of runs: a token is
    pending when [cur] is not empty. *)
Lemma split_from_nonempty (s cur : string) :
  split_from cur s <> [] <-> cur <> "" \/ any (fun c => negb (isspace c)) s = true.
Proof.
  revert cur. induction s as [|c s IH]; intros cur; simpl.
  - unfold any. simpl. destruct (String.eqb_spec cur "") as [->|Hne].
    + split; [intros H; now elim H | intros [H|H]; [now elim H | discriminate]].
    + split; [now left | discriminate].
  - unfold any in *. simpl. destruct (isspace c) eqn:Hc; simpl.
    + destruct (String.eqb_spec cur "") as [->|Hne].
      * rewrite IH. split; intros [H|H]; auto.
      * split; [now left | discriminate].
    + rewrite IH. split; [now right | intros _; left].
      destruct cur; discriminate.
Qed.

Lemma word_count_positive (s : string) :
  1 <= word_count_of s <-> any (fun c => negb (isspace c)) s = true.
Proof.
  unfold word_count_of, split, llen.
  pose proof (split_from_nonempty s "") as H.
  destruct (split_from "" s) as [|w ws]; cbn [List.length].
  - split; [lia | intros Hs]. exfalso.
    destruct H as [_ H]. apply H; auto.
  - split; [intros _ | lia].
    destruct H as [H _]. destruct H as [H|H]; [discriminate | now elim H | exact H].
Qed.

Lemma word_count_le_length_from (s cur : string) :
  (List.length (split_from cur s)
   <= String.length s + (if String.eqb cur "" then 0 else 1))%nat.
Proof.
  revert cur. induction s as [|c s IH]; intros cur; simpl.
  - destruct (String.eqb cur ""); simpl; lia.
  - destruct (isspace c).
    + destruct (String.eqb cur ""); simpl; specialize (IH ""); simpl in IH; lia.
    + specialize (IH (cur ++ String c "")%string).
      replace (String.eqb (cur ++ String c "") "") with false in IH
        by (destruct cur; reflexivity).
      destruct (String.eqb cur ""); lia.
Qed.

Lemma word_count_bounds (s : string) :
  0 <= word_count_of s <= title_length_of s.
Proof.
  unfold word_count_of, title_length_of, split, llen, len.
  pose proof (word_count_le_length_from s "") as H. simpl in H. lia.
Qed.

(** C8, as the code has it: on the three titles of the specification the
    extraction gives word count 3, length 19 (the title has nineteen
    characters, not twenty), no digit and no special character for
    "Lost In Translation", a digit for "99 Problems" and a special
    character for "Rock & Roll"; the length is the number of characters,
    the word count the number of whitespace-delimited tokens, the digit
    flag holds iff some character is a digit and the special-character flag
    iff some character is neither alphanumeric nor whitespace. *)
Theorem title_features_examples :
  word_count_of "Lost In Translation" = 3
  /\ title_length_of "Lost In Translation" = 19
  /\ has_numbers_of "Lost In Translation" = false
  /\ has_special_chars_of "Lost In Translation" = false
  /\ has_numbers_of "99 Problems" = true
  /\ has_special_chars_of "Rock & Roll" = true
  /\ (forall s, title_length_of s = Z.of_nat (String.length s))
  /\ (forall s, word_count_of s = Z.of_nat (List.length (split s)))
  /\ split "Lost In Translation" = ["Lost"; "In"; "Translation"]
  /\ (forall s, has_numbers_of s = true
                <-> exists c, In c (list_ascii_of_string s) /\ isdigit c = true)
  /\ (forall s, has_special_chars_of s = true
                <-> exists c, In c (list_ascii_of_string s)
                              /\ isalnum c = false /\ isspace c = false).
Proof.
  repeat split; try reflexivity.
  - apply any_iff.
  - apply any_iff.
  - intros H. apply any_iff in H. destruct H as (c & Hin & Hc).
    exists c. apply andb_true_iff in Hc. destruct Hc as [Ha Hs].
    apply negb_true_iff in Ha, Hs. auto.
  - intros (c & Hin & Ha & Hs). apply any_iff. exists c.
    rewrite Ha, Hs. auto.
Qed.

(** C8 as stated fails: the length of "Lost In Translation" is not 20. *)
Lemma title_length_is_not_twenty :
  title_length_of "Lost In Translation" = 19
  /\ title_length_of "Lost In Translation" <> 20.
Proof. split; [reflexivity | discriminate]. Qed.

End FeatureFacts.

(* ================================================================== *)
(** * Theorems: the collector *)
(* ================================================================== *)

Module CollectorFacts.

Import Py Collector.

(** ** One item *)

(** What is known of a record that [process_item] adds. *)
Lemma process_item_added genre year yt track r :
  process_item genre year yt track = Added r ->
  exists name artist pop dur,
    item_name track = Some name /\ item_artist track = Some artist
    /\ item_popularity track = Some pop /\ item_duration_ms track = Some dur
    /\ is_duplicate yt name artist = false
    /\ release_year_ok (item_release_date track) year = true
    /\ 15 <= pop
    /\ r = {| track_name := name; artist_name := artist; popularity := pop;
              duration_ms := dur; title_length := title_length_of name;
              word_count := word_count_of name;
              has_numbers := has_numbers_of name;
              has_special_chars := has_special_chars_of name;
              genre_category := genre; release_year := year |}.
Proof.
  unfold process_item.
  destruct (item_name track) as [name|]; [|discriminate].
  destruct (item_artist track) as [artist|]; [|discriminate].
  destruct (is_duplicate yt name artist) eqn:Hdup; [discriminate|].
  destruct (release_year_ok (item_release_date track) year) eqn:Hy;
    simpl; [|discriminate].
  destruct (item_popularity track) as [pop|]; [|discriminate].
  destruct (pop <? 15) eqn:Hpop; [discriminate|].
  destruct (item_duration_ms track) as [dur|]; [|discriminate].
  intros H. injection H as <-.
  exists name, artist, pop, dur. apply Z.ltb_ge in Hpop. repeat split; auto.
Qed.

Lemma is_duplicate_false yt name artist :
  is_duplicate yt name artist = false -> ~ In (name, artist) (map key yt).
Proof.
  induction yt as [|t yt IH]; simpl; [tauto|].
  intros H. apply orb_false_iff in H as [Ht Hyt].
  intros [Heq|Hin]; [|now apply IH].
  unfold key in Heq. injection Heq as Hn Ha.
  rewrite Hn, Ha, !String.eqb_refl in Ht. discriminate.
Qed.

Lemma from_item_fields St (sp_search : St -> string -> Z -> search_response * St)
    genre year r :
  from_item sp_search genre year r ->
  genre_category r = genre /\ release_year r = year /\ 15 <= popularity r
  /\ title_length r = title_length_of (track_name r)
  /\ word_count r = word_count_of (track_name r)
  /\ has_numbers r = has_numbers_of (track_name r)
  /\ has_special_chars r = has_special_chars_of (track_name r).
Proof.
  intros (track & yt & _ & H). apply process_item_added in H.
  destruct H as (name & artist & pop & dur & _ & _ & _ & _ & _ & _ & Hpop & ->).
  cbn. conj; auto.
Qed.

(** The parts of a list built by appending one part per tag have no
    repetition when no part has one and the tags differ. *)
Lemma NoDup_tagged_concat {A K T : Type} (f : A -> K) (tag : A -> T) :
  (forall x y, f x = f y -> tag x = tag y) ->
  forall ts parts,
    NoDup ts ->
    Forall2 (fun t part => NoDup (map f part)
                           /\ Forall (fun x => tag x = t) part) ts parts ->
    NoDup (map f (List.concat parts))
    /\ Forall (fun x => In (tag x) ts) (List.concat parts).
Proof.
  intros Hf ts parts Hts H. induction H as [|t part ts parts [Hnd Htag] _ IH].
  - split; constructor.
  - apply NoDup_cons_iff in Hts as [Hnotin Hts].
    destruct (IH Hts) as [IH1 IH2]. cbn [List.concat]. split.
    + rewrite map_app. apply NoDup_app; auto.
      intros k Hk1 Hk2. apply in_map_iff in Hk1 as (x & <- & Hx).
      apply in_map_iff in Hk2 as (y & Hxy & Hy).
      rewrite Forall_forall in Htag, IH2.
      apply Hnotin. rewrite <- (Htag x Hx), <- (Hf _ _ Hxy). apply IH2, Hy.
    + apply Forall_app. split.
      * eapply Forall_impl; [|exact Htag]. intros x <-. now left.
      * eapply Forall_impl; [|exact IH2]. intros x Hx. now right.
Qed.

Section Loops.

Variable St : Type.
Variable sp_search : St -> string -> Z -> search_response * St.
Variable self : Self.

(** ** Invariants of a cell

    A property of [year_tracks] that holds at the start and survives every
    append made below the target holds when each loop of the cell ends. *)
Section Invariant.

Variables (genre : string) (year : Z).
Variable P : list TrackRecord -> Prop.
Hypothesis P_append : forall yt track r,
  P yt -> llen yt < tracks_per_year self ->
  returned sp_search track ->
  process_item genre year yt track = Added r -> P (yt ++ [r]).

Lemma page_loop_inv tracks : forall yt,
  (forall track, In track tracks -> returned sp_search track) ->
  P yt -> P (fst (page_loop self genre year tracks yt)).
Proof.
  induction tracks as [|track rest IH]; intros yt Hret Hyt; simpl; auto.
  destruct (llen yt >=? tracks_per_year self) eqn:Hfull; simpl; auto.
  assert (Hrest : forall t, In t rest -> returned sp_search t)
    by (intros t Ht; apply Hret; now right).
  destruct (process_item genre year yt track) eqn:Hitem; simpl; auto.
  apply IH; [exact Hrest|]. eapply P_append; eauto.
  - rewrite Z.geb_leb in Hfull. apply Z.leb_gt in Hfull. exact Hfull.
  - apply Hret. now left.
Qed.

Lemma search_loop_inv fuel : forall st q yt offset res st',
  P yt ->
  search_loop sp_search self fuel st q genre year yt offset = Some (res, st') ->
  P res.
Proof.
  induction fuel as [|fuel IH]; intros st q yt offset res st' Hyt; simpl.
  - destruct (_ && _); [discriminate|]. intros H; injection H as <- <-; auto.
  - destruct (_ && _); [|intros H; injection H as <- <-; auto].
    destruct (sp_search st q offset) as [response st1] eqn:Esp.
    destruct response as [|tracks]; [intros H; injection H as <- <-; auto|].
    destruct tracks as [|track rest]; [intros H; injection H as <- <-; auto|].
    assert (Hret : forall t, In t (track :: rest) -> returned sp_search t)
      by (intros t Ht; now exists st, q, offset, (track :: rest), st1).
    pose proof (page_loop_inv (track :: rest) Hret Hyt) as Hpage.
    destruct (page_loop self genre year (track :: rest) yt) as [yt1 raised].
    simpl in Hpage. destruct raised.
    + intros H; injection H as <- <-; auto.
    + apply IH; auto.
Qed.

Lemma _search_tracks_inv st q yt found res st' :
  P yt ->
  _search_tracks sp_search self st q yt genre year = Some (found, res, st') ->
  P res.
Proof.
  unfold _search_tracks. intros Hyt.
  destruct (search_loop _ _ _ _ _ _ _ _ _) as [[yt1 st1]|] eqn:E; [|discriminate].
  intros H; injection H as _ <- <-. eapply search_loop_inv; eauto.
Qed.

Lemma formulations_loop_inv queries : forall st yt sent res st' sent',
  P yt ->
  formulations_loop sp_search self st queries genre year yt sent
    = Some (res, st', sent') ->
  P res.
Proof.
  induction queries as [|q rest IH]; intros st yt sent res st' sent' Hyt; simpl.
  - intros H; injection H as <- <- <-; auto.
  - destruct (llen yt >=? tracks_per_year self).
    + intros H; injection H as <- <- <-; auto.
    + destruct (_search_tracks _ _ _ _ _ _ _) as [[[found yt1] st1]|] eqn:E;
        [|discriminate].
      apply IH. eapply _search_tracks_inv; eauto.
Qed.

Lemma attempts_loop_inv gq fuel : forall st yt qi n log res st' n' log',
  P yt ->
  attempts_loop sp_search self fuel st gq genre year yt qi n log
    = Some (res, st', n', log') ->
  P res.
Proof.
  induction fuel as [|fuel IH]; intros st yt qi n log res st' n' log' Hyt;
    cbn [attempts_loop].
  - destruct (_ && _); [discriminate|]. intros H; injection H as <- <- <- <-; auto.
  - destruct (_ && _); [|intros H; injection H as <- <- <- <-; auto].
    destruct (formulations_loop _ _ _ _ _ _ _ _) as [[[yt1 st1] sent]|] eqn:E;
      [|discriminate].
    apply IH. eapply formulations_loop_inv; eauto.
Qed.

Lemma collect_cell_inv gq st res st' n log :
  P [] ->
  collect_cell sp_search self st gq genre year = Some (res, st', n, log) ->
  P res.
Proof. unfold collect_cell. intros H0 H. eapply attempts_loop_inv; eauto. Qed.

End Invariant.

(** ** Termination: the fuel handed to each loop is enough *)

Lemma search_loop_total fuel : forall st q genre year yt offset,
  max_offset - offset <= Z.of_nat fuel ->
  exists res st',
    search_loop sp_search self fuel st q genre year yt offset = Some (res, st').
Proof.
  induction fuel as [|fuel IH]; intros st q genre year yt offset Hfuel;
    cbn [search_loop].
  - replace (offset <? max_offset) with false
      by (symmetry; apply Z.ltb_ge; lia).
    rewrite andb_false_r. eauto.
  - destruct (_ && _); [|eauto].
    destruct (sp_search st q offset) as [response st1].
    destruct response as [|tracks]; [eauto|].
    destruct tracks as [|track rest]; [eauto|].
    destruct (page_loop self genre year (track :: rest) yt) as [yt1 raised].
    destruct raised; [eauto|].
    apply IH. unfold llen. cbn [List.length]. lia.
Qed.

Lemma _search_tracks_total st q yt genre year :
  exists found res st',
    _search_tracks sp_search self st q yt genre year = Some (found, res, st').
Proof.
  unfold _search_tracks.
  destruct (search_loop_total (Z.to_nat max_offset) st q genre year yt 0)
    as (res & st' & E).
  - unfold max_offset. lia.
  - rewrite E. eauto.
Qed.

Lemma formulations_loop_total queries : forall st genre year yt sent,
  exists res st' sent',
    formulations_loop sp_search self st queries genre year yt sent
      = Some (res, st', sent').
Proof.
  induction queries as [|q rest IH]; intros st genre year yt sent;
    cbn [formulations_loop]; [eauto|].
  destruct (llen yt >=? tracks_per_year self); [eauto|].
  destruct (_search_tracks_total st q yt genre year) as (found & yt1 & st1 & E).
  rewrite E. apply IH.
Qed.

Lemma attempts_loop_total gq fuel : forall st genre year yt qi n log,
  max_attempts gq - n <= Z.of_nat fuel ->
  exists res st' n' log',
    attempts_loop sp_search self fuel st gq genre year yt qi n log
      = Some (res, st', n', log').
Proof.
  induction fuel as [|fuel IH]; intros st genre year yt qi n log Hfuel;
    cbn [attempts_loop].
  - replace (n <? max_attempts gq) with false
      by (symmetry; apply Z.ltb_ge; lia).
    rewrite andb_false_r. eauto.
  - destruct (_ && _); [|eauto].
    destruct (formulations_loop_total
                (search_queries year (pick gq qi) genre) st genre year yt [])
      as (yt1 & st1 & sent & E).
    rewrite E. apply IH. lia.
Qed.

Lemma collect_cell_total st gq genre year :
  exists res st' n log,
    collect_cell sp_search self st gq genre year = Some (res, st', n, log).
Proof.
  unfold collect_cell. apply attempts_loop_total.
  unfold max_attempts, llen. lia.
Qed.

Lemma years_loop_total gq genre ys : forall st acc,
  exists res st',
    years_loop sp_search self st gq genre ys acc = Some (res, st').
Proof.
  induction ys as [|year ys IH]; intros st acc; cbn [years_loop]; [eauto|].
  destruct (collect_cell_total st gq genre year) as (yt & st1 & n & log & E).
  rewrite E. apply IH.
Qed.

Lemma _collect_genre_tracks_total st genre :
  exists r st', _collect_genre_tracks sp_search self st genre = Some (r, st').
Proof.
  unfold _collect_genre_tracks.
  destruct (lookup (genre_categories self) genre) as [gq|e]; [|eauto].
  destruct (years_loop_total gq genre (years self) st []) as (res & st' & E).
  rewrite E. eauto.
Qed.

Lemma genres_loop_total gs : forall st acc,
  exists r st', genres_loop sp_search self st gs acc = Some (r, st').
Proof.
  induction gs as [|genre gs IH]; intros st acc; cbn [genres_loop]; [eauto|].
  destruct (_collect_genre_tracks_total st genre) as (r & st1 & E).
  rewrite E. destruct r as [tracks|e]; [apply IH | eauto].
Qed.

(** ** The attempts of a cell *)




Lemma collect_cell_bounded gq genre year st res st' n log :
  collect_cell sp_search self st gq genre year = Some (res, st', n, log) ->
  llen res <= Z.max 0 (tracks_per_year self).
Proof.
  intros H.
  refine (@collect_cell_inv genre year
            (fun yt => llen yt <= Z.max 0 (tracks_per_year self))
            _ gq st res st' n log _ H).
  - intros yt track r Hyt Hlt _ _. unfold llen in *.
    rewrite length_app. cbn [List.length]. lia.
  - unfold llen. cbn [List.length]. lia.
Qed.

(** ** The records of a cell, of a genre and of a run *)

Lemma cell_records gq genre year st res st' n log :
  collect_cell sp_search self st gq genre year = Some (res, st', n, log) ->
  NoDup (map key res) /\ Forall (from_item sp_search genre year) res.
Proof.
  intros H.
  refine (@collect_cell_inv genre year
            (fun yt => NoDup (map key yt)
                       /\ Forall (from_item sp_search genre year) yt)
            _ gq st res st' n log _ H).
  - intros yt track r [Hnd Hall] _ Hret Hitem. split.
    + pose proof (process_item_added _ _ _ _ Hitem) as Hr.
      destruct Hr as (name & artist & pop & dur & _ & _ & _ & _ & Hdup & _ & _ & ->).
      rewrite map_app. apply NoDup_app; auto.
      * cbn. constructor; [tauto | constructor].
      * intros k Hk [<-|[]]. apply is_duplicate_false in Hdup. now apply Hdup.
    + apply Forall_app. split; auto. constructor; [|constructor].
      now exists track, yt.
  - split; constructor.
Qed.

(** The list returned for a genre is the concatenation of its cells, one
    per year, in the order of the years. *)
Lemma years_loop_cells gq genre ys : forall st acc res st',
  years_loop sp_search self st gq genre ys acc = Some (res, st') ->
  exists cells,
    res = acc ++ List.concat cells
    /\ Forall2 (fun year yt => NoDup (map key yt)
                               /\ Forall (from_item sp_search genre year) yt) ys cells.
Proof.
  induction ys as [|year ys IH]; intros st acc res st'; cbn [years_loop].
  - intros H; injection H as <- <-. exists []. cbn. now rewrite app_nil_r.
  - destruct (collect_cell _ _ _ _ _ _) as [[[[yt st1] n] log]|] eqn:E;
      [|discriminate].
    intros H. apply IH in H as (cells & -> & Hcells).
    exists (yt :: cells). cbn [List.concat]. rewrite app_assoc. split; auto.
    constructor; auto. eapply cell_records; eauto.
Qed.

Lemma cell_key_NoDup (l : list TrackRecord) :
  NoDup (map key l) -> NoDup (map cell_key l).
Proof.
  intros H.
  assert (Hm : map key l = map (fun k => (fst (fst (fst k)), snd (fst (fst k))))
                               (map cell_key l)).
  { rewrite map_map. apply map_ext. intros r. reflexivity. }
  rewrite Hm in H. eapply NoDup_map_inv; eauto.
Qed.

Lemma genre_records st genre tracks st' :
  _collect_genre_tracks sp_search self st genre = Some (Ok tracks, st') ->
  Forall (fun r => In (release_year r) (years self)
                   /\ from_item sp_search genre (release_year r) r) tracks
  /\ (NoDup (years self) -> NoDup (map cell_key tracks)).
Proof.
  unfold _collect_genre_tracks.
  destruct (lookup (genre_categories self) genre) as [gq|e]; [|discriminate].
  destruct (years_loop _ _ _ _ _ _ _) as [[res st1]|] eqn:E; [|discriminate].
  intros H; injection H as <- <-.
  apply years_loop_cells in E as (cells & -> & Hcells). cbn [app].
  split.
  - clear - Hcells. induction Hcells as [|year yt ys cells [_ Hyt] _ IH];
      cbn [List.concat]; [constructor|].
    apply Forall_app. split.
    + eapply Forall_impl; [|exact Hyt]. intros r Hr.
      destruct (from_item_fields Hr) as (_ & Hy & _). rewrite Hy.
      split; [now left | exact Hr].
    + eapply Forall_impl; [|exact IH]. intros r [Hin Hr].
      split; [now right | exact Hr].
  - intros Hnd.
    apply (@NoDup_tagged_concat _ _ _ cell_key release_year) with (ts := years self);
      auto.
    + intros x y Hxy. unfold cell_key in Hxy. congruence.
    + eapply Forall2_impl; [|exact Hcells].
      intros year yt [Hk Hall]. split; [now apply cell_key_NoDup|].
      eapply Forall_impl; [|exact Hall]. intros r Hr.
      now destruct (from_item_fields Hr) as (_ & Hy & _).
Qed.

Lemma genres_loop_parts gs : forall st acc res st',
  genres_loop sp_search self st gs acc = Some (Ok res, st') ->
  exists parts,
    res = acc ++ List.concat parts
    /\ Forall2 (fun genre tracks =>
                  exists st0 st1,
                    _collect_genre_tracks sp_search self st0 genre
                      = Some (Ok tracks, st1)) gs parts.
Proof.
  induction gs as [|genre gs IH]; intros st acc res st'; cbn [genres_loop].
  - intros H; injection H as <- <-. exists []. cbn. now rewrite app_nil_r.
  - destruct (_collect_genre_tracks _ _ _ _) as [[[tracks|e] st1]|] eqn:E;
      try discriminate.
    intros H. apply IH in H as (parts & -> & Hparts).
    exists (tracks :: parts). cbn [List.concat]. split.
    + destruct tracks; [reflexivity | now rewrite app_assoc].
    + constructor; eauto.
Qed.

Lemma genres_loop_records st res st' :
  genres_loop sp_search self st (genres self) [] = Some (Ok res, st') ->
  Forall (fun r => In (genre_category r) (genres self)
                   /\ In (release_year r) (years self)
                   /\ from_item sp_search (genre_category r) (release_year r) r) res
  /\ (NoDup (genres self) -> NoDup (years self) -> NoDup (map cell_key res)).
Proof.
  intros H. apply genres_loop_parts in H as (parts & -> & Hparts). cbn [app].
  assert (Hfacts : Forall2 (fun genre tracks =>
            Forall (fun r => genre_category r = genre
                             /\ In (release_year r) (years self)
                             /\ from_item sp_search genre (release_year r) r) tracks
            /\ (NoDup (years self) -> NoDup (map cell_key tracks)))
            (genres self) parts).
  { eapply Forall2_impl; [|exact Hparts].
    intros genre tracks (st0 & st1 & E). apply genre_records in E as [Hall Hnd].
    split; auto. eapply Forall_impl; [|exact Hall]. intros r [Hy Hr].
    destruct (from_item_fields Hr) as (Hg & _). auto. }
  clear Hparts. split.
  - induction Hfacts as [|genre tracks gs parts [Hall _] _ IH];
      cbn [List.concat]; [constructor|].
    apply Forall_app. split.
    + eapply Forall_impl; [|exact Hall]. intros r (Hg & Hy & Hr).
      rewrite Hg. conj; auto. now left.
    + eapply Forall_impl; [|exact IH]. intros r (Hg & Hy & Hr).
      conj; auto. now right.
  - intros Hgs Hys.
    apply (@NoDup_tagged_concat _ _ _ cell_key genre_category)
      with (ts := genres self); auto.
    + intros x y Hxy. unfold cell_key in Hxy. congruence.
    + eapply Forall2_impl; [|exact Hfacts].
      intros genre tracks [Hall Hnd]. split; auto.
      eapply Forall_impl; [|exact Hall]. now intros r (Hg & _).
Qed.

(** ** The run and its frame *)

Lemma override_target_keeps target self' :
  override_target self target = Ok self' ->
  genres self' = genres self /\ years self' = years self
  /\ genre_categories self' = genre_categories self.
Proof.
  unfold override_target. destruct target as [t|].
  - destruct (llen (years self) =? 0); [discriminate|].
    intros H; injection H as <-. auto.
  - intros H; injection H as <-. auto.
Qed.

End Loops.

Lemma all_keys_records r l :
  Pandas.all_keys (map record_dict (r :: l)) = record_columns.
Proof.
  unfold Pandas.all_keys. cbn [map fold_left].
  change (Pandas.add_keys [] (map fst (record_dict r))) with record_columns.
  induction l as [|r' l IH]; cbn [map fold_left]; [reflexivity|].
  change (Pandas.add_keys record_columns (map fst (record_dict r')))
    with record_columns.
  exact IH.
Qed.

Lemma build_frame_records r l :
  build_frame (r :: l) = Ok (Pandas.from_records (map record_dict (r :: l)))
  /\ Pandas.columns (Pandas.from_records (map record_dict (r :: l)))
     = record_columns.
Proof.
  assert (Hc : Pandas.columns (Pandas.from_records (map record_dict (r :: l)))
               = record_columns).
  { unfold Pandas.from_records. cbn [Pandas.columns]. apply all_keys_records. }
  split; [|exact Hc].
  unfold build_frame. cbv zeta. rewrite Hc.
  change (Pandas.mem "title_length" record_columns) with true. cbv iota.
  rewrite Hc. reflexivity.
Qed.

(** [collect_tracks] returns a frame exactly when the run has records, and
    the frame is then built from them. *)
Lemma collect_tracks_frame St (sp_search : St -> string -> Z -> search_response * St)
    self st target df st' :
  collect_tracks sp_search self st target = Some (Ok (Some df), st') ->
  exists all_tracks,
    run_records sp_search self st target = Some (Ok all_tracks, st')
    /\ all_tracks <> []
    /\ df = Pandas.from_records (map record_dict all_tracks)
    /\ Pandas.columns df = record_columns.
Proof.
  unfold collect_tracks, run_records.
  destruct (override_target self target) as [self'|e]; [|discriminate].
  destruct (genres_loop _ _ _ _ _) as [[[all|e] st1]|]; try discriminate.
  destruct all as [|r l]; [discriminate|].
  destruct (build_frame_records r l) as [-> Hc].
  intros H; injection H as <- <-. exists (r :: l). conj; auto. discriminate.
Qed.

Lemma run_records_facts St (sp_search : St -> string -> Z -> search_response * St)
    self st target all_tracks st' :
  run_records sp_search self st target = Some (Ok all_tracks, st') ->
  Forall (fun r => In (genre_category r) (genres self)
                   /\ In (release_year r) (years self)
                   /\ from_item sp_search (genre_category r) (release_year r) r)
         all_tracks
  /\ (NoDup (genres self) -> NoDup (years self) ->
      NoDup (map cell_key all_tracks)).
Proof.
  unfold run_records.
  destruct (override_target self target) as [self'|e] eqn:Ho; [|discriminate].
  apply override_target_keeps in Ho as (Hg & Hy & _).
  intros H. apply genres_loop_records in H. rewrite Hg, Hy in H. exact H.
Qed.

Lemma genres_loop_ok St (sp_search : St -> string -> Z -> search_response * St)
    self gs :
  Forall (fun g => exists gq, lookup (genre_categories self) g = Ok gq) gs ->
  forall st acc,
    exists all_tracks st',
      genres_loop sp_search self st gs acc = Some (Ok all_tracks, st').
Proof.
  induction 1 as [|genre gs [gq Hgq] _ IH]; intros st acc; cbn [genres_loop];
    [eauto|].
  unfold _collect_genre_tracks. rewrite Hgq.
  destruct (years_loop_total sp_search self gq genre (years self) st [])
    as (tracks & st1 & E).
  rewrite E. apply IH.
Qed.

Lemma init_lookups test per_year per_genre :
  Forall (fun g => exists gq,
            lookup (genre_categories (with_targets (init test) per_year per_genre)) g
            = Ok gq)
         (genres (with_targets (init test) per_year per_genre)).
Proof. cbn. repeat constructor; eexists; reflexivity. Qed.

(** ** The claims about the collector *)

(** C1, as the code has it: within one run the records of one
    (category, year) cell never share a (title, artist) pair; over the
    whole returned dataset the quadruple (title, artist, category, year)
    is unique, the categories and the years of the collector being
    pairwise distinct. The pair alone may repeat across cells. *)
Theorem cell_keys_unique :
  forall St (sp_search : St -> string -> Z -> search_response * St)
         (self : Self) (st : St) (target : option Z)
         (df : Pandas.DataFrame) (st' : St),
    NoDup (genres self) -> NoDup (years self) ->
    collect_tracks sp_search self st target = Some (Ok (Some df), st') ->
    exists all_tracks,
      run_records sp_search self st target = Some (Ok all_tracks, st')
      /\ df = Pandas.from_records (map record_dict all_tracks)
      /\ NoDup (map cell_key all_tracks).
Proof.
  intros St sp_search self st target df st' Hg Hy H.
  apply collect_tracks_frame in H as (all & Hrun & _ & Hdf & _).
  exists all. conj; auto.
  apply run_records_facts in Hrun as [_ Hnd]. auto.
Qed.

Lemma cell_keys_unique_witness :
  exists all_tracks,
    run_records (Samples.first_page [Samples.hello]) (init false) 0%nat (Some 5)
      = Some (Ok all_tracks, Samples.hello_state)
    /\ Samples.hello_frame = Pandas.from_records (map record_dict all_tracks)
    /\ NoDup (map cell_key all_tracks).
Proof.
  apply (@cell_keys_unique nat (Samples.first_page [Samples.hello])
           (init false) 0%nat (Some 5) Samples.hello_frame Samples.hello_state).
  - cbn. repeat constructor; cbn; intuition discriminate.
  - cbn. repeat constructor; cbn; intuition discriminate.
  - vm_compute. reflexivity.
Defined.

(** C1 as stated fails: one song returned for the queries of two genres is
    recorded once per genre, so two records of the run share their
    (title, artist) pair. *)
Lemma title_artist_repeats_across_genres :
  exists all_tracks st' r1 r2,
    run_records (Samples.first_page [Samples.hello]) (init false) 0%nat (Some 5)
      = Some (Ok all_tracks, st')
    /\ nth_error all_tracks 0 = Some r1
    /\ nth_error all_tracks 1 = Some r2
    /\ key r1 = key r2
    /\ genre_category r1 = "pop" /\ genre_category r2 = "rock".
Proof.
  do 4 eexists. conj; try (vm_compute; reflexivity); reflexivity.
Qed.

(** C2, as the code has it: a candidate item is kept only if its release
    date passed the check for the target year, that is, the date is a
    non-empty string whose first four characters read as the target year,
    or the date is empty or null and is then not checked at all; an item
    whose date key is missing, does not parse, or parses to another year
    is discarded. Every kept record carries the target year of its
    request, which is one of the collector's years and, whenever the date
    is not empty, the year parsed from it; and every record of a run comes
    from an item that the search returned and that passed this check. *)
Theorem kept_items_passed_year_check :
  (forall genre year year_tracks track r,
      process_item genre year year_tracks track = Added r ->
      release_year r = year /\ date_agrees (item_release_date track) year)
  /\ (forall St (sp_search : St -> string -> Z -> search_response * St)
             self st target all_tracks st',
        run_records sp_search self st target = Some (Ok all_tracks, st') ->
        Forall (fun r =>
                  In (release_year r) (years self)
                  /\ exists track year_tracks,
                       returned sp_search track
                       /\ process_item (genre_category r) (release_year r)
                            year_tracks track = Added r
                       /\ date_agrees (item_release_date track) (release_year r))
               all_tracks).
Proof.
  assert (Hitem : forall genre year year_tracks track r,
      process_item genre year year_tracks track = Added r ->
      release_year r = year /\ date_agrees (item_release_date track) year).
  { intros genre year yt track r H.
    pose proof (process_item_added _ _ _ _ H) as Hr.
    destruct Hr as (name & artist & pop & dur & _ & _ & _ & _ & _ & Hok & _ & ->).
    split; [reflexivity|].
    unfold release_year_ok in Hok. unfold date_agrees.
    destruct (item_release_date track) as [| |s]; [discriminate|exact I|].
    destruct (String.eqb s "") eqn:Hs; [left; now apply String.eqb_eq | right].
    destruct (int (prefix 4 s)) as [y|]; [|discriminate].
    apply Z.eqb_eq in Hok. now subst. }
  split; [exact Hitem|].
  intros St sp_search self st target all st' H.
  apply run_records_facts in H as [Hall _].
  eapply Forall_impl; [|exact Hall].
  intros r (_ & Hy & track & yt & Hret & Hr). split; [exact Hy|].
  exists track, yt. conj; auto. now apply Hitem in Hr.
Qed.

Lemma kept_items_passed_year_check_witness :
  Forall (fun r =>
            In (release_year r) (years (init false))
            /\ exists track year_tracks,
                 returned (Samples.first_page [Samples.hello]) track
                 /\ process_item (genre_category r) (release_year r)
                      year_tracks track = Added r
                 /\ date_agrees (item_release_date track) (release_year r))
         Samples.hello_records.
Proof.
  apply (proj2 kept_items_passed_year_check nat
           (Samples.first_page [Samples.hello]) (init false) 0%nat (Some 5)
           Samples.hello_records Samples.hello_state).
  vm_compute. reflexivity.
Defined.

(** C2 as stated fails: an item with an empty release date has no year to
    parse, and is kept all the same, for 2024 and for 2023 alike, each
    time labelled with the year asked for. *)
Lemma undated_item_is_kept :
  int (prefix 4 "") = None
  /\ (exists r, process_item "pop" 2024 [] Samples.undated = Added r
                /\ release_year r = 2024)
  /\ (exists r, process_item "pop" 2023 [] Samples.undated = Added r
                /\ release_year r = 2023).
Proof.
  conj; [reflexivity | eexists; split; reflexivity
                     | eexists; split; reflexivity].
Qed.

(** Errors of the search API are absorbed by [_search_tracks]: when every
    request fails the run still ends, with no record and [None]. *)
Example failing_oracle_run :
  collect_tracks Samples.failing (init true) 0%nat None
  = Some (Ok None, 2280%nat).
Proof. vm_compute. reflexivity. Qed.

(** C3, as the code has it: for the collector as [__init__] builds it,
    with any targets, [collect_tracks] always returns and never raises: it
    returns [None] when the run has produced no record across all genres,
    and the frame of the records otherwise. No error is raised to the
    caller for an empty run, and none for a cell that falls short. *)
Theorem empty_run_returns_none :
  forall St (sp_search : St -> string -> Z -> search_response * St)
         (test : bool) (per_year per_genre : Z) (st : St) (target : option Z),
    exists all_tracks st',
      run_records sp_search (with_targets (init test) per_year per_genre)
        st target = Some (Ok all_tracks, st')
      /\ collect_tracks sp_search (with_targets (init test) per_year per_genre)
           st target
         = Some (Ok (match all_tracks with
                     | [] => None
                     | _ => Some (Pandas.from_records
                                    (map record_dict all_tracks))
                     end), st').
Proof.
  intros St sp_search test per_year per_genre st target.
  unfold run_records, collect_tracks.
  destruct (override_target (with_targets (init test) per_year per_genre) target)
    as [self'|e] eqn:Ho.
  - pose proof (override_target_keeps _ _ Ho) as (Hg & Hy & Hc).
    pose proof (init_lookups test per_year per_genre) as Hl.
    rewrite <- Hg, <- Hc in Hl.
    destruct (genres_loop_ok sp_search self' Hl st []) as (all & st' & E).
    rewrite E. exists all, st'. split; [reflexivity|].
    destruct all as [|r l]; [reflexivity|].
    destruct (build_frame_records r l) as [-> _]. reflexivity.
  - exfalso. unfold override_target in Ho.
    destruct target as [t|]; [|discriminate]. cbn in Ho. discriminate.
Qed.

(** C3 as stated fails: against a catalogue with no item the run produces
    no record and [collect_tracks] returns [None]; nothing is raised. *)
Lemma empty_run_does_not_raise :
  run_records (Samples.first_page []) (init false) 0%nat None
    = Some (Ok [], 2280%nat)
  /\ collect_tracks (Samples.first_page []) (init false) 0%nat None
     = Some (Ok None, 2280%nat).
Proof. split; vm_compute; reflexivity. Qed.

(** A cell with a target of 2 against an oracle that knows one song of
    2024: the three rounds over two variants are used up, each sending
    both formulations. *)
Example cell_log_example :
  exists year_tracks st',
    collect_cell (Samples.first_page [Samples.hello]) (init true) 0%nat
      ["genre:pop"; "genre:k-pop"] "pop" 2024
    = Some (year_tracks, st', 6,
            [ {| variant := "genre:pop";
                 issued := ["year:2024 genre:pop"; "year:2024 genre:pop"] |};
              {| variant := "genre:k-pop";
                 issued := ["year:2024 genre:k-pop"; "year:2024 genre:pop"] |};
              {| variant := "genre:pop";
                 issued := ["year:2024 genre:pop"; "year:2024 genre:pop"] |};
              {| variant := "genre:k-pop";
                 issued := ["year:2024 genre:k-pop"; "year:2024 genre:pop"] |};
              {| variant := "genre:pop";
                 issued := ["year:2024 genre:pop"; "year:2024 genre:pop"] |};
              {| variant := "genre:k-pop";
                 issued := ["year:2024 genre:k-pop"; "year:2024 genre:pop"] |} ])
    /\ List.length year_tracks = 1%nat.
Proof. do 2 eexists. split; vm_compute; reflexivity. Qed.


(** C7, as the code has it: every collected record has a popularity of at
    least 15, the quality floor, and it is the popularity of the source
    item (so at most 100 whenever the catalogue's score is); its
    [title_length] is the number of characters of its title and its
    [word_count] the number of whitespace-delimited tokens, with
    [0 <= word_count <= title_length]; the word count is at least 1
    exactly when the title has a character that is not whitespace. A
    candidate whose popularity is below the floor is never added. *)
Theorem collected_records_pass_quality_floor :
  (forall genre year year_tracks track pop,
      item_popularity track = Some pop -> pop < 15 ->
      process_item genre year year_tracks track = Skipped
      \/ process_item genre year year_tracks track = Failed)
  /\ (forall St (sp_search : St -> string -> Z -> search_response * St)
             self st target all_tracks st',
        run_records sp_search self st target = Some (Ok all_tracks, st') ->
        Forall (fun r =>
                  15 <= popularity r
                  /\ (exists track,
                         returned sp_search track
                         /\ item_popularity track = Some (popularity r)
                         /\ item_name track = Some (track_name r))
                  /\ title_length r = Z.of_nat (String.length (track_name r))
                  /\ word_count r
                     = Z.of_nat (List.length (split (track_name r)))
                  /\ 0 <= word_count r <= title_length r
                  /\ (1 <= word_count r
                      <-> any (fun c => negb (isspace c)) (track_name r) = true))
               all_tracks).
Proof.
  split.
  - intros genre year yt track pop Hp Hlow. unfold process_item.
    destruct (item_name track); auto. destruct (item_artist track); auto.
    destruct (is_duplicate _ _ _); auto.
    destruct (negb _); auto. rewrite Hp.
    apply Z.ltb_lt in Hlow. rewrite Hlow. auto.
  - intros St sp_search self st target all st' H.
    apply run_records_facts in H as [Hall _].
    eapply Forall_impl; [|exact Hall].
    intros r (_ & _ & track & yt & Hret & Hitem).
    apply process_item_added in Hitem.
    destruct Hitem
      as (name & artist & pop & dur & Hn & _ & Hp & _ & _ & _ & Hpop & ->).
    cbn [popularity track_name title_length word_count].
    conj; auto.
    + exists track. auto.
    + apply FeatureFacts.word_count_bounds.
    + apply FeatureFacts.word_count_bounds.
    + apply FeatureFacts.word_count_positive.
Qed.

Lemma collected_records_pass_quality_floor_witness :
  (process_item "pop" 2024 [] (Samples.song "Quiet" "Nobody" "2024-01-01" 3)
     = Skipped
   \/ process_item "pop" 2024 [] (Samples.song "Quiet" "Nobody" "2024-01-01" 3)
      = Failed)
  /\ Forall (fun r =>
               15 <= popularity r
               /\ (exists track,
                      returned (Samples.first_page [Samples.hello]) track
                      /\ item_popularity track = Some (popularity r)
                      /\ item_name track = Some (track_name r))
               /\ title_length r = Z.of_nat (String.length (track_name r))
               /\ word_count r
                  = Z.of_nat (List.length (split (track_name r)))
               /\ 0 <= word_count r <= title_length r
               /\ (1 <= word_count r
                   <-> any (fun c => negb (isspace c)) (track_name r) = true))
            Samples.hello_records.
Proof.
  split.
  - apply (proj1 collected_records_pass_quality_floor "pop" 2024 []
             (Samples.song "Quiet" "Nobody" "2024-01-01" 3) 3);
      [reflexivity | lia].
  - apply (proj2 collected_records_pass_quality_floor nat
             (Samples.first_page [Samples.hello]) (init false) 0%nat (Some 5)
             Samples.hello_records Samples.hello_state).
    vm_compute. reflexivity.
Defined.

(** The bounds of the catalogue carry over: when every item that the
    search returns has a popularity of at most 100 and a title with a
    character that is not whitespace, every record of the run has
    [15 <= popularity <= 100], [title_length >= 1] and [word_count >= 1]. *)
Lemma records_within_catalogue_bounds
    St (sp_search : St -> string -> Z -> search_response * St)
    self st target all_tracks st' :
  (forall track pop name,
      returned sp_search track ->
      item_popularity track = Some pop -> item_name track = Some name ->
      pop <= 100 /\ any (fun c => negb (isspace c)) name = true) ->
  run_records sp_search self st target = Some (Ok all_tracks, st') ->
  Forall (fun r => 15 <= popularity r <= 100
                   /\ 1 <= title_length r /\ 1 <= word_count r) all_tracks.
Proof.
  intros Hcat H. apply run_records_facts in H as [Hall _].
  eapply Forall_impl; [|exact Hall].
  intros r (_ & _ & track & yt & Hret & Hitem).
  apply process_item_added in Hitem.
  destruct Hitem
    as (name & artist & pop & dur & Hn & _ & Hp & _ & _ & _ & Hpop & ->).
  destruct (Hcat track pop name Hret Hp Hn) as [Hmax Hname].
  cbn [popularity track_name title_length word_count].
  apply FeatureFacts.word_count_positive in Hname.
  pose proof (FeatureFacts.word_count_bounds name). lia.
Qed.

(** C7 as stated fails: an item with an empty title is collected with
    [title_length] 0 and [word_count] 0, and an item whose popularity score
    is 150 is collected with that score. *)
Lemma empty_title_and_high_score_are_collected :
  exists all_tracks st' r1 r2,
    run_records (Samples.first_page [Samples.untitled; Samples.loud])
      (init false) 0%nat (Some 10) = Some (Ok all_tracks, st')
    /\ nth_error all_tracks 0 = Some r1
    /\ nth_error all_tracks 1 = Some r2
    /\ title_length r1 = 0 /\ word_count r1 = 0
    /\ popularity r2 = 150.
Proof.
  do 4 eexists. conj; try (vm_compute; reflexivity); reflexivity.
Qed.

(** ** The per-year sub-target *)

(** For a total that is not negative the sub-target is the floored
    quotient, raised to 1 when it is 0. *)
Lemma override_target_nonnegative self t self' :
  0 <= t ->
  override_target self (Some t) = Ok self' ->
  tracks_per_year self' = Z.max 1 (t / llen (years self))
  /\ target_per_genre self' = t.
Proof.
  intros Ht. unfold override_target.
  destruct (llen (years self) =? 0) eqn:Hn; [discriminate|].
  apply Z.eqb_neq in Hn.
  assert (Hpos : 0 < llen (years self)) by (unfold llen in *; lia).
  intros H; injection H as <-. cbn. split; [|reflexivity].
  pose proof (Z.div_pos t (llen (years self)) Ht Hpos) as Hq.
  destruct (t / llen (years self) =? 0) eqn:Hz.
  - apply Z.eqb_eq in Hz. lia.
  - apply Z.eqb_neq in Hz. lia.
Qed.

Lemma override_target_ten_of_five :
  exists self', override_target (init false) (Some 10) = Ok self'
                /\ tracks_per_year self' = 2.
Proof. eexists. split; reflexivity. Qed.

Lemma override_target_minus_three :
  exists self', override_target (init false) (Some (-3)) = Ok self'
                /\ tracks_per_year self' = -1.
Proof. eexists. split; reflexivity. Qed.

(** C5. For every per-genre total that a caller passes to
    [collect_tracks] (a number of tracks, so not negative) and a collector
    with at least one year, the first statements of [collect_tracks]
    succeed; they set [target_per_genre] to the total and [tracks_per_year]
    to the total divided by the number of years, floored, with a minimum
    of 1, and touch no other attribute. With five years a total of 10
    gives a sub-target of 2. *)
Theorem per_year_target_is_floored_quotient :
  forall (self : Self) (t : Z),
    0 <= t ->
    years self <> [] ->
    exists self',
      override_target self (Some t) = Ok self'
      /\ target_per_genre self' = t
      /\ tracks_per_year self' = Z.max 1 (t / llen (years self))
      /\ 1 <= tracks_per_year self'
      /\ (t / llen (years self) = 0 <-> tracks_per_year self' = 1 /\ t < llen (years self))
      /\ (llen (years self) = 5 -> t = 10 -> tracks_per_year self' = 2)
      /\ genres self' = genres self /\ years self' = years self
      /\ genre_categories self' = genre_categories self
      /\ test_mode self' = test_mode self
      /\ max_retries self' = max_retries self
      /\ retry_delay self' = retry_delay self.
Proof.
  intros self t Ht Hy.
  assert (Hpos : 0 < llen (years self)).
  { unfold llen. destruct (years self); [contradiction | cbn; lia]. }
  assert (Hn : (llen (years self) =? 0) = false) by (apply Z.eqb_neq; lia).
  pose proof (Z.div_pos t (llen (years self)) Ht Hpos) as Hq.
  unfold override_target. rewrite Hn. eexists. split; [reflexivity|].
  cbn [target_per_genre tracks_per_year genres years genre_categories
       test_mode max_retries retry_delay with_targets].
  assert (Hmax : (if t / llen (years self) =? 0 then 1
                  else t / llen (years self))
                 = Z.max 1 (t / llen (years self))).
  { destruct (t / llen (years self) =? 0) eqn:Hz;
      [apply Z.eqb_eq in Hz | apply Z.eqb_neq in Hz]; lia. }
  rewrite Hmax. conj; try reflexivity.
  - lia.
  - split.
    + intros Hz. split; [lia|]. apply Z.div_small_iff in Hz; lia.
    + intros [_ Hlt]. apply Z.div_small. lia.
  - intros H5 ->. rewrite H5. reflexivity.
Qed.

Lemma per_year_target_is_floored_quotient_witness :
  exists self',
    override_target (init false) (Some 10) = Ok self'
    /\ target_per_genre self' = 10
    /\ tracks_per_year self' = Z.max 1 (10 / llen (years (init false)))
    /\ 1 <= tracks_per_year self'
    /\ (10 / llen (years (init false)) = 0
        <-> tracks_per_year self' = 1 /\ 10 < llen (years (init false)))
    /\ (llen (years (init false)) = 5 -> 10 = 10 -> tracks_per_year self' = 2)
    /\ genres self' = genres (init false)
    /\ years self' = years (init false)
    /\ genre_categories self' = genre_categories (init false)
    /\ test_mode self' = test_mode (init false)
    /\ max_retries self' = max_retries (init false)
    /\ retry_delay self' = retry_delay (init false).
Proof.
  apply (@per_year_target_is_floored_quotient (init false) 10);
    [lia | discriminate].
Defined.

(** Outside the totals that a caller passes: for a negative number the
    floored quotient is negative, the test for 0 does not fire, and the
    sub-target is that negative quotient (-1 for -3), so that no track is
    collected. *)
Lemma override_target_negative_total :
  forall (test : bool) (t : Z),
    exists self',
      override_target (init test) (Some t) = Ok self'
      /\ tracks_per_year self'
         = (if t <? 0 then t / 5 else Z.max 1 (t / 5))
      /\ (tracks_per_year self' <? 1) = (t <? 0).
Proof.
  intros test t. unfold override_target.
  change (llen (years (init test))) with 5. cbn [Z.eqb].
  eexists. split; [reflexivity|]. cbn [tracks_per_year with_targets].
  destruct (t <? 0) eqn:Ht.
  - apply Z.ltb_lt in Ht.
    assert (Hq : t / 5 < 0) by (apply Z.div_lt_upper_bound; lia).
    destruct (t / 5 =? 0) eqn:Hz; [apply Z.eqb_eq in Hz; lia|].
    split; [reflexivity | apply Z.ltb_lt; lia].
  - apply Z.ltb_ge in Ht.
    assert (Hq : 0 <= t / 5) by (apply Z.div_pos; lia).
    destruct (t / 5 =? 0) eqn:Hz.
    + apply Z.eqb_eq in Hz. rewrite Hz. split; reflexivity.
    + apply Z.eqb_neq in Hz. split; [lia | apply Z.ltb_ge; lia].
Qed.

End CollectorFacts.

(* ================================================================== *)
(** * Theorems: recovery *)
(* ================================================================== *)

Module RecoveryFacts.

Import Py Recovery.

Lemma getattr_recover :
  getattr "recover_partial_collection"
  = Raise (AttributeError "recover_partial_collection").
Proof. reflexivity. Qed.

(** Whatever a loader would return, a valid selection ends in the
    [AttributeError]. *)
Lemma recover_valid_selection loader temp_dirs answer n selected_dir :
  int answer = Some n ->
  index temp_dirs (n - 1) = Some selected_dir ->
  recover loader temp_dirs answer
  = Raise (AttributeError "recover_partial_collection").
Proof.
  intros Hn Hd. unfold recover. rewrite Hn, Hd, getattr_recover.
  destruct temp_dirs; [|reflexivity].
  unfold index in Hd. cbn in Hd. destruct (0 <=? n - 1); [|discriminate].
  destruct (Z.to_nat (n - 1)); discriminate.
Qed.

(** C4 on the code: with one partial collection found and selected, the
    call of [recover_partial_collection] raises an [AttributeError], since
    the class defines no such method; and whatever the directories found
    and the answer typed, the branch ends with "no partial collections",
    with "invalid selection" or with that [AttributeError]: it never hands
    back a dataset, whatever the checkpoint files are. *)
Theorem recover_raises_attribute_error :
  forall loader : string -> option Pandas.DataFrame,
    recover loader ["data/temp_collection_20240101_120000"] "1"
    = Raise (AttributeError "recover_partial_collection")
    /\ forall temp_dirs answer,
         recover loader temp_dirs answer = Ok NoPartialCollections
         \/ recover loader temp_dirs answer = Ok InvalidSelection
         \/ recover loader temp_dirs answer
            = Raise (AttributeError "recover_partial_collection").
Proof.
  intros loader. split; [reflexivity|].
  intros temp_dirs answer.
  unfold recover. destruct temp_dirs as [|d ds]; [now left|].
  destruct (int answer) as [n|]; [|now right; left].
  destruct (index (d :: ds) (n - 1)); [|now right; left].
  rewrite getattr_recover. now right; right.
Qed.

End RecoveryFacts.

(* ================================================================== *)
(** * Theorems: cleaning *)
(* ================================================================== *)

Module CleanerFacts.

Import Py Pandas Collector Cleaner.

Lemma dropna_absent df subset c :
  In c subset -> mem c (columns df) = false ->
  exists absent, In c absent /\ dropna df subset = Raise (KeyError absent).
Proof.
  intros Hin Hc. unfold dropna.
  assert (Hf : In c (filter (fun c => negb (mem c (columns df))) subset)).
  { apply filter_In. split; [exact Hin|]. now rewrite Hc. }
  destruct (filter _ subset) as [|a absent]; [destruct Hf|].
  exists (a :: absent). split; [exact Hf | reflexivity].
Qed.

(** C10: on a frame without a column named 'genre' the drop of the rows
    with missing critical fields raises a [KeyError] naming 'genre', and
    [clean_data] raises it in turn, whatever the later steps are. Every
    frame that [collect_tracks] returns is such a frame: it has the
    collector's ten columns, the category under 'genre_category', and
    [clean_data] raises [KeyError(['genre'])] on it. *)
Theorem clean_data_raises_without_genre :
  (forall (later_steps : DataFrame -> result DataFrame) (df : DataFrame),
      mem "genre" (columns df) = false ->
      exists absent,
        In "genre" absent
        /\ _handle_missing_values df = Raise (KeyError absent)
        /\ clean_data later_steps df = Raise (KeyError absent))
  /\ (forall St (sp_search : St -> string -> Z -> search_response * St)
             self st target df st'
             (later_steps : DataFrame -> result DataFrame),
        collect_tracks sp_search self st target = Some (Ok (Some df), st') ->
        mem "genre" (columns df) = false
        /\ mem "genre_category" (columns df) = true
        /\ clean_data later_steps df = Raise (KeyError ["genre"])).
Proof.
  split.
  - intros later_steps df Hc.
    destruct (@dropna_absent df key_cols "genre") as (absent & Hin & E); auto.
    { cbn. tauto. }
    exists absent. unfold clean_data, _handle_missing_values. rewrite E. auto.
  - intros St sp_search self st target df st' later_steps H.
    apply CollectorFacts.collect_tracks_frame in H as (all & _ & _ & _ & Hc).
    unfold clean_data, _handle_missing_values, dropna. rewrite Hc.
    conj; reflexivity.
Qed.

Lemma clean_data_raises_without_genre_witness :
  (exists absent,
      In "genre" absent
      /\ _handle_missing_values Samples.one_row = Raise (KeyError absent)
      /\ clean_data _remove_duplicates Samples.one_row
         = Raise (KeyError absent))
  /\ (mem "genre" (columns Samples.hello_frame) = false
      /\ mem "genre_category" (columns Samples.hello_frame) = true
      /\ clean_data _remove_duplicates Samples.hello_frame
         = Raise (KeyError ["genre"])).
Proof.
  split.
  - apply (proj1 clean_data_raises_without_genre _remove_duplicates
             Samples.one_row).
    reflexivity.
  - apply (proj2 clean_data_raises_without_genre nat
             (Samples.first_page [Samples.hello]) (init false) 0%nat (Some 5)
             Samples.hello_frame Samples.hello_state _remove_duplicates).
    vm_compute. reflexivity.
Defined.

End CleanerFacts.

(* ================================================================== *)
(** * Theorems: effect-size bands *)
(* ================================================================== *)

Module StatsFacts.

Import Stats.

(** The order of the binary64 values is transitive. *)
Lemma SFltb_trans (a b c : spec_float) :
  SFltb a b = true -> SFltb b c = true -> SFltb a c = true.
Proof.
  unfold SFltb, SFcompare.
  destruct a as [sa|sa| |sa ma ea], b as [sb|sb| |sb mb eb],
           c as [sc|sc| |sc mc ec];
    try destruct sa; try destruct sb; try destruct sc;
    try discriminate; try reflexivity;
    change (Pos.compare_cont Eq) with Pos.compare;
    destruct (Z.compare_spec ea eb), (Z.compare_spec eb ec),
             (Z.compare_spec ea ec);
    try discriminate; try reflexivity; try lia; subst;
    destruct (Pos.compare_spec ma mb), (Pos.compare_spec mb mc),
             (Pos.compare_spec ma mc);
    cbn; try discriminate; try reflexivity; try lia.
Qed.

Lemma gt_trans (x a b : float) :
  gt x a = true -> gt a b = true -> gt x b = true.
Proof.
  unfold gt. rewrite !ltb_spec. intros H1 H2. eapply SFltb_trans; eauto.
Qed.

Lemma gt_above (x hi lo : float) :
  gt hi lo = true -> gt x lo = false -> gt x hi = false.
Proof.
  intros Hhl Hlo. destruct (gt x hi) eqn:Hhi; [|reflexivity].
  rewrite (gt_trans Hhi Hhl) in Hlo. discriminate.
Qed.

(** String labels that differ, in the form the proofs below use. *)
Ltac bands :=
  repeat match goal with
         | |- _ /\ _ => split
         | |- _ <-> _ => split
         | |- _ -> _ => intros ?
         | H : _ /\ _ |- _ => destruct H
         | H : ?a = true, H' : ?a = false |- _ => congruence
         end;
  try reflexivity; try discriminate; try congruence.

(** C9, as the code has it. The conclusion of a test names a band only
    when the result is significant ([p_value > 0.05] is false). For the
    correlation the band is "strong" when [|r| > 0.5], "moderate" when
    [|r| > 0.3] but not [> 0.5], and "weak" otherwise; for Cohen's d it is
    "large" when [|d| > 0.8], "medium" when [|d| > 0.5] but not [> 0.8],
    and "small" otherwise; for eta squared it is "large" when [> 0.14],
    "medium" when [> 0.06] but not [> 0.14], and "small" otherwise. A value
    equal to a threshold falls in the lower band. The four bands of the
    correlation (negligible below 0.1, small below 0.3, medium below 0.5,
    large otherwise) are those of [ResultsInterpreter]. *)
Theorem conclusion_bands :
  forall p x : float,
    (gt p 0.05 = true ->
       _interpret_correlation x p = NotSignificant
       /\ _interpret_anova p x = NotSignificant
       /\ _interpret_ttest p x = NotSignificant)
    /\ (gt p 0.05 = false ->
          (band_of (_interpret_correlation x p) = Some "strong"
             <-> gt (abs x) 0.5 = true)
          /\ (band_of (_interpret_correlation x p) = Some "moderate"
                <-> gt (abs x) 0.3 = true /\ gt (abs x) 0.5 = false)
          /\ (band_of (_interpret_correlation x p) = Some "weak"
                <-> gt (abs x) 0.3 = false)
          /\ (band_of (_interpret_ttest p x) = Some "large"
                <-> gt (abs x) 0.8 = true)
          /\ (band_of (_interpret_ttest p x) = Some "medium"
                <-> gt (abs x) 0.5 = true /\ gt (abs x) 0.8 = false)
          /\ (band_of (_interpret_ttest p x) = Some "small"
                <-> gt (abs x) 0.5 = false)
          /\ (band_of (_interpret_anova p x) = Some "large"
                <-> gt x 0.14 = true)
          /\ (band_of (_interpret_anova p x) = Some "medium"
                <-> gt x 0.06 = true /\ gt x 0.14 = false)
          /\ (band_of (_interpret_anova p x) = Some "small"
                <-> gt x 0.06 = false))
    /\ effect_size (interpreter_correlation x p)
       = spec_correlation_band (abs x).
Proof.
  intros p x.
  pose proof (@gt_above (abs x) 0.5 0.3 eq_refl) as Hr.
  pose proof (@gt_above (abs x) 0.8 0.5 eq_refl) as Hd.
  pose proof (@gt_above x 0.14 0.06 eq_refl) as He.
  unfold _interpret_correlation, _interpret_anova, _interpret_ttest.
  split; [|split; [|reflexivity]]; intros Hp; rewrite Hp; cbn [band_of].
  - auto.
  - destruct (gt (abs x) 0.5) eqn:H5, (gt (abs x) 0.3) eqn:H3,
             (gt (abs x) 0.8) eqn:H8, (gt x 0.14) eqn:H14,
             (gt x 0.06) eqn:H06;
      try (specialize (Hr eq_refl); discriminate);
      try (specialize (Hd eq_refl); discriminate);
      try (specialize (He eq_refl); discriminate);
      clear Hr Hd He; bands.
Qed.

Lemma conclusion_bands_witness :
  (_interpret_correlation 0.5 0.5 = NotSignificant
   /\ _interpret_anova 0.5 0.5 = NotSignificant
   /\ _interpret_ttest 0.5 0.5 = NotSignificant)
  /\ (band_of (_interpret_ttest 0.01 0.5) = Some "small"
        <-> gt (abs 0.5) 0.5 = false).
Proof.
  split.
  - apply (proj1 (conclusion_bands 0.5 0.5)). reflexivity.
  - apply (proj1 (proj2 (conclusion_bands 0.01 0.5))). reflexivity.
Defined.

(** C9 as stated fails: a significant Cohen's d of exactly 0.5 is reported
    as "small" where the stated bands give "medium"; a significant
    correlation of 0.05 is reported as "weak", and no conclusion ever says
    "negligible"; a result that is not significant is given no band. *)
Lemma bands_differ_from_the_stated_ones :
  band_of (_interpret_ttest 0.01 0.5) = Some "small"
  /\ spec_cohen_band (abs 0.5) = "medium"
  /\ band_of (_interpret_correlation 0.05 0.01) = Some "weak"
  /\ spec_correlation_band (abs 0.05) = "negligible"
  /\ band_of (_interpret_anova 0.2 0.5) = None
  /\ spec_eta_band 0.5 = "large".
Proof. conj; reflexivity. Qed.

End StatsFacts.

(* ================================================================== *)
(** * Further theorems: the collector *)
(* ================================================================== *)

Module CollectorMoreFacts.

Import Py Collector Instrumented.

(** ** Collection sizes *)

(** X1. [set_collection_size] accepts exactly the four mode names: 'test'
    sets 20 tracks per year and 100 per genre, 'medium' 50 and 250, 'full'
    800 and 4000, 'mega' 1200 and 6000, each target per genre being five
    times the tracks per year; no other attribute changes. Any other name
    raises [ValueError]. *)
Theorem set_collection_size_modes :
  forall (self : Self) (size : string),
    (exists per_year per_genre self',
       In (size, (per_year, per_genre))
          [ ("test", (20, 100)); ("medium", (50, 250));
            ("full", (800, 4000)); ("mega", (1200, 6000)) ]
       /\ set_collection_size self size = Ok self'
       /\ tracks_per_year self' = per_year
       /\ target_per_genre self' = per_genre
       /\ per_genre = per_year * 5
       /\ test_mode self' = test_mode self
       /\ genres self' = genres self
       /\ max_retries self' = max_retries self
       /\ retry_delay self' = retry_delay self
       /\ years self' = years self
       /\ genre_categories self' = genre_categories self)
    \/ (~ In size ["test"; "medium"; "full"; "mega"]
        /\ set_collection_size self size = Raise ValueError).
Proof.
  intros self size. unfold set_collection_size.
  destruct (String.eqb_spec size "test") as [->|H1].
  { left. exists 20, 100. eexists. split; [now left|].
    split; [reflexivity|]. cbn. conj; reflexivity. }
  destruct (String.eqb_spec size "medium") as [->|H2].
  { left. exists 50, 250. eexists. split; [right; now left|].
    split; [reflexivity|]. cbn. conj; reflexivity. }
  destruct (String.eqb_spec size "full") as [->|H3].
  { left. exists 800, 4000. eexists. split; [do 2 right; now left|].
    split; [reflexivity|]. cbn. conj; reflexivity. }
  destruct (String.eqb_spec size "mega") as [->|H4].
  { left. exists 1200, 6000. eexists. split; [do 3 right; now left|].
    split; [reflexivity|]. cbn. conj; reflexivity. }
  right. split; [|reflexivity]. cbn. intuition congruence.
Qed.

(** ** One search *)

Section Search.

Variable St : Type.
Variable sp_search : St -> string -> Z -> search_response * St.
Variable self : Self.

(** X2. [_search_tracks] only appends: the list it returns starts with the
    list it was given, [tracks_found] is the number of records appended,
    the list never grows beyond the per-year target, and a list without a
    repeated (title, artist) pair stays so. *)
Theorem search_appends_below_target :
  forall st q year_tracks genre year found year_tracks' st',
    _search_tracks sp_search self st q year_tracks genre year
      = Some (found, year_tracks', st') ->
    exists added,
      year_tracks' = year_tracks ++ added
      /\ found = llen added
      /\ Forall (from_item sp_search genre year) added
      /\ llen year_tracks' <= Z.max (llen year_tracks) (tracks_per_year self)
      /\ (NoDup (map key year_tracks) -> NoDup (map key year_tracks')).
Proof.
  intros st q yt genre year found yt' st' H.
  assert (Hfound : found = llen yt' - llen yt).
  { unfold _search_tracks in H.
    destruct (search_loop _ _ _ _ _ _ _ _ _) as [[yt1 st1]|]; [|discriminate].
    now injection H as <- <- <-. }
  pose (P := fun l : list TrackRecord =>
    exists added, l = yt ++ added
      /\ Forall (from_item sp_search genre year) added
      /\ llen l <= Z.max (llen yt) (tracks_per_year self)
      /\ (NoDup (map key yt) -> NoDup (map key l))).
  assert (HP : P yt').
  { refine (@CollectorFacts._search_tracks_inv St sp_search self genre year P
              _ st q yt found yt' st' _ H).
    - intros l track r (added & -> & Hall & Hlen & Hnd) Hlt Hret Hitem.
      exists (added ++ [r]). rewrite app_assoc. conj; auto.
      + apply Forall_app. split; auto. constructor; [|constructor].
        now exists track, (yt ++ added).
      + unfold llen in *. rewrite !length_app in *. cbn [List.length]. lia.
      + intros Hyt. specialize (Hnd Hyt).
        apply CollectorFacts.process_item_added in Hitem.
        destruct Hitem
          as (name & artist & pop & dur & _ & _ & _ & _ & Hdup & _ & _ & ->).
        rewrite map_app. apply NoDup_app; auto.
        * cbn. constructor; [tauto | constructor].
        * intros k Hk [<-|[]].
          apply CollectorFacts.is_duplicate_false in Hdup. now apply Hdup.
    - exists []. rewrite app_nil_r. conj; auto. lia. }
  destruct HP as (added & -> & Hall & Hlen & Hnd).
  exists added. conj; auto.
  subst found. unfold llen. rewrite length_app. lia.
Qed.

(** ** Requests *)

Lemma search_loop_counted fuel : forall st n q genre year yt offset res st' n',
  search_loop (counted sp_search) self fuel (st, n) q genre year yt offset
    = Some (res, (st', n')) ->
  search_loop sp_search self fuel st q genre year yt offset = Some (res, st')
  /\ (n <= n' <= n + fuel)%nat.
Proof.
  induction fuel as [|fuel IH]; intros st n q genre year yt offset res st' n';
    cbn [search_loop].
  - destruct (_ && _); [discriminate|].
    intros H; injection H as <- <- <-. split; [reflexivity | lia].
  - destruct (_ && _); [|intros H; injection H as <- <- <-;
                          split; [reflexivity | lia]].
    unfold counted at 1. cbn [fst snd].
    destruct (sp_search st q offset) as [response st1].
    destruct response as [|tracks];
      [intros H; injection H as <- <- <-; split; [reflexivity | lia]|].
    destruct tracks as [|track rest];
      [intros H; injection H as <- <- <-; split; [reflexivity | lia]|].
    destruct (page_loop self genre year (track :: rest) yt) as [yt1 raised].
    destruct raised;
      [intros H; injection H as <- <- <-; split; [reflexivity | lia]|].
    intros H. apply IH in H as [H1 H2]. split; [exact H1 | lia].
Qed.

(** X3. A search makes at most 500 requests, whatever the oracle answers, and
    counting them does not change its result. *)
Theorem search_makes_at_most_500_requests :
  forall st n q year_tracks genre year found year_tracks' st' n',
    _search_tracks (counted sp_search) self (st, n) q year_tracks genre year
      = Some (found, year_tracks', (st', n')) ->
    _search_tracks sp_search self st q year_tracks genre year
      = Some (found, year_tracks', st')
    /\ (n <= n' <= n + 500)%nat.
Proof.
  intros st n q yt genre year found yt' st' n'. unfold _search_tracks.
  destruct (search_loop (counted sp_search) _ _ _ _ _ _ _ _)
    as [[yt1 [st1 n1]]|] eqn:E; [|discriminate].
  intros H; injection H as <- <- <- <-.
  apply search_loop_counted in E as [E Hn]. rewrite E.
  split; [reflexivity|]. change (Z.to_nat max_offset) with 500%nat in Hn. lia.
Qed.

Lemma formulations_loop_counted queries :
  forall st n genre year yt sent res st' n' sent',
  formulations_loop (counted sp_search) self (st, n) queries genre year yt sent
    = Some (res, (st', n'), sent') ->
  formulations_loop sp_search self st queries genre year yt sent
    = Some (res, st', sent')
  /\ (n <= n' <= n + 500 * List.length queries)%nat.
Proof.
  induction queries as [|q rest IH];
    intros st n genre year yt sent res st' n' sent'; cbn [formulations_loop].
  - intros H; injection H as <- <- <- <-. split; [reflexivity | cbn; lia].
  - destruct (llen yt >=? tracks_per_year self).
    + intros H; injection H as <- <- <- <-. split; [reflexivity | lia].
    + destruct (_search_tracks (counted sp_search) _ _ _ _ _ _)
        as [[[found yt1] [st1 n1]]|] eqn:E; [|discriminate].
      assert (E' : _search_tracks sp_search self st q yt genre year
                   = Some (found, yt1, st1) /\ (n <= n1 <= n + 500)%nat).
      { revert E. unfold _search_tracks.
        destruct (search_loop (counted sp_search) _ _ _ _ _ _ _ _)
          as [[yt2 [st2 n2]]|] eqn:E0; [|discriminate].
        intros H; injection H as <- <- <- <-.
        apply search_loop_counted in E0 as [E0 Hn]. rewrite E0.
        split; [reflexivity|].
        change (Z.to_nat max_offset) with 500%nat in Hn. lia. }
      destruct E' as [E' Hn]. rewrite E'.
      intros H. apply IH in H as [H1 H2]. split; [exact H1|].
      cbn [List.length]. lia.
Qed.

Lemma attempts_loop_counted gq genre year fuel :
  forall st n yt qi a log res st' n' a' log',
  attempts_loop (counted sp_search) self fuel (st, n) gq genre year yt qi a log
    = Some (res, (st', n'), a', log') ->
  attempts_loop sp_search self fuel st gq genre year yt qi a log
    = Some (res, st', a', log')
  /\ (n <= n' <= n + 1000 * fuel)%nat.
Proof.
  induction fuel as [|fuel IH];
    intros st n yt qi a log res st' n' a' log'; cbn [attempts_loop].
  - destruct (_ && _); [discriminate|].
    intros H; injection H as <- <- <- <- <-. split; [reflexivity | lia].
  - destruct (_ && _);
      [|intros H; injection H as <- <- <- <- <-; split; [reflexivity | lia]].
    destruct (formulations_loop (counted sp_search) _ _ _ _ _ _ _)
      as [[[yt1 [st1 n1]] sent]|] eqn:E; [|discriminate].
    apply formulations_loop_counted in E as [E Hn]. rewrite E.
    unfold search_queries in Hn. cbn [List.length] in Hn.
    intros H. apply IH in H as [H1 H2]. split; [exact H1 | lia].
Qed.

(** X4. A cell makes at most [3000 * len(variants)] requests: three rounds
    over the variants, two formulations each, 500 requests a search. *)
Theorem cell_makes_bounded_requests :
  forall st n genre_queries genre year year_tracks st' n' attempts log,
    collect_cell (counted sp_search) self (st, n) genre_queries genre year
      = Some (year_tracks, (st', n'), attempts, log) ->
    collect_cell sp_search self st genre_queries genre year
      = Some (year_tracks, st', attempts, log)
    /\ (n <= n' <= n + 3000 * List.length genre_queries)%nat.
Proof.
  intros st n gq genre year yt st' n' a log. unfold collect_cell.
  intros H. apply attempts_loop_counted in H as [H Hn]. split; [exact H|].
  unfold max_attempts, llen in Hn.
  replace (Z.to_nat (Z.of_nat (List.length gq) * 3))
    with (3 * List.length gq)%nat in Hn by lia.
  lia.
Qed.

(** ** The grid of cells *)

Lemma years_loop_runs gq genre ys : forall st acc res st',
  years_loop sp_search self st gq genre ys acc = Some (res, st') ->
  exists cells,
    res = acc ++ List.concat cells
    /\ Forall2 (fun year yt =>
                  exists st0 st1 n log,
                    collect_cell sp_search self st0 gq genre year
                    = Some (yt, st1, n, log)) ys cells.
Proof.
  induction ys as [|year ys IH]; intros st acc res st'; cbn [years_loop].
  - intros H; injection H as <- <-. exists []. cbn. now rewrite app_nil_r.
  - destruct (collect_cell _ _ _ _ _ _) as [[[[yt st1] n] log]|] eqn:E;
      [|discriminate].
    intros H. apply IH in H as (cells & -> & Hcells).
    exists (yt :: cells). cbn [List.concat]. rewrite app_assoc. split; auto.
    constructor; eauto 6.
Qed.

Lemma genre_row st genre tracks st' :
  _collect_genre_tracks sp_search self st genre = Some (Ok tracks, st') ->
  exists row,
    tracks = List.concat row
    /\ Forall2 (cell_of self genre) (years self) row.
Proof.
  unfold _collect_genre_tracks.
  destruct (lookup (genre_categories self) genre) as [gq|e]; [|discriminate].
  destruct (years_loop _ _ _ _ _ _ _) as [[res st1]|] eqn:E; [|discriminate].
  intros H; injection H as <- <-.
  apply years_loop_runs in E as (cells & -> & Hcells). cbn [app].
  exists cells. split; [reflexivity|].
  eapply Forall2_impl; [|exact Hcells].
  intros year yt (st0 & st2 & n & log & Hcell). split.
  - apply CollectorFacts.cell_records in Hcell as [_ Hall].
    eapply Forall_impl; [|exact Hall]. intros r Hr.
    destruct (CollectorFacts.from_item_fields Hr) as (Hg & Hy & _). auto.
  - eapply CollectorFacts.collect_cell_bounded; eauto.
Qed.

Lemma row_length genre ys row :
  Forall2 (cell_of self genre) ys row ->
  llen (List.concat row) <= llen ys * Z.max 0 (tracks_per_year self).
Proof.
  induction 1 as [|year cell ys row [_ Hlen] _ IH]; cbn [List.concat].
  - unfold llen. cbn. lia.
  - unfold llen in *. rewrite length_app. cbn [List.length]. lia.
Qed.

Lemma genres_loop_grid st all_tracks st' :
  genres_loop sp_search self st (genres self) [] = Some (Ok all_tracks, st') ->
  exists grid,
    all_tracks = List.concat (map (@List.concat _) grid)
    /\ Forall2 (fun genre row => Forall2 (cell_of self genre) (years self) row)
               (genres self) grid
    /\ llen all_tracks
       <= llen (genres self) * llen (years self)
          * Z.max 0 (tracks_per_year self).
Proof.
  intros H. apply CollectorFacts.genres_loop_parts in H as (parts & -> & Hparts).
  cbn [app]. revert Hparts. generalize (genres self) as gs.
  induction parts as [|part parts IH]; intros gs Hparts;
    inversion Hparts as [|genre p gs' ps (st0 & st1 & Hg) Hrest]; subst.
  - exists []. conj; [reflexivity | constructor |]. unfold llen. cbn. lia.
  - destruct (IH _ Hrest) as (grid & Hc & Hgrid & Hlen).
    apply genre_row in Hg as (row & -> & Hrow).
    exists (row :: grid). cbn [map List.concat]. rewrite <- Hc. conj.
    + reflexivity.
    + constructor; auto.
    + pose proof (row_length Hrow) as Hr.
      unfold llen in *. rewrite length_app. cbn [List.length]. nia.
Qed.

End Search.

(** ** Runs *)

Section Runs.

Variable St : Type.
Variable sp_search : St -> string -> Z -> search_response * St.

Lemma collect_tracks_of_run self st target all_tracks st' :
  run_records sp_search self st target = Some (Ok all_tracks, st') ->
  collect_tracks sp_search self st target
  = Some (Ok (match all_tracks with
              | [] => None
              | _ => Some (Pandas.from_records (map record_dict all_tracks))
              end), st').
Proof.
  unfold run_records, collect_tracks.
  destruct (override_target self target) as [self'|e]; [|discriminate].
  intros ->. destruct all_tracks as [|r l]; [reflexivity|].
  destruct (CollectorFacts.build_frame_records r l) as [-> _]. reflexivity.
Qed.

(** X5. The records of a run are the cells of the grid laid end to end, genre
    by genre in the order of [genres] and, within a genre, year by year in
    the order of [years]; a cell holds records of its genre and year only,
    and at most [max(0, tracks_per_year)] of them, so that a run returns at
    most [len(genres) * len(years) * max(0, tracks_per_year)] records. *)
Theorem run_is_grid_of_bounded_cells :
  forall self st target all_tracks st',
    run_records sp_search self st target = Some (Ok all_tracks, st') ->
    exists self' grid,
      override_target self target = Ok self'
      /\ all_tracks = List.concat (map (@List.concat _) grid)
      /\ Forall2 (fun genre row =>
                    Forall2 (cell_of self' genre) (years self) row)
                 (genres self) grid
      /\ llen all_tracks
         <= llen (genres self) * llen (years self)
            * Z.max 0 (tracks_per_year self').
Proof.
  intros self st target all st'. unfold run_records.
  destruct (override_target self target) as [self'|e] eqn:Ho; [|discriminate].
  pose proof (CollectorFacts.override_target_keeps _ _ Ho) as (Hg & Hy & _).
  intros H. apply genres_loop_grid in H as (grid & Hall & Hgrid & Hlen).
  rewrite Hg, Hy in *. exists self', grid. conj; auto.
Qed.

(** X6. When the search API never answers with a non-empty page, because it
    fails or has nothing, the collector as constructed ends its run with
    no record and [collect_tracks] returns [None]. *)
Theorem no_page_no_dataset :
  (forall st q offset,
      fst (sp_search st q offset) = ApiError
      \/ fst (sp_search st q offset) = Items []) ->
  forall test per_year per_genre st target,
    exists st',
      run_records sp_search (with_targets (init test) per_year per_genre)
        st target = Some (Ok [], st')
      /\ collect_tracks sp_search (with_targets (init test) per_year per_genre)
           st target = Some (Ok None, st').
Proof.
  intros Hapi test per_year per_genre st target.
  set (self := with_targets (init test) per_year per_genre).
  assert (Hrun : exists all st',
             run_records sp_search self st target = Some (Ok all, st')).
  { unfold run_records.
    destruct (override_target self target) as [self'|e] eqn:Ho.
    - pose proof (CollectorFacts.override_target_keeps _ _ Ho) as (Hg & _ & Hc).
      pose proof (CollectorFacts.init_lookups test per_year per_genre) as Hl.
      fold self in Hl. rewrite <- Hg, <- Hc in Hl.
      exact (CollectorFacts.genres_loop_ok sp_search self' Hl st []).
    - exfalso. unfold override_target in Ho.
      destruct target; cbn in Ho; discriminate. }
  destruct Hrun as (all & st' & Hrun). exists st'.
  assert (Hnil : all = []).
  { pose proof (CollectorFacts.run_records_facts _ _ _ _ Hrun) as [Hall _].
    destruct all as [|r l]; [reflexivity|]. exfalso.
    apply Forall_inv in Hall.
    destruct Hall as (_ & _ & track & yt & Hret & _).
    destruct Hret as (st0 & q & offset & tracks & st1 & Hsp & Hin).
    destruct (Hapi st0 q offset) as [H|H]; rewrite Hsp in H; cbn in H.
    - discriminate.
    - injection H as ->. destruct Hin. }
  subst all. split; [exact Hrun|].
  now rewrite (collect_tracks_of_run _ _ _ Hrun).
Qed.

(** X7. [collect_tracks] returns a frame only for a run that collected
    something; the frame has the ten keys of the record dict as its
    columns, in their order, and one row per record, in the order of the
    records, with the ten values of the record: the two columns that
    [collect_tracks] would compute are there already, and the values are
    those that [_search_tracks] stored. *)
Theorem collected_frame_holds_the_records :
  forall self st target df st',
    collect_tracks sp_search self st target = Some (Ok (Some df), st') ->
    exists all_tracks,
      run_records sp_search self st target = Some (Ok all_tracks, st')
      /\ all_tracks <> []
      /\ Pandas.columns df = record_columns
      /\ Pandas.data df = map (fun r => map snd (record_dict r)) all_tracks
      /\ List.length (Pandas.data df) = List.length all_tracks
      /\ Forall (fun row => List.length row = 10%nat) (Pandas.data df)
      /\ Pandas.column df "title_length"
         = Ok (map (fun r => Pandas.CInt (title_length r)) all_tracks)
      /\ Pandas.column df "word_count"
         = Ok (map (fun r => Pandas.CInt (word_count r)) all_tracks).
Proof.
  intros self st target df st' H.
  apply CollectorFacts.collect_tracks_frame in H as (all & Hrun & Hne & -> & Hc).
  exists all. split; [exact Hrun|]. split; [exact Hne|]. split; [exact Hc|].
  assert (Hd : Pandas.data (Pandas.from_records (map record_dict all))
               = map (fun r => map snd (record_dict r)) all).
  { unfold Pandas.from_records in *. cbn [Pandas.data Pandas.columns] in *.
    rewrite Hc, map_map. apply map_ext. intros r. reflexivity. }
  split; [exact Hd|]. conj.
  - rewrite Hd. apply length_map.
  - rewrite Hd. apply Forall_forall.
    intros row Hrow. apply in_map_iff in Hrow as (r & <- & _). reflexivity.
  - unfold Pandas.column. rewrite Hc, Hd. cbn [Pandas.position record_columns].
    cbn. rewrite map_map. reflexivity.
  - unfold Pandas.column. rewrite Hc, Hd. cbn. rewrite map_map. reflexivity.
Qed.

Lemma genres_loop_raises self g :
  (forall gq, lookup (genre_categories self) g <> Ok gq) ->
  forall gs st acc, In g gs ->
    exists e st', genres_loop sp_search self st gs acc = Some (Raise e, st').
Proof.
  intros Hg gs. induction gs as [|genre gs IH]; intros st acc Hin;
    [destruct Hin|]. cbn [genres_loop].
  destruct (CollectorFacts._collect_genre_tracks_total sp_search self st genre)
    as (r & st1 & E).
  rewrite E. destruct r as [tracks|e]; [|eauto].
  destruct Hin as [->|Hin]; [|now apply IH].
  exfalso. unfold _collect_genre_tracks in E.
  destruct (lookup (genre_categories self) g) as [gq|e] eqn:El;
    [now apply (Hg gq) | discriminate].
Qed.

(** X8. A genre of [genres] that has no entry in [genre_categories] makes
    [collect_tracks] return [None]: the [KeyError] is caught, and the
    records already collected for the genres before it are dropped. *)
Theorem unknown_genre_discards_the_run :
  forall self st target self' g,
    override_target self target = Ok self' ->
    In g (genres self) ->
    (forall gq, lookup (genre_categories self) g <> Ok gq) ->
    exists st', collect_tracks sp_search self st target = Some (Ok None, st').
Proof.
  intros self st target self' g Ho Hin Hg. unfold collect_tracks. rewrite Ho.
  pose proof (CollectorFacts.override_target_keeps _ _ Ho) as (Hgs & _ & Hc).
  rewrite <- Hgs in Hin. rewrite <- Hc in Hg.
  destruct (genres_loop_raises self' g Hg (genres self') st [] Hin)
    as (e & st' & E).
  rewrite E. eauto.
Qed.

Lemma genres_loop_no_years self :
  years self = [] ->
  forall gs st,
    genres_loop sp_search self st gs [] = Some (Ok [], st)
    \/ exists e, genres_loop sp_search self st gs [] = Some (Raise e, st).
Proof.
  intros Hy gs. induction gs as [|genre gs IH]; intros st; cbn [genres_loop];
    [now left|].
  unfold _collect_genre_tracks. rewrite Hy.
  destruct (lookup (genre_categories self) genre) as [gq|e]; [|right; eauto].
  cbn [years_loop]. apply IH.
Qed.

(** X9. With an empty list of years, [collect_tracks] raises
    [ZeroDivisionError] as soon as a total is passed (the division stands
    before the [try]); without a total it makes no request and returns
    [None]. *)
Theorem no_years_no_collection :
  forall self st,
    years self = [] ->
    (forall t, collect_tracks sp_search self st (Some t)
               = Some (Raise ZeroDivisionError, st))
    /\ collect_tracks sp_search self st None = Some (Ok None, st).
Proof.
  intros self st Hy. split.
  - intros t. unfold collect_tracks, override_target. rewrite Hy. reflexivity.
  - unfold collect_tracks, override_target.
    destruct (genres_loop_no_years self Hy (genres self) st) as [E|[e E]];
      rewrite E; reflexivity.
Qed.

End Runs.

(** ** The theorems above on sample inputs *)

Lemma search_appends_below_target_witness :
  exists added,
    [MoreSamples.hello_record] = [] ++ added
    /\ 1 = llen added
    /\ Forall (from_item (Samples.first_page [Samples.hello]) "pop" 2024) added
    /\ llen [MoreSamples.hello_record]
       <= Z.max (llen (@nil TrackRecord)) (tracks_per_year (init true))
    /\ (NoDup (map key []) -> NoDup (map key [MoreSamples.hello_record])).
Proof.
  apply (@search_appends_below_target nat (Samples.first_page [Samples.hello])
           (init true) 0%nat "year:2024 genre:pop" [] "pop" 2024 1
           [MoreSamples.hello_record] 2%nat).
  vm_compute. reflexivity.
Defined.

Lemma search_makes_at_most_500_requests_witness :
  _search_tracks (Samples.first_page [Samples.hello]) (init true) 0%nat
    "year:2024 genre:pop" [] "pop" 2024
  = Some (1, [MoreSamples.hello_record], 2%nat)
  /\ (0 <= 2 <= 0 + 500)%nat.
Proof.
  apply (@search_makes_at_most_500_requests nat
           (Samples.first_page [Samples.hello]) (init true) 0%nat 0%nat
           "year:2024 genre:pop" [] "pop" 2024 1
           [MoreSamples.hello_record] 2%nat 2%nat).
  vm_compute. reflexivity.
Defined.

Lemma cell_makes_bounded_requests_witness :
  collect_cell (Samples.first_page [Samples.hello]) (init true) 0%nat
    ["genre:pop"] "pop" 2024
  = Some ([MoreSamples.hello_record], 12%nat, 3,
          [MoreSamples.pop_attempt; MoreSamples.pop_attempt;
           MoreSamples.pop_attempt])
  /\ (0 <= 12 <= 0 + 3000 * List.length ["genre:pop"])%nat.
Proof.
  apply (@cell_makes_bounded_requests nat (Samples.first_page [Samples.hello])
           (init true) 0%nat 0%nat ["genre:pop"] "pop" 2024
           [MoreSamples.hello_record] 12%nat 12%nat 3
           [MoreSamples.pop_attempt; MoreSamples.pop_attempt;
            MoreSamples.pop_attempt]).
  vm_compute. reflexivity.
Defined.

Lemma run_is_grid_of_bounded_cells_witness :
  exists self' grid,
    override_target (init false) (Some 5) = Ok self'
    /\ Samples.hello_records = List.concat (map (@List.concat _) grid)
    /\ Forall2 (fun genre row =>
                  Forall2 (cell_of self' genre) (years (init false)) row)
               (genres (init false)) grid
    /\ llen Samples.hello_records
       <= llen (genres (init false)) * llen (years (init false))
          * Z.max 0 (tracks_per_year self').
Proof.
  apply (@run_is_grid_of_bounded_cells nat (Samples.first_page [Samples.hello])
           (init false) 0%nat (Some 5) Samples.hello_records
           Samples.hello_state).
  vm_compute. reflexivity.
Defined.

Lemma no_page_no_dataset_witness :
  exists st',
    run_records Samples.failing (with_targets (init true) 2 10) 0%nat None
      = Some (Ok [], st')
    /\ collect_tracks Samples.failing (with_targets (init true) 2 10) 0%nat
         None = Some (Ok None, st').
Proof.
  apply (@no_page_no_dataset nat Samples.failing).
  intros st q offset. left. reflexivity.
Defined.

Lemma collected_frame_holds_the_records_witness :
  exists all_tracks,
    run_records (Samples.first_page [Samples.hello]) (init false) 0%nat
      (Some 5) = Some (Ok all_tracks, Samples.hello_state)
    /\ all_tracks <> []
    /\ Pandas.columns Samples.hello_frame = record_columns
    /\ Pandas.data Samples.hello_frame
       = map (fun r => map snd (record_dict r)) all_tracks
    /\ List.length (Pandas.data Samples.hello_frame)
       = List.length all_tracks
    /\ Forall (fun row => List.length row = 10%nat)
              (Pandas.data Samples.hello_frame)
    /\ Pandas.column Samples.hello_frame "title_length"
       = Ok (map (fun r => Pandas.CInt (title_length r)) all_tracks)
    /\ Pandas.column Samples.hello_frame "word_count"
       = Ok (map (fun r => Pandas.CInt (word_count r)) all_tracks).
Proof.
  apply (@collected_frame_holds_the_records nat
           (Samples.first_page [Samples.hello])
           (init false) 0%nat (Some 5) Samples.hello_frame Samples.hello_state).
  vm_compute. reflexivity.
Defined.

Lemma unknown_genre_discards_the_run_witness :
  exists st',
    collect_tracks (Samples.first_page [Samples.hello])
      MoreSamples.country_collector 0%nat None = Some (Ok None, st').
Proof.
  apply (@unknown_genre_discards_the_run nat
           (Samples.first_page [Samples.hello]) MoreSamples.country_collector
           0%nat None MoreSamples.country_collector "country").
  - reflexivity.
  - cbn. tauto.
  - intros gq H. vm_compute in H. discriminate H.
Defined.

Lemma no_years_no_collection_witness :
  (forall t, collect_tracks (Samples.first_page [Samples.hello])
               MoreSamples.no_years 0%nat (Some t)
             = Some (Raise ZeroDivisionError, 0%nat))
  /\ collect_tracks (Samples.first_page [Samples.hello])
       MoreSamples.no_years 0%nat None = Some (Ok None, 0%nat).
Proof.
  apply (@no_years_no_collection nat (Samples.first_page [Samples.hello])
           MoreSamples.no_years 0%nat).
  reflexivity.
Defined.

End CollectorMoreFacts.

(* ================================================================== *)
(** * Further theorems: choosing from a list, recovery *)
(* ================================================================== *)

Module MenuFacts.

Import Py Menu.

Lemma index_in_range {A} (l : list A) (i : Z) :
  (0 <= i < llen l -> exists x, index l i = Some x
                                /\ nth_error l (Z.to_nat i) = Some x)
  /\ (- llen l <= i < 0 ->
      exists x, index l i = Some x
                /\ nth_error l (Z.to_nat (llen l + i)) = Some x)
  /\ (i < - llen l \/ llen l <= i -> index l i = None).
Proof.
  unfold index, llen. conj.
  - intros Hi. replace (0 <=? i) with true by (symmetry; apply Z.leb_le; lia).
    destruct (nth_error l (Z.to_nat i)) as [x|] eqn:E; [eauto|].
    apply nth_error_None in E. lia.
  - intros Hi. replace (0 <=? i) with false by (symmetry; apply Z.leb_gt; lia).
    replace (- Z.of_nat (List.length l) <=? i) with true
      by (symmetry; apply Z.leb_le; lia).
    destruct (nth_error l (Z.to_nat (Z.of_nat (List.length l) + i)))
      as [x|] eqn:E; [eauto|].
    apply nth_error_None in E. lia.
  - intros [Hi|Hi].
    + replace (0 <=? i) with false by (symmetry; apply Z.leb_gt; lia).
      replace (- Z.of_nat (List.length l) <=? i) with false
        by (symmetry; apply Z.leb_gt; lia).
      reflexivity.
    + replace (0 <=? i) with true by (symmetry; apply Z.leb_le; lia).
      apply nth_error_None. lia.
Qed.

(** X10. A choice that reads as the number [n] selects item [n] for
    [1 <= n <= len(items)]; but a choice from [1 - len(items)] to [0] is
    accepted too and selects from the end of the list, [0] giving the last
    item; every other number is an invalid selection. *)
Theorem selection_counts_from_the_end :
  forall (A : Type) (items : list A) (choice : string) (n : Z),
    int choice = Some n ->
    (1 <= n <= llen items ->
     exists x, select items choice = Some x
               /\ nth_error items (Z.to_nat (n - 1)) = Some x)
    /\ (1 - llen items <= n <= 0 ->
        exists x, select items choice = Some x
                  /\ nth_error items (Z.to_nat (llen items + n - 1)) = Some x)
    /\ (n < 1 - llen items \/ llen items < n -> select items choice = None).
Proof.
  intros A items choice n Hn. unfold select. rewrite Hn.
  destruct (index_in_range items (n - 1)) as (H1 & H2 & H3). conj.
  - intros H. apply H1. lia.
  - intros H. destruct H2 as (x & Hx & Hnth); [lia|].
    exists x. split; [exact Hx|].
    replace (llen items + n - 1) with (llen items + (n - 1)) by lia.
    exact Hnth.
  - intros H. apply H3. lia.
Qed.

Lemma selection_counts_from_the_end_witness :
  select ["first.csv"; "last.csv"] "0" = Some "last.csv".
Proof.
  destruct (proj1 (proj2 (@selection_counts_from_the_end string
                            ["first.csv"; "last.csv"] "0" 0 eq_refl)))
    as (x & Hx & Hnth).
  - cbn. lia.
  - cbn in Hnth. injection Hnth as <-. exact Hx.
Defined.

(** X11. In the recovery branch of [run_step_2], "Invalid selection" is printed
    exactly when partial collections were found and the choice selects
    none of them; every choice that selects one, such as [0] or a negative
    number within range, goes on to the call that raises. *)
Theorem recovery_invalid_selection :
  forall (loader : string -> option Pandas.DataFrame)
         (temp_dirs : list string) (choice : string),
    (Recovery.recover loader temp_dirs choice = Ok Recovery.InvalidSelection
     <-> temp_dirs <> [] /\ select temp_dirs choice = None)
    /\ (forall selected_dir,
          select temp_dirs choice = Some selected_dir ->
          Recovery.recover loader temp_dirs choice
          = Raise (AttributeError "recover_partial_collection")).
Proof.
  intros loader temp_dirs choice. unfold Recovery.recover, select. split.
  - destruct temp_dirs as [|d ds].
    + split; [discriminate | intros [H _]; now elim H].
    + destruct (int choice) as [n|]; [|split; [split; [discriminate|reflexivity]|reflexivity]].
      destruct (index (d :: ds) (n - 1)) as [x|].
      * rewrite RecoveryFacts.getattr_recover.
        split; [discriminate | intros [_ H]; discriminate].
      * split; [split; [discriminate|reflexivity]|reflexivity].
  - intros selected_dir Hsel.
    destruct (int choice) as [n|]; [|discriminate]. rewrite Hsel.
    rewrite RecoveryFacts.getattr_recover.
    destruct temp_dirs; [|reflexivity].
    unfold index in Hsel. cbn in Hsel.
    destruct (0 <=? n - 1); [|discriminate].
    destruct (Z.to_nat (n - 1)); discriminate.
Qed.

Lemma recovery_invalid_selection_witness :
  Recovery.recover (fun _ => None) ["data/temp_collection_a"] "0"
  = Raise (AttributeError "recover_partial_collection").
Proof.
  apply (proj2 (recovery_invalid_selection (fun _ => None)
                  ["data/temp_collection_a"] "0")
           "data/temp_collection_a").
  reflexivity.
Defined.

End MenuFacts.

(* ================================================================== *)
(** * Further theorems: the cleaning steps *)
(* ================================================================== *)

Module CleanerMoreFacts.

Import Py Pandas Cleaner CleanerSteps.

(** ** Cells, positions and rows *)

Lemma cell_eqb_eq (u v : cell) : cell_eqb u v = true <-> u = v.
Proof.
  destruct u as [a|a|a|], v as [b|b|b|]; cbn;
    try (split; [discriminate | intros H; discriminate H]);
    try (split; reflexivity).
  - rewrite String.eqb_eq. split; congruence.
  - rewrite Z.eqb_eq. split; congruence.
  - rewrite Bool.eqb_true_iff. split; congruence.
Qed.

Lemma position_mem c cols :
  mem c cols = true <-> exists i, position c cols = Some i.
Proof.
  unfold mem. induction cols as [|c' cols IH]; cbn.
  - split; [discriminate | intros [i H]; discriminate].
  - rewrite (String.eqb_sym c c'). destruct (String.eqb c' c); cbn.
    + split; eauto.
    + rewrite IH. split; intros [i H].
      * exists (S i). now rewrite H.
      * destruct (position c cols) as [j|]; [eauto | discriminate].
Qed.

Lemma position_absent c cols :
  mem c cols = false <-> position c cols = None.
Proof.
  pose proof (position_mem c cols) as [H1 H2].
  destruct (mem c cols), (position c cols) as [i|];
    split; intros E; try reflexivity; try discriminate.
  - destruct (H1 eq_refl) as [j Hj]. discriminate.
  - assert (Hf : false = true) by (apply H2; eauto). discriminate.
Qed.

Lemma position_nth c cols i :
  position c cols = Some i ->
  (i < List.length cols)%nat /\ nth i cols "" = c.
Proof.
  revert i. induction cols as [|c' cols IH]; intros i; cbn; [discriminate|].
  destruct (String.eqb_spec c' c) as [->|Hne].
  - intros H; injection H as <-. split; [lia | reflexivity].
  - destruct (position c cols) as [j|]; [|discriminate].
    intros H; injection H as <-. destruct (IH j eq_refl). split; [lia | auto].
Qed.

Lemma position_inj c1 c2 cols i :
  position c1 cols = Some i -> position c2 cols = Some i -> c1 = c2.
Proof.
  intros H1 H2. apply position_nth in H1 as [_ <-].
  apply position_nth in H2 as [_ <-]. reflexivity.
Qed.

Lemma set_nth_length i v row :
  List.length (set_nth i v row) = List.length row.
Proof.
  revert i. induction row as [|x row IH]; intros [|i]; cbn; auto.
Qed.

Lemma nth_set_nth i j v row :
  nth j (set_nth i v row) CNaN
  = if (j =? i)%nat && (i <? List.length row)%nat then v else nth j row CNaN.
Proof.
  revert i j. induction row as [|x row IH]; intros i j.
  - destruct i, j; cbn; now rewrite ?andb_false_r.
  - destruct i, j; cbn; auto.
Qed.

Lemma set_nth_same i row : set_nth i (nth i row CNaN) row = row.
Proof.
  revert i. induction row as [|x row IH]; intros [|i]; cbn; auto.
  now rewrite IH.
Qed.

Lemma combine_map {A B C} (g : A * B -> C) (h : A -> B) (l : list A) :
  map g (combine l (map h l)) = map (fun x => g (x, h x)) l.
Proof. induction l as [|x l IH]; cbn; [reflexivity | now rewrite IH]. Qed.

(** Writing back a function of a column changes each row in place. *)
Lemma assign_column df c i (f : cell -> cell) :
  position c (columns df) = Some i ->
  column df c = Ok (map (fun row => nth i row CNaN) (data df))
  /\ assign df c (map f (map (fun row => nth i row CNaN) (data df)))
     = {| columns := columns df;
          data := map (fun row => set_nth i (f (nth i row CNaN)) row)
                      (data df) |}.
Proof.
  intros Hp. unfold column, assign. rewrite Hp. split; [reflexivity|].
  f_equal. rewrite map_map. apply combine_map.
Qed.

(** ** Missing values *)

Lemma fillna_rowwise c v df i :
  position c (columns df) = Some i ->
  fillna_if_present c v df
  = {| columns := columns df;
       data := map (fun row => set_nth i (if isnull (nth i row CNaN) then v
                                          else nth i row CNaN) row)
                   (data df) |}.
Proof.
  intros Hp. unfold fillna_if_present.
  replace (mem c (columns df)) with true
    by (symmetry; apply position_mem; eauto).
  destruct (assign_column df c (fun x => if isnull x then v else x) Hp)
    as [-> Ha].
  exact Ha.
Qed.

Lemma fillna_absent c v df :
  position c (columns df) = None -> fillna_if_present c v df = df.
Proof.
  intros Hp. unfold fillna_if_present.
  now replace (mem c (columns df)) with false
    by (symmetry; apply position_absent; exact Hp).
Qed.

(** What one [fillna] does to a frame. *)
Lemma fillna_props c v df :
  isnull v = false -> well_formed df ->
  columns (fillna_if_present c v df) = columns df
  /\ List.length (data (fillna_if_present c v df)) = List.length (data df)
  /\ well_formed (fillna_if_present c v df)
  /\ no_null_in c (fillna_if_present c v df)
  /\ (forall c', no_null_in c' df ->
                 no_null_in c' (fillna_if_present c v df)).
Proof.
  intros Hv Hwf. destruct (position c (columns df)) as [i|] eqn:Hp.
  - rewrite (fillna_rowwise c v df Hp). cbn [columns data].
    destruct (position_nth _ _ Hp) as [Hi _].
    assert (Hcell : forall row j,
      List.length row = List.length (columns df) ->
      isnull (nth j (set_nth i (if isnull (nth i row CNaN) then v
                                else nth i row CNaN) row) CNaN) = true ->
      j <> i /\ isnull (nth j row CNaN) = true).
    { intros row j Hlen. rewrite nth_set_nth.
      destruct (Nat.eqb_spec j i) as [->|Hne]; cbn [andb].
      - replace (i <? List.length row)%nat with true
          by (symmetry; apply Nat.ltb_lt; lia).
        destruct (isnull (nth i row CNaN)) eqn:E; congruence.
      - auto. }
    conj.
    + reflexivity.
    + apply length_map.
    + unfold well_formed in *. cbn [columns data]. apply Forall_map.
      eapply Forall_impl; [|exact Hwf]. intros row Hrow.
      now rewrite set_nth_length.
    + intros j Hj. cbn [columns] in Hj. rewrite Hp in Hj. injection Hj as <-.
      cbn [data]. apply Forall_map. eapply Forall_impl; [|exact Hwf].
      intros row Hrow. cbn beta.
      destruct (isnull (nth i (set_nth i _ row) CNaN)) eqn:E; [|reflexivity].
      apply Hcell in E as [E _]; [now elim E | exact Hrow].
    + intros c' Hc' j Hj. cbn [columns data] in *. specialize (Hc' j Hj).
      apply Forall_map. rewrite Forall_forall in *. intros row Hrow.
      destruct (isnull (nth j (set_nth i _ row) CNaN)) eqn:E; [|reflexivity].
      apply Hcell in E as [_ E];
        [|now apply (proj1 (Forall_forall _ _) Hwf)].
      rewrite (Hc' row Hrow) in E. discriminate.
  - rewrite (fillna_absent c v df Hp). conj; auto.
    intros j Hj. rewrite Hp in Hj. discriminate.
Qed.

Lemma dropna_present df subset :
  (forall c, In c subset -> mem c (columns df) = true) ->
  dropna df subset
  = Ok {| columns := columns df;
          data := filter (fun row =>
                    forallb (fun c =>
                      match position c (columns df) with
                      | Some i => negb (isnull (nth i row CNaN))
                      | None => true
                      end) subset) (data df) |}.
Proof.
  intros Hall. unfold dropna.
  replace (filter (fun c => negb (mem c (columns df))) subset) with (@nil string);
    [reflexivity|].
  symmetry. induction subset as [|c subset IH]; [reflexivity|]. cbn.
  rewrite (Hall c) by now left. cbn. apply IH. intros c' Hc'. apply Hall.
  now right.
Qed.

(** X12. On a frame that has the five key columns, [_handle_missing_values]
    succeeds: it keeps the columns, drops rows and adds none, and leaves
    no missing value under the key columns nor under the four derived
    columns that it fills. *)
Theorem missing_values_are_handled :
  forall df,
    well_formed df ->
    (forall c, In c key_cols -> mem c (columns df) = true) ->
    exists cleaned_df,
      _handle_missing_values df = Ok cleaned_df
      /\ columns cleaned_df = columns df
      /\ well_formed cleaned_df
      /\ (List.length (data cleaned_df) <= List.length (data df))%nat
      /\ forall c,
           In c (key_cols ++ ["title_length"; "word_count"; "has_numbers";
                              "has_special_chars"]) ->
           no_null_in c cleaned_df.
Proof.
  intros df Hwf Hkeys. unfold _handle_missing_values.
  rewrite (dropna_present df key_cols Hkeys).
  set (kept := {| columns := columns df; data := filter _ (data df) |}).
  assert (Hk_wf : well_formed kept).
  { unfold well_formed, kept in *. cbn [columns data].
    rewrite Forall_forall in *. intros row Hrow.
    apply filter_In in Hrow as [Hrow _]. auto. }
  assert (Hk_null : forall c, In c key_cols -> no_null_in c kept).
  { intros c Hc i Hi. unfold kept in *. cbn [columns data] in *.
    apply Forall_forall. intros row Hrow.
    apply filter_In in Hrow as [_ Hrow].
    rewrite forallb_forall in Hrow. specialize (Hrow c Hc).
    rewrite Hi in Hrow. now apply negb_true_iff in Hrow. }
  assert (Hk_len : (List.length (data kept) <= List.length (data df))%nat).
  { unfold kept. cbn [data]. apply filter_length_le. }
  destruct (@fillna_props "title_length" (CInt 0) kept eq_refl Hk_wf)
    as (C1 & L1 & W1 & N1 & K1).
  set (d1 := fillna_if_present "title_length" (CInt 0) kept) in *.
  destruct (@fillna_props "word_count" (CInt 0) d1 eq_refl W1)
    as (C2 & L2 & W2 & N2 & K2).
  set (d2 := fillna_if_present "word_count" (CInt 0) d1) in *.
  destruct (@fillna_props "has_numbers" (CBool false) d2 eq_refl W2)
    as (C3 & L3 & W3 & N3 & K3).
  set (d3 := fillna_if_present "has_numbers" (CBool false) d2) in *.
  destruct (@fillna_props "has_special_chars" (CBool false) d3 eq_refl W3)
    as (C4 & L4 & W4 & N4 & K4).
  set (d4 := fillna_if_present "has_special_chars" (CBool false) d3) in *.
  exists d4. conj.
  - reflexivity.
  - rewrite C4, C3, C2, C1. reflexivity.
  - exact W4.
  - lia.
  - intros c Hc. apply in_app_or in Hc as [Hc|Hc].
    + apply K4, K3, K2, K1, Hk_null, Hc.
    + cbn in Hc. destruct Hc as [<-|[<-|[<-|[<-|[]]]]].
      * apply K4, K3, K2, N1.
      * apply K4, K3, N2.
      * apply K4, N3.
      * apply N4.
Qed.

Lemma missing_values_are_handled_witness :
  exists cleaned_df,
    _handle_missing_values FrameSamples.genre_frame = Ok cleaned_df
    /\ columns cleaned_df = columns FrameSamples.genre_frame
    /\ well_formed cleaned_df
    /\ (List.length (data cleaned_df)
        <= List.length (data FrameSamples.genre_frame))%nat
    /\ forall c,
         In c (key_cols ++ ["title_length"; "word_count"; "has_numbers";
                            "has_special_chars"]) ->
         no_null_in c cleaned_df.
Proof.
  apply (@missing_values_are_handled FrameSamples.genre_frame).
  - repeat constructor.
  - intros c Hc. cbn in Hc.
    destruct Hc as [<-|[<-|[<-|[<-|[<-|[]]]]]]; reflexivity.
Defined.

(** ** Duplicates *)

Lemma seen_spec ia ib seen row :
  existsb (fun k' => cell_eqb (fst k') (fst (pair_key ia ib row))
                     && cell_eqb (snd k') (snd (pair_key ia ib row))) seen
  = true
  <-> In (pair_key ia ib row) seen.
Proof.
  rewrite existsb_exists. split.
  - intros ([a b] & Hin & Heq). apply andb_true_iff in Heq as [H1 H2].
    apply cell_eqb_eq in H1, H2. cbn [fst snd] in *. subst.
    now destruct (pair_key ia ib row).
  - intros Hin. exists (pair_key ia ib row). split; [exact Hin|].
    apply andb_true_iff. split; now apply cell_eqb_eq.
Qed.

Lemma drop_step ia ib seen row rows :
  drop_duplicates_rows ia ib seen (row :: rows)
  = if existsb (fun k' => cell_eqb (fst k') (fst (pair_key ia ib row))
                          && cell_eqb (snd k') (snd (pair_key ia ib row))) seen
    then drop_duplicates_rows ia ib seen rows
    else row :: drop_duplicates_rows ia ib (pair_key ia ib row :: seen) rows.
Proof. reflexivity. Qed.

Lemma drop_in ia ib rows : forall seen row,
  In row (drop_duplicates_rows ia ib seen rows) ->
  In row rows /\ ~ In (pair_key ia ib row) seen.
Proof.
  induction rows as [|r rows IH]; intros seen row; [intros []|].
  rewrite drop_step. destruct (existsb _ seen) eqn:E.
  - intros H. apply IH in H as [H1 H2]. split; [now right | exact H2].
  - intros [<-|H].
    + split; [now left|]. intros Hin. apply seen_spec in Hin. congruence.
    + apply IH in H as [H1 H2]. split; [now right|].
      intros Hin. apply H2. now right.
Qed.

Lemma drop_NoDup ia ib rows : forall seen,
  NoDup (map (pair_key ia ib) (drop_duplicates_rows ia ib seen rows)).
Proof.
  induction rows as [|r rows IH]; intros seen; [constructor|].
  rewrite drop_step. destruct (existsb _ seen); [apply IH|].
  cbn [map]. constructor; [|apply IH].
  intros Hin. apply in_map_iff in Hin as (row & Hk & Hrow).
  apply drop_in in Hrow as [_ Hrow]. apply Hrow. rewrite Hk. now left.
Qed.

Lemma drop_covers ia ib rows : forall seen row,
  In row rows ->
  In (pair_key ia ib row) seen
  \/ In (pair_key ia ib row)
        (map (pair_key ia ib) (drop_duplicates_rows ia ib seen rows)).
Proof.
  induction rows as [|r rows IH]; intros seen row; [intros []|].
  rewrite drop_step. intros [->|Hin].
  - destruct (existsb _ seen) eqn:E.
    + left. now apply seen_spec.
    + right. now left.
  - destruct (existsb _ seen) eqn:E; [now apply IH|].
    destruct (IH (pair_key ia ib r :: seen) row Hin) as [[Heq|H]|H].
    + right. cbn [map]. left. exact Heq.
    + now left.
    + right. now right.
Qed.

Lemma drop_first ia ib pre : forall seen row post,
  ~ In (pair_key ia ib row) (map (pair_key ia ib) pre) ->
  ~ In (pair_key ia ib row) seen ->
  In row (drop_duplicates_rows ia ib seen (pre ++ row :: post)).
Proof.
  induction pre as [|p pre IH]; intros seen row post Hpre Hseen; cbn [app].
  - rewrite drop_step. destruct (existsb _ seen) eqn:E; [|now left].
    apply seen_spec in E. now elim Hseen.
  - rewrite drop_step. cbn [map In] in Hpre.
    destruct (existsb _ seen).
    + apply IH; tauto.
    + right. apply IH; [tauto|]. intros [Heq|H]; tauto.
Qed.

Lemma drop_fixed ia ib rows : forall seen,
  NoDup (map (pair_key ia ib) rows) ->
  (forall row, In row rows -> ~ In (pair_key ia ib row) seen) ->
  drop_duplicates_rows ia ib seen rows = rows.
Proof.
  induction rows as [|r rows IH]; intros seen Hnd Hseen; [reflexivity|].
  rewrite drop_step. cbn [map] in Hnd. apply NoDup_cons_iff in Hnd as [Hr Hnd].
  destruct (existsb _ seen) eqn:E.
  - apply seen_spec in E. elim (Hseen r); [now left | exact E].
  - f_equal. apply IH; [exact Hnd|].
    intros row Hrow [Heq|Hin].
    + apply Hr. rewrite Heq. now apply in_map.
    + apply (Hseen row); [now right | exact Hin].
Qed.

(** With a key column absent [_remove_duplicates] raises a [KeyError]
    that names every absent label. *)
Lemma position_none c cols : position c cols = None -> mem c cols = false.
Proof.
  intros H. destruct (mem c cols) eqn:E; [|reflexivity].
  apply position_mem in E as [i E]. congruence.
Qed.

Lemma position_some c cols i : position c cols = Some i -> mem c cols = true.
Proof. intros H. apply position_mem. eauto. Qed.

Lemma remove_duplicates_names_the_absent_columns df :
  (exists cleaned_df, _remove_duplicates df = Ok cleaned_df)
  \/ (filter (fun c => negb (mem c (columns df)))
             ["track_name"; "artist_name"] <> []
      /\ _remove_duplicates df
         = Raise (KeyError (filter (fun c => negb (mem c (columns df)))
                                   ["track_name"; "artist_name"]))).
Proof.
  unfold _remove_duplicates. cbn [filter].
  destruct (position "track_name" (columns df)) as [ia|] eqn:Ha;
    [apply position_some in Ha | apply position_none in Ha];
    (destruct (position "artist_name" (columns df)) as [ib|] eqn:Hb;
     [apply position_some in Hb | apply position_none in Hb]);
    rewrite Ha, Hb; cbn [negb].
  - left. eauto.
  - right. split; [discriminate | reflexivity].
  - right. split; [discriminate | reflexivity].
  - right. split; [discriminate | reflexivity].
Qed.

Lemma unmixed_sub i rows rows' :
  (forall row, In row rows' -> In row rows) ->
  unmixed i rows -> unmixed i rows'.
Proof.
  intros Hsub [H|H]; [left | right]; apply Forall_forall; intros row Hrow;
    exact (proj1 (Forall_forall _ _) H row (Hsub row Hrow)).
Qed.

(** X13. On a frame that has the columns 'track_name' and 'artist_name',
    neither holding integers beside booleans, [_remove_duplicates] keeps
    the columns and returns rows of the input in which no (title, artist)
    pair repeats; the first row with each pair is kept, so every pair of
    the input is still there; removing the duplicates once more changes
    nothing. *)
Theorem duplicates_are_removed :
  forall df ia ib,
    position "track_name" (columns df) = Some ia ->
    position "artist_name" (columns df) = Some ib ->
    unmixed ia (data df) ->
    unmixed ib (data df) ->
    exists cleaned_df,
      _remove_duplicates df = Ok cleaned_df
      /\ columns cleaned_df = columns df
      /\ unmixed ia (data cleaned_df) /\ unmixed ib (data cleaned_df)
      /\ NoDup (map (pair_key ia ib) (data cleaned_df))
      /\ (forall row, In row (data cleaned_df) -> In row (data df))
      /\ (forall pre row post,
            data df = pre ++ row :: post ->
            ~ In (pair_key ia ib row) (map (pair_key ia ib) pre) ->
            In row (data cleaned_df))
      /\ (forall row, In row (data df) ->
                      In (pair_key ia ib row)
                         (map (pair_key ia ib) (data cleaned_df)))
      /\ _remove_duplicates cleaned_df = Ok cleaned_df.
Proof.
  intros df ia ib Ha Hb Hua Hub. unfold _remove_duplicates. rewrite Ha, Hb.
  eexists. split; [reflexivity|]. cbn [columns data]. rewrite Ha, Hb.
  split; [reflexivity|].
  split; [apply (@unmixed_sub ia (data df)); [|exact Hua];
          intros row Hrow; now apply drop_in in Hrow|].
  split; [apply (@unmixed_sub ib (data df)); [|exact Hub];
          intros row Hrow; now apply drop_in in Hrow|].
  conj.
  - apply drop_NoDup.
  - intros row Hrow. now apply drop_in in Hrow.
  - intros pre row post -> Hpre. apply drop_first; auto.
  - intros row Hrow. destruct (drop_covers ia ib (data df) [] row Hrow)
      as [[]|H]; exact H.
  - do 2 f_equal. apply drop_fixed; [apply drop_NoDup | auto].
Qed.

Lemma duplicates_are_removed_witness :
  exists cleaned_df,
    _remove_duplicates FrameSamples.genre_frame = Ok cleaned_df
    /\ columns cleaned_df = columns FrameSamples.genre_frame
    /\ unmixed 0 (data cleaned_df) /\ unmixed 1 (data cleaned_df)
    /\ NoDup (map (pair_key 0 1) (data cleaned_df))
    /\ (forall row, In row (data cleaned_df) ->
                    In row (data FrameSamples.genre_frame))
    /\ (forall pre row post,
          data FrameSamples.genre_frame = pre ++ row :: post ->
          ~ In (pair_key 0 1 row) (map (pair_key 0 1) pre) ->
          In row (data cleaned_df))
    /\ (forall row, In row (data FrameSamples.genre_frame) ->
                    In (pair_key 0 1 row)
                       (map (pair_key 0 1) (data cleaned_df)))
    /\ _remove_duplicates cleaned_df = Ok cleaned_df.
Proof.
  apply (@duplicates_are_removed FrameSamples.genre_frame 0 1);
    try reflexivity; left; repeat constructor.
Defined.

(** ** Outliers *)

Lemma map_opt_some {A} (f : A -> option A) (l l' : list A) :
  map_opt f l = Some l' ->
  l' = map (fun x => match f x with Some y => y | None => x end) l.
Proof.
  revert l'. induction l as [|x l IH]; intros l'; cbn.
  - now intros H; injection H as <-.
  - destruct (f x) as [y|]; [|discriminate].
    destruct (map_opt f l) as [ys|]; [|discriminate].
    intros H; injection H as <-. now rewrite (IH ys eq_refl).
Qed.

Lemma map_opt_fixed {A} (f : A -> option A) (l : list A) :
  Forall (fun x => f x = Some x) l -> map_opt f l = Some l.
Proof.
  induction 1 as [|x l Hx _ IH]; cbn; [reflexivity|]. now rewrite Hx, IH.
Qed.

Lemma clip_rowwise c lo hi df df' :
  clip_if_present c lo hi df = Some df' ->
  df' = {| columns := columns df;
           data := map (clip_row c lo hi (columns df)) (data df) |}.
Proof.
  unfold clip_if_present, clip_row.
  destruct (position c (columns df)) as [i|] eqn:Hp.
  - replace (mem c (columns df)) with true
      by (symmetry; apply position_mem; eauto).
    destruct (assign_column df c (clipped lo hi) Hp) as [-> Ha].
    destruct (map_opt _ _) as [values|] eqn:E; [|discriminate].
    apply map_opt_some in E. fold (clipped lo hi) in E. subst values.
    rewrite Ha. now intros H; injection H as <-.
  - replace (mem c (columns df)) with false
      by (symmetry; apply position_absent; exact Hp).
    intros H; injection H as <-. rewrite map_id. now destruct df.
Qed.

Lemma clip_row_length c lo hi cols row :
  List.length (clip_row c lo hi cols row) = List.length row.
Proof.
  unfold clip_row. destruct (position c cols); [apply set_nth_length | auto].
Qed.

Lemma nth_clip_row c lo hi cols row c' j :
  position c' cols = Some j ->
  List.length row = List.length cols ->
  nth j (clip_row c lo hi cols row) CNaN
  = if String.eqb c c' then clipped lo hi (nth j row CNaN)
    else nth j row CNaN.
Proof.
  intros Hj Hlen. unfold clip_row.
  destruct (String.eqb_spec c c') as [->|Hne].
  - rewrite Hj, nth_set_nth, Nat.eqb_refl. cbn [andb].
    destruct (position_nth _ _ Hj) as [Hlt _].
    now replace (j <? List.length row)%nat with true
      by (symmetry; apply Nat.ltb_lt; lia).
  - destruct (position c cols) as [i|] eqn:Hi; [|reflexivity].
    rewrite nth_set_nth. destruct (Nat.eqb_spec j i) as [->|Hji]; [|reflexivity].
    elim Hne. eapply position_inj; eauto.
Qed.

Lemma nth_clip_row_other c lo hi cols row j :
  position c cols <> Some j ->
  nth j (clip_row c lo hi cols row) CNaN = nth j row CNaN.
Proof.
  intros Hj. unfold clip_row.
  destruct (position c cols) as [i|]; [|reflexivity].
  rewrite nth_set_nth. destruct (Nat.eqb_spec j i) as [->|Hji]; [|reflexivity].
  now elim Hj.
Qed.

Lemma clipped_within lo hi v :
  lo <= hi -> clip_cell lo hi v <> None -> within lo hi (clipped lo hi v).
Proof.
  intros Hlh Hv. unfold clipped, within.
  destruct v as [s|z|b|]; cbn in *; try (now elim Hv).
  - right. eexists. split; [reflexivity | lia].
  - now left.
Qed.

Lemma within_fixed lo hi v : within lo hi v -> clip_cell lo hi v = Some v.
Proof.
  intros [->|(z & -> & Hz)]; cbn; [reflexivity|]. do 2 f_equal. lia.
Qed.

Lemma clip_fixed c lo hi df :
  (forall i, position c (columns df) = Some i ->
             Forall (fun row => within lo hi (nth i row CNaN)) (data df)) ->
  clip_if_present c lo hi df = Some df.
Proof.
  intros Hin. unfold clip_if_present.
  destruct (position c (columns df)) as [i|] eqn:Hp.
  - replace (mem c (columns df)) with true
      by (symmetry; apply position_mem; eauto).
    destruct (assign_column df c (fun x => x) Hp) as [-> Ha].
    rewrite map_opt_fixed.
    + rewrite map_id in Ha. rewrite Ha. f_equal. destruct df as [cols rows].
      cbn [columns data]. f_equal. rewrite <- (map_id rows) at 2.
      apply map_ext. intros row. apply set_nth_same.
    + apply Forall_map. eapply Forall_impl; [|exact (Hin i eq_refl)].
      intros row. apply within_fixed.
  - now replace (mem c (columns df)) with false
      by (symmetry; apply position_absent; exact Hp).
Qed.

(** Clipping one column needs numbers in that column. *)
Lemma clip_numbers c lo hi df df' i :
  clip_if_present c lo hi df = Some df' ->
  position c (columns df) = Some i ->
  Forall (fun row => clip_cell lo hi (nth i row CNaN) <> None) (data df).
Proof.
  unfold clip_if_present. intros H Hp.
  replace (mem c (columns df)) with true in H
    by (symmetry; apply position_mem; eauto).
  unfold column in H. rewrite Hp in H.
  destruct (map_opt _ _) as [values|] eqn:E; [|discriminate]. clear H.
  revert values E. induction (data df) as [|row rows IH]; intros values;
    cbn; [constructor|].
  destruct (clip_cell lo hi (nth i row CNaN)) eqn:Ec; [|discriminate].
  destruct (map_opt _ _) as [vs|] eqn:E'; [|discriminate].
  intros _. constructor; [congruence | eapply IH; reflexivity].
Qed.

(** What the four clips do to the rows, given numbers where they clip. *)
Lemma clip_rows_spec cols rows :
  Forall (fun row => List.length row = List.length cols) rows ->
  (forall i, position "popularity" cols = Some i ->
     Forall (fun row => clip_cell 0 100 (nth i row CNaN) <> None) rows) ->
  (forall i, position "duration_ms" cols = Some i ->
     Forall (fun row => clip_cell 0 3600000 (nth i row CNaN) <> None)
            (map (after_popularity cols) rows)) ->
  (forall i, position "title_length" cols = Some i ->
     Forall (fun row => clip_cell 0 200 (nth i row CNaN) <> None)
            (map (after_duration cols) rows)) ->
  (forall i, position "word_count" cols = Some i ->
     Forall (fun row => clip_cell 0 50 (nth i row CNaN) <> None)
            (map (after_title_length cols) rows)) ->
  Forall2 (fun row row' =>
             (forall c lo hi i,
                 In (c, (lo, hi)) ranges ->
                 position c cols = Some i ->
                 clip_cell lo hi (nth i row CNaN) = Some (nth i row' CNaN)
                 /\ within lo hi (nth i row' CNaN))
             /\ (forall j,
                   (forall c r, In (c, r) ranges ->
                                position c cols <> Some j) ->
                   nth j row' CNaN = nth j row CNaN))
          rows (map (after_word_count cols) rows).
Proof.
  induction rows as [|row rows IH]; intros Hwf N1 N2 N3 N4; cbn [map];
    constructor.
  - apply Forall_inv in Hwf.
    assert (L1 : List.length (after_popularity cols row) = List.length cols)
      by (unfold after_popularity; now rewrite clip_row_length).
    assert (L2 : List.length (after_duration cols row) = List.length cols)
      by (unfold after_duration; now rewrite clip_row_length).
    assert (L3 : List.length (after_title_length cols row) = List.length cols)
      by (unfold after_title_length; now rewrite clip_row_length).
    split.
    + intros c lo hi i Hin Hi.
      assert (Hv : nth i (after_word_count cols row) CNaN
                   = clipped lo hi (nth i row CNaN)
                   /\ clip_cell lo hi (nth i row CNaN) <> None).
      { cbn in Hin.
        destruct Hin as [H|[H|[H|[H|[]]]]]; injection H as <- <- <-.
        - specialize (N1 i Hi). apply Forall_inv in N1. split; [|exact N1].
          unfold after_word_count. rewrite (@nth_clip_row _ _ _ _ _ _ _ Hi L3).
          unfold after_title_length. rewrite (@nth_clip_row _ _ _ _ _ _ _ Hi L2).
          unfold after_duration. rewrite (@nth_clip_row _ _ _ _ _ _ _ Hi L1).
          unfold after_popularity. rewrite (@nth_clip_row _ _ _ _ _ _ _ Hi Hwf).
          reflexivity.
        - specialize (N2 i Hi). cbn [map] in N2. apply Forall_inv in N2.
          unfold after_popularity in N2.
          rewrite (@nth_clip_row _ _ _ _ _ _ _ Hi Hwf) in N2. cbn in N2.
          split; [|exact N2].
          unfold after_word_count. rewrite (@nth_clip_row _ _ _ _ _ _ _ Hi L3).
          unfold after_title_length. rewrite (@nth_clip_row _ _ _ _ _ _ _ Hi L2).
          unfold after_duration. rewrite (@nth_clip_row _ _ _ _ _ _ _ Hi L1).
          unfold after_popularity. rewrite (@nth_clip_row _ _ _ _ _ _ _ Hi Hwf).
          reflexivity.
        - specialize (N3 i Hi). cbn [map] in N3. apply Forall_inv in N3.
          unfold after_duration in N3.
          rewrite (@nth_clip_row _ _ _ _ _ _ _ Hi L1) in N3.
          unfold after_popularity in N3.
          rewrite (@nth_clip_row _ _ _ _ _ _ _ Hi Hwf) in N3. cbn in N3.
          split; [|exact N3].
          unfold after_word_count. rewrite (@nth_clip_row _ _ _ _ _ _ _ Hi L3).
          unfold after_title_length. rewrite (@nth_clip_row _ _ _ _ _ _ _ Hi L2).
          unfold after_duration. rewrite (@nth_clip_row _ _ _ _ _ _ _ Hi L1).
          unfold after_popularity. rewrite (@nth_clip_row _ _ _ _ _ _ _ Hi Hwf).
          reflexivity.
        - specialize (N4 i Hi). cbn [map] in N4. apply Forall_inv in N4.
          unfold after_title_length in N4.
          rewrite (@nth_clip_row _ _ _ _ _ _ _ Hi L2) in N4.
          unfold after_duration in N4.
          rewrite (@nth_clip_row _ _ _ _ _ _ _ Hi L1) in N4.
          unfold after_popularity in N4.
          rewrite (@nth_clip_row _ _ _ _ _ _ _ Hi Hwf) in N4. cbn in N4.
          split; [|exact N4].
          unfold after_word_count. rewrite (@nth_clip_row _ _ _ _ _ _ _ Hi L3).
          unfold after_title_length. rewrite (@nth_clip_row _ _ _ _ _ _ _ Hi L2).
          unfold after_duration. rewrite (@nth_clip_row _ _ _ _ _ _ _ Hi L1).
          unfold after_popularity. rewrite (@nth_clip_row _ _ _ _ _ _ _ Hi Hwf).
          reflexivity. }
      destruct Hv as [-> Hn]. split.
      * unfold clipped. now destruct (clip_cell lo hi (nth i row CNaN)).
      * apply clipped_within; [|exact Hn]. cbn in Hin.
        destruct Hin as [H|[H|[H|[H|[]]]]]; injection H as <- <- <-; lia.
    + intros j Hj.
      unfold after_word_count, after_title_length, after_duration,
        after_popularity.
      rewrite !nth_clip_row_other; [reflexivity| | | |];
        eapply Hj; cbn; eauto 6.
  - apply IH.
    + now apply Forall_inv_tail in Hwf.
    + intros i Hi. exact (Forall_inv_tail (N1 i Hi)).
    + intros i Hi. exact (Forall_inv_tail (N2 i Hi)).
    + intros i Hi. exact (Forall_inv_tail (N3 i Hi)).
    + intros i Hi. exact (Forall_inv_tail (N4 i Hi)).
Qed.

(** X14. When [_handle_outliers] goes through (the four columns, where
    present, hold numbers), the frame keeps its columns and its rows; every
    cell of a clipped column is the clipped value of the cell it replaces
    and lies within the range of the column (or is missing), the cells of
    the other columns are untouched, and clipping again changes nothing.
    No row is dropped. *)
Theorem outliers_are_clipped :
  forall df df',
    well_formed df ->
    _handle_outliers df = Some df' ->
    columns df' = columns df
    /\ well_formed df'
    /\ Forall2 (fun row row' =>
                  (forall c lo hi i,
                      In (c, (lo, hi)) ranges ->
                      position c (columns df) = Some i ->
                      clip_cell lo hi (nth i row CNaN)
                        = Some (nth i row' CNaN)
                      /\ within lo hi (nth i row' CNaN))
                  /\ (forall j,
                        (forall c r, In (c, r) ranges ->
                                     position c (columns df) <> Some j) ->
                        nth j row' CNaN = nth j row CNaN))
               (data df) (data df')
    /\ _handle_outliers df' = Some df'.
Proof.
  intros df df' Hwf. unfold _handle_outliers. cbn [fold_left ranges fst snd].
  destruct (clip_if_present "popularity" 0 100 df) as [d1|] eqn:E1;
    [|discriminate].
  destruct (clip_if_present "duration_ms" 0 3600000 d1) as [d2|] eqn:E2;
    [|discriminate].
  destruct (clip_if_present "title_length" 0 200 d2) as [d3|] eqn:E3;
    [|intros H; discriminate H].
  intros E4.
  pose proof (fun i => @clip_numbers _ _ _ _ _ i E1) as N1.
  pose proof (fun i => @clip_numbers _ _ _ _ _ i E2) as N2.
  pose proof (fun i => @clip_numbers _ _ _ _ _ i E3) as N3.
  pose proof (fun i => @clip_numbers _ _ _ _ _ i E4) as N4.
  apply clip_rowwise in E1, E2, E3, E4.
  subst d1. cbn [columns data] in *. subst d2. cbn [columns data] in *.
  subst d3. cbn [columns data] in *. rewrite !map_map in *.
  fold (after_popularity (columns df)) in *.
  change (fun x => clip_row "duration_ms" 0 3600000 (columns df)
                     (after_popularity (columns df) x))
    with (after_duration (columns df)) in *.
  change (fun x => clip_row "title_length" 0 200 (columns df)
                     (after_duration (columns df) x))
    with (after_title_length (columns df)) in *.
  change (fun x => clip_row "word_count" 0 50 (columns df)
                     (after_title_length (columns df) x))
    with (after_word_count (columns df)) in *.
  pose proof (@clip_rows_spec (columns df) (data df) Hwf N1 N2 N3 N4)
    as Hrows.
  subst df'. cbn [columns data].
  assert (Hwf' : well_formed
            {| columns := columns df;
               data := map (after_word_count (columns df)) (data df) |}).
  { unfold well_formed. cbn [columns data]. apply Forall_map.
    eapply Forall_impl; [|exact Hwf]. intros row Hrow. cbn beta.
    unfold after_word_count, after_title_length, after_duration,
      after_popularity.
    now rewrite !clip_row_length. }
  conj; auto.
  assert (Hfix : forall c lo hi, In (c, (lo, hi)) ranges ->
     clip_if_present c lo hi
       {| columns := columns df;
          data := map (after_word_count (columns df)) (data df) |}
     = Some {| columns := columns df;
               data := map (after_word_count (columns df)) (data df) |}).
  { intros c lo hi Hin. apply clip_fixed. cbn [columns data]. intros i Hi.
    clear - Hrows Hin Hi.
    induction Hrows as [|row row' rows rows' [H _] _ IH];
      constructor; [|exact IH].
    now destruct (H c lo hi i Hin Hi). }
  rewrite !Hfix by (cbn; eauto 6). reflexivity.
Qed.

Lemma outliers_are_clipped_witness :
  columns FrameSamples.clipped_genre_frame = columns FrameSamples.genre_frame
  /\ well_formed FrameSamples.clipped_genre_frame
  /\ Forall2 (fun row row' =>
                (forall c lo hi i,
                    In (c, (lo, hi)) ranges ->
                    position c (columns FrameSamples.genre_frame) = Some i ->
                    clip_cell lo hi (nth i row CNaN)
                      = Some (nth i row' CNaN)
                    /\ within lo hi (nth i row' CNaN))
                /\ (forall j,
                      (forall c r, In (c, r) ranges ->
                                   position c (columns FrameSamples.genre_frame)
                                   <> Some j) ->
                      nth j row' CNaN = nth j row CNaN))
             (data FrameSamples.genre_frame)
             (data FrameSamples.clipped_genre_frame)
  /\ _handle_outliers FrameSamples.clipped_genre_frame
     = Some FrameSamples.clipped_genre_frame.
Proof.
  apply (@outliers_are_clipped FrameSamples.genre_frame
           FrameSamples.clipped_genre_frame).
  - repeat constructor.
  - vm_compute. reflexivity.
Defined.

(** ** Groups *)

Ltac bins :=
  cbn;
  repeat match goal with
         | |- context [?a <? ?b] => destruct (Z.ltb_spec a b); cbn
         | |- context [?a <=? ?b] => destruct (Z.leb_spec a b); cbn
         end;
  repeat split; intros; try lia; try discriminate; try reflexivity.

Lemma derived_bins_popularity z :
  (popularity_category z = CStr "Very High (81-100)" <-> 81 <= z <= 100)
  /\ (popularity_category z = CNaN <-> z <= 0 \/ 100 < z).
Proof. unfold popularity_category. bins. Qed.

Lemma derived_bins_title z :
  (title_length_group z = CStr "Long (60+)" <-> 61 <= z)
  /\ (title_length_group z = CNaN <-> z <= 0).
Proof. unfold title_length_group. bins. Qed.

Lemma derived_bins_words z :
  (word_count_group z = CStr "Long (5+ words)" <-> 5 <= z)
  /\ (word_count_group z = CNaN <-> z <= 0).
Proof. unfold word_count_group. bins. Qed.

(** X15. The groups that [_create_derived_features] assigns are those their
    labels name, except at the low end: a title length, a word count or a
    popularity of 0 (or below) falls in no bin and gets a missing group,
    though the first labels read "(0-20)"; a popularity above 100 gets a
    missing category too. *)
Theorem derived_groups_follow_their_bins :
  forall z : Z,
    ((title_length_group z = CStr "Very Short (0-20)" <-> 1 <= z <= 20)
     /\ (title_length_group z = CStr "Short (21-40)" <-> 21 <= z <= 40)
     /\ (title_length_group z = CStr "Medium (41-60)" <-> 41 <= z <= 60)
     /\ (title_length_group z = CStr "Long (60+)" <-> 61 <= z)
     /\ (title_length_group z = CNaN <-> z <= 0))
    /\ ((word_count_group z = CStr "Short (1-2 words)" <-> 1 <= z <= 2)
        /\ (word_count_group z = CStr "Medium (3-4 words)" <-> 3 <= z <= 4)
        /\ (word_count_group z = CStr "Long (5+ words)" <-> 5 <= z)
        /\ (word_count_group z = CNaN <-> z <= 0))
    /\ ((popularity_category z = CStr "Very Low (0-20)" <-> 1 <= z <= 20)
        /\ (popularity_category z = CStr "Low (21-40)" <-> 21 <= z <= 40)
        /\ (popularity_category z = CStr "Medium (41-60)" <-> 41 <= z <= 60)
        /\ (popularity_category z = CStr "High (61-80)" <-> 61 <= z <= 80)
        /\ (popularity_category z = CStr "Very High (81-100)"
            <-> 81 <= z <= 100)
        /\ (popularity_category z = CNaN <-> z <= 0 \/ 100 < z)).
Proof.
  intros z. unfold title_length_group, word_count_group, popularity_category.
  bins.
Qed.

(** X16. [TitleFeatureAnalyzer._test_word_count_groups] regroups the word
    counts with other bins: "Single" is one word, "Short" two or three,
    "Medium" four or five and "Long" six or more; a word count of 0 or
    below gets a missing group. *)
Theorem analyzer_word_count_bins :
  forall z : Z,
    (analyzer_word_count_group z = CStr "Single" <-> z = 1)
    /\ (analyzer_word_count_group z = CStr "Short" <-> 2 <= z <= 3)
    /\ (analyzer_word_count_group z = CStr "Medium" <-> 4 <= z <= 5)
    /\ (analyzer_word_count_group z = CStr "Long" <-> 6 <= z)
    /\ (analyzer_word_count_group z = CNaN <-> z <= 0).
Proof. intros z. unfold analyzer_word_count_group. bins. Qed.

(** X17. Clipping and grouping together: after the clip to its range, a value
    has a missing group exactly when it was 0 or below; a value above the
    range is clipped to the upper end and lands in the last group. *)
Theorem clipped_values_and_their_groups :
  forall z : Z,
    (exists v, clip_cell 0 100 (CInt z) = Some (CInt v)
               /\ (popularity_category v = CNaN <-> z <= 0)
               /\ (100 < z ->
                   popularity_category v = CStr "Very High (81-100)"))
    /\ (exists v, clip_cell 0 200 (CInt z) = Some (CInt v)
                  /\ (title_length_group v = CNaN <-> z <= 0)
                  /\ (200 < z -> title_length_group v = CStr "Long (60+)"))
    /\ (exists v, clip_cell 0 50 (CInt z) = Some (CInt v)
                  /\ (word_count_group v = CNaN <-> z <= 0)
                  /\ (50 < z ->
                      word_count_group v = CStr "Long (5+ words)")).
Proof.
  intros z. unfold clip_cell. conj; eexists; (split; [reflexivity|]).
  - destruct (derived_bins_popularity (Z.min (Z.max z 0) 100)) as (H5 & H6).
    split; [rewrite H6; lia | intros Hz; apply H5; lia].
  - destruct (derived_bins_title (Z.min (Z.max z 0) 200)) as (H4 & H5).
    split; [rewrite H5; lia | intros Hz; apply H4; lia].
  - destruct (derived_bins_words (Z.min (Z.max z 0) 50)) as (H3 & H4).
    split; [rewrite H4; lia | intros Hz; apply H3; lia].
Qed.

(** ** The basic cleaning of [run_step_4] *)

Lemma row_eqb_eq : forall r1 r2, row_eqb r1 r2 = true <-> r1 = r2.
Proof.
  induction r1 as [|u r1 IH]; intros [|v r2]; cbn;
    try (split; [discriminate | intros H; discriminate H]);
    [split; reflexivity|].
  rewrite andb_true_iff, cell_eqb_eq, IH.
  split; [intros [-> ->]; reflexivity | intros H; injection H as -> ->; auto].
Qed.

Lemma seen_row_spec seen row :
  existsb (row_eqb row) seen = true <-> In row seen.
Proof.
  rewrite existsb_exists. split.
  - intros (r & Hin & Heq). apply row_eqb_eq in Heq. now subst.
  - intros Hin. exists row. split; [exact Hin | now apply row_eqb_eq].
Qed.

Lemma drop_all_in rows : forall seen row,
  In row (drop_duplicates_all seen rows) -> In row rows /\ ~ In row seen.
Proof.
  induction rows as [|r rows IH]; intros seen row; cbn; [tauto|].
  destruct (existsb (row_eqb r) seen) eqn:E.
  - intros H. apply IH in H as [H1 H2]. auto.
  - intros [<- | H].
    + split; [now left|]. intros Hin. apply seen_row_spec in Hin. congruence.
    + apply IH in H as [H1 H2]. split; [now right|].
      intros Hin. apply H2. now right.
Qed.

Lemma drop_all_NoDup rows : forall seen,
  NoDup (drop_duplicates_all seen rows).
Proof.
  induction rows as [|r rows IH]; intros seen; cbn; [constructor|].
  destruct (existsb (row_eqb r) seen); [apply IH|].
  constructor; [|apply IH].
  intros Hin. apply drop_all_in in Hin as [_ Hn]. apply Hn. now left.
Qed.

Lemma drop_all_covers rows : forall seen row,
  In row rows -> In row seen \/ In row (drop_duplicates_all seen rows).
Proof.
  induction rows as [|r rows IH]; intros seen row; cbn; [tauto|].
  intros [<- | Hin].
  - destruct (existsb (row_eqb r) seen) eqn:E;
      [left; now apply seen_row_spec | right; now left].
  - destruct (existsb (row_eqb r) seen) eqn:E.
    + apply IH; auto.
    + destruct (IH (r :: seen) row Hin) as [[<- | H] | H];
        [right; now left | now left | right; now right].
Qed.

Lemma drop_all_fixed rows : forall seen,
  NoDup rows -> (forall row, In row rows -> ~ In row seen) ->
  drop_duplicates_all seen rows = rows.
Proof.
  induction rows as [|r rows IH]; intros seen Hnd Hs; cbn; [reflexivity|].
  inversion Hnd as [|? ? Hr Hnd']; subst.
  destruct (existsb (row_eqb r) seen) eqn:E.
  - apply seen_row_spec in E. exfalso. apply (Hs r); [now left | exact E].
  - f_equal. apply IH; [exact Hnd'|].
    intros row Hin [<- | H]; [contradiction|].
    apply (Hs row); [now right | exact H].
Qed.

Lemma filter_fixed {A} (f : A -> bool) (l : list A) :
  (forall x, In x l -> f x = true) -> filter f l = l.
Proof.
  induction l as [|x l IH]; intros H; cbn; [reflexivity|].
  rewrite (H x) by now left. f_equal. apply IH. intros y Hy. apply H.
  now right.
Qed.

(** The shape of [basic_clean]: the rows kept are those of the frame
    without its repeated rows that lack no critical value. *)
Lemma basic_clean_shape cols :
  exists keep : list cell -> bool,
    (forall row, keep row = true <->
       forall c i, In c critical_columns -> position c cols = Some i ->
                   isnull (nth i row CNaN) = false)
    /\ forall rows,
         basic_clean {| columns := cols; data := rows |}
         = Ok {| columns := cols;
                 data := filter keep (drop_duplicates_all [] rows) |}.
Proof.
  exists (fun row =>
            forallb (fun c =>
                       match position c cols with
                       | Some i => negb (isnull (nth i row CNaN))
                       | None => true
                       end)
                    (filter (fun col => mem col cols) critical_columns)).
  split.
  - intros row. rewrite forallb_forall. split.
    + intros H c i Hc Hpos.
      assert (Hm : mem c cols = true) by (apply position_mem; eauto).
      specialize (H c). rewrite Hpos in H. apply negb_true_iff, H.
      apply filter_In. auto.
    + intros H c Hc. apply filter_In in Hc as [Hc _].
      destruct (position c cols) as [i|] eqn:Hpos; [|reflexivity].
      apply negb_true_iff. eauto.
  - intros rows. unfold basic_clean. cbv zeta. cbn [columns data].
    rewrite dropna_present; [reflexivity|].
    cbn [columns]. intros c Hc. apply filter_In in Hc. tauto.
Qed.

(** X18. The basic cleaning of [run_step_4] succeeds on every frame, whatever
    its columns. It keeps the columns; the rows left are rows of the
    frame, no two of them equal, with no missing value under those of
    'track_name', 'artist_name' and 'popularity' that the frame has; every
    row of the frame without such a missing value is still there; and
    cleaning the result again changes nothing. *)
Theorem basic_cleaning_never_fails :
  forall df,
    exists df',
      basic_clean df = Ok df'
      /\ columns df' = columns df
      /\ NoDup (data df')
      /\ (forall row, In row (data df') -> In row (data df))
      /\ (forall c, In c critical_columns -> no_null_in c df')
      /\ (forall row, In row (data df) ->
            (forall c i, In c critical_columns ->
                         position c (columns df) = Some i ->
                         isnull (nth i row CNaN) = false) ->
            In row (data df'))
      /\ basic_clean df' = Ok df'.
Proof.
  intros [cols rows].
  destruct (basic_clean_shape cols) as (keep & Hkeep & Hshape).
  rewrite Hshape. eexists. split; [reflexivity|]. cbn [columns data].
  conj.
  - reflexivity.
  - apply NoDup_filter, drop_all_NoDup.
  - intros row Hin. apply filter_In in Hin as [Hin _].
    apply drop_all_in in Hin. tauto.
  - intros c Hc i Hpos. cbn [columns data] in *. apply Forall_forall.
    intros row Hin. apply filter_In in Hin as [_ Hk].
    exact (proj1 (Hkeep row) Hk c i Hc Hpos).
  - intros row Hin Hall. apply filter_In. split.
    + destruct (@drop_all_covers rows [] row Hin) as [[]|H]; exact H.
    + apply Hkeep. exact Hall.
  - rewrite Hshape. do 2 f_equal. rewrite drop_all_fixed.
    + apply filter_fixed. intros x Hx. apply filter_In in Hx. tauto.
    + apply NoDup_filter, drop_all_NoDup.
    + intros ? ? [].
Qed.

End CleanerMoreFacts.

(* ================================================================== *)
(** * Further theorems: bias correction *)
(* ================================================================== *)

Module PostEDAFacts.

Import Pandas PostEDA.

Lemma setitem_length {V} k (v : V) d :
  (List.length (setitem k v d) <= S (List.length d))%nat.
Proof.
  induction d as [|[k' v'] d IH]; cbn; [lia|].
  destruct (String.eqb k' k); cbn; lia.
Qed.

Lemma setitem_in {V} k (v : V) d kv :
  In kv (setitem k v d) -> In kv d \/ kv = (k, v).
Proof.
  induction d as [|[k' v'] d IH]; cbn.
  - intros [<- | []]. now right.
  - destruct (String.eqb k' k); cbn.
    + intros [<- | H]; auto.
    + intros [<- | H]; [auto|]. apply IH in H as [H | H]; auto.
Qed.

Lemma report_spec action self :
  df (report action self) = df self
  /\ cleaned_df (report action self) = cleaned_df self
  /\ (List.length (cleaning_report (report action self))
      <= S (List.length (cleaning_report self)))%nat
  /\ (forall a d, In (a, d) (cleaning_report (report action self)) ->
                  In (a, d) (cleaning_report self) \/ d = placeholder).
Proof.
  unfold report. cbn. conj; try reflexivity.
  - apply setitem_length.
  - intros a d H. apply setitem_in in H as [H | H]; [now left|].
    right. congruence.
Qed.

(** X19. Bias correction changes no data: for every strategy [apply_bias_correction]
    returns the frame the cleaner was built with, which is also what an
    export afterwards writes; of the object only the report changes, by at
    most one entry, a placeholder; and "auto" is "artist_limit". *)
Theorem bias_correction_changes_no_data :
  forall self strategy,
    fst (apply_bias_correction self strategy) = Some (df self)
    /\ df (snd (apply_bias_correction self strategy)) = df self
    /\ export_cleaned_data (snd (apply_bias_correction self strategy))
       = Some (df self)
    /\ (List.length
          (cleaning_report (snd (apply_bias_correction self strategy)))
        <= S (List.length (cleaning_report self)))%nat
    /\ (forall action d,
          In (action, d)
             (cleaning_report (snd (apply_bias_correction self strategy))) ->
          In (action, d) (cleaning_report self) \/ d = placeholder)
    /\ apply_bias_correction self "auto"
       = apply_bias_correction self "artist_limit".
Proof.
  intros self strategy. unfold apply_bias_correction, export_cleaned_data.
  cbv zeta.
  set (self0 := {| df := df self; cleaned_df := Some (df self);
                   cleaning_report := cleaning_report self |}).
  set (chosen := if String.eqb strategy "auto"
                 then _determine_optimal_strategy self0 else strategy).
  split; [|split; [|split; [|split; [|split; [|reflexivity]]]]];
    unfold _apply_artist_limiting, _apply_stratified_sampling,
           _remove_artist_outliers;
    destruct (String.eqb chosen "artist_limit");
    [| destruct (String.eqb chosen "stratified");
       [| destruct (String.eqb chosen "remove_outliers")] | .. ];
    cbn [fst snd];
    try (destruct (String.eqb chosen "stratified");
         [| destruct (String.eqb chosen "remove_outliers")]; cbn [fst snd]);
    try match goal with
        | |- context [report ?a self0] =>
            destruct (report_spec a self0) as (H1 & H2 & H3 & H4);
            first [ rewrite H2; reflexivity | rewrite H1; reflexivity
                  | exact H3 | exact H4 ]
        end;
    try reflexivity; try (cbn; lia); try (cbn; intros; now left).
Qed.

End PostEDAFacts.

(* ================================================================== *)
(** * Further theorems: the tests and their summary *)
(* ================================================================== *)

Module AnalyzerFacts.

Import Stats Analyzer.

Lemma SFltb_asym (a b : spec_float) : SFltb a b = true -> SFltb b a = false.
Proof.
  unfold SFltb, SFcompare.
  destruct a as [sa|sa| |sa ma ea], b as [sb|sb| |sb mb eb];
    try destruct sa; try destruct sb;
    try discriminate; try reflexivity;
    change (Pos.compare_cont Eq) with Pos.compare;
    destruct (Z.compare_spec ea eb), (Z.compare_spec eb ea);
    try discriminate; try reflexivity; try lia; subst;
    destruct (Pos.compare_spec ma mb), (Pos.compare_spec mb ma);
    cbn; try discriminate; try reflexivity; try lia.
Qed.

Lemma lt_not_gt (p x : float) : lt p x = true -> gt p x = false.
Proof. unfold lt, gt. rewrite !ltb_spec. apply SFltb_asym. Qed.

Lemma run_all_tests_fresh s :
  run_all_tests [] s
  = [ {| test_name := "Title Length Correlation";
         hypothesis := "Title length is correlated with popularity";
         test_statistic := fst (pearsonr s);
         p_value := snd (pearsonr s);
         effect_size := abs (fst (pearsonr s));
         conclusion :=
           _interpret_correlation (fst (pearsonr s)) (snd (pearsonr s)) |};
      {| test_name := "Word Count ANOVA";
         hypothesis :=
           "Word count groups have different popularity distributions";
         test_statistic := fst (f_oneway s);
         p_value := snd (f_oneway s);
         effect_size := eta_squared s;
         conclusion := _interpret_anova (snd (f_oneway s)) (eta_squared s) |};
      {| test_name := "Special Characters t-test";
         hypothesis :=
           "Titles with special characters have different popularity";
         test_statistic := fst (ttest_ind s);
         p_value := snd (ttest_ind s);
         effect_size := abs (cohens_d s);
         conclusion := _interpret_ttest (snd (ttest_ind s)) (cohens_d s) |} ].
Proof.
  unfold run_all_tests, _test_special_characters, _test_word_count_groups,
    _test_title_length_correlation.
  destruct (pearsonr s), (f_oneway s), (ttest_ind s). reflexivity.
Qed.

Lemma run_all_tests_app results s :
  run_all_tests results s = results ++ run_all_tests [] s.
Proof.
  unfold run_all_tests, _test_special_characters, _test_word_count_groups,
    _test_title_length_correlation.
  destruct (pearsonr s), (f_oneway s), (ttest_ind s).
  cbn [app]. now rewrite <- !app_assoc.
Qed.

Lemma band_iff_not_above (r : TestResult) s :
  In r (run_all_tests [] s) ->
  (band_of (conclusion r) = None <-> gt (p_value r) 0.05 = true).
Proof.
  rewrite run_all_tests_fresh. cbn [In].
  intros [<- | [<- | [<- | []]]]; cbn [conclusion p_value];
    unfold _interpret_correlation, _interpret_anova, _interpret_ttest;
    destruct (gt _ 0.05); cbn [band_of];
    (split; [intros H; first [reflexivity | discriminate H]
            | intros H; first [reflexivity | discriminate H]]).
Qed.

(** X20. Each run of the tests adds three results to those of the analyzer,
    so a second run is counted on top of the first. Of the three results
    of a run, a conclusion reports nothing found exactly when its p-value
    is above 0.05, and a result that the summary counts as significant
    (p-value below 0.05) always has a conclusion that reports an
    effect. *)
Theorem summary_counts_and_conclusions :
  forall results s,
    total_tests (get_summary (run_all_tests results s))
    = (total_tests (get_summary results) + 3)%nat
    /\ (significant_tests (get_summary results)
        <= significant_tests (get_summary (run_all_tests results s))
        <= significant_tests (get_summary results) + 3)%nat
    /\ (forall r, In r (run_all_tests [] s) ->
          (band_of (conclusion r) = None <-> gt (p_value r) 0.05 = true)
          /\ (lt (p_value r) 0.05 = true -> band_of (conclusion r) <> None)).
Proof.
  intros results s. conj.
  - rewrite run_all_tests_app. unfold get_summary. cbn [total_tests].
    rewrite length_app, run_all_tests_fresh. reflexivity.
  - rewrite run_all_tests_app. unfold get_summary.
    cbn [significant_tests]. rewrite filter_app, length_app. lia.
  - rewrite run_all_tests_app. unfold get_summary.
    cbn [significant_tests]. rewrite filter_app, length_app.
    pose proof (filter_length_le (fun r => lt (p_value r) 0.05)
                                 (run_all_tests [] s)) as H.
    rewrite run_all_tests_fresh in H at 2. cbn [List.length] in H. lia.
  - intros r Hin. split; [now apply band_iff_not_above with (s := s)|].
    intros Hlt Hnone. apply (band_iff_not_above r s Hin) in Hnone.
    apply lt_not_gt in Hlt. congruence.
Qed.

Lemma summary_counts_and_conclusions_witness :
  total_tests
    (get_summary
       (run_all_tests (run_all_tests [] ResultSamples.clear_cut)
          ResultSamples.clear_cut)) = 6%nat
  /\ forall r, In r (run_all_tests [] ResultSamples.clear_cut) ->
               band_of (conclusion r) <> None.
Proof.
  split.
  - apply (proj1 (summary_counts_and_conclusions
                    (run_all_tests [] ResultSamples.clear_cut)
                    ResultSamples.clear_cut)).
  - intros r Hin.
    apply (proj2 (proj2 (proj2 (summary_counts_and_conclusions
                                  [] ResultSamples.clear_cut)) r Hin)).
    cbn in Hin. destruct Hin as [<- | [<- | [<- | []]]]; reflexivity.
Defined.

(** X21. The summary and the conclusions use different comparisons: when the
    p-values of a run are neither below nor above 0.05 (exactly 0.05, or
    not a number), every conclusion reports an effect and the summary
    counts no significant test. *)
Theorem threshold_results_are_found_but_not_counted :
  forall s,
    (forall r, In r (run_all_tests [] s) ->
               lt (p_value r) 0.05 = false /\ gt (p_value r) 0.05 = false) ->
    significant_tests (get_summary (run_all_tests [] s)) = 0%nat
    /\ total_tests (get_summary (run_all_tests [] s)) = 3%nat
    /\ (forall r, In r (run_all_tests [] s) ->
                  band_of (conclusion r) <> None).
Proof.
  intros s H. conj.
  - unfold get_summary. cbn [significant_tests].
    replace (filter (fun r => lt (p_value r) 0.05) (run_all_tests [] s))
      with (@nil TestResult); [reflexivity|].
    symmetry. induction (run_all_tests [] s) as [|r l IH]; [reflexivity|].
    cbn [filter]. rewrite (proj1 (H r (or_introl eq_refl))).
    apply IH. intros r' Hr'. apply H. now right.
  - rewrite run_all_tests_fresh. reflexivity.
  - intros r Hin Hnone. apply (band_iff_not_above r s Hin) in Hnone.
    rewrite (proj2 (H r Hin)) in Hnone. discriminate.
Qed.

Lemma threshold_results_are_found_but_not_counted_witness :
  significant_tests
    (get_summary (run_all_tests [] ResultSamples.at_threshold)) = 0%nat
  /\ total_tests
       (get_summary (run_all_tests [] ResultSamples.at_threshold)) = 3%nat
  /\ (forall r, In r (run_all_tests [] ResultSamples.at_threshold) ->
                band_of (conclusion r) <> None).
Proof.
  apply (threshold_results_are_found_but_not_counted
           ResultSamples.at_threshold).
  intros r Hin. cbn in Hin.
  destruct Hin as [<- | [<- | [<- | []]]]; split; reflexivity.
Defined.

End AnalyzerFacts.

(* ================================================================== *)
(** * Further theorems: the interpreter *)
(* ================================================================== *)

Module InterpreterFacts.

Import Py Interpreter.

Lemma significant_level b :
  String.eqb (significance_level b) "significant" = b.
Proof. now destruct b. Qed.

Lemma group_significant e name :
  is_significant_interp (_interpret_group_comparison e name)
  = p_significant e.
Proof. apply significant_level. Qed.

Lemma anova_significant e name :
  is_significant_interp (_interpret_anova e name) = p_significant e.
Proof. apply significant_level. Qed.

Lemma correlation_significant e v1 v2 i :
  _interpret_correlation e v1 v2 = Ok i ->
  is_significant_interp i = p_significant e
  /\ get e "correlation" <> None /\ get e "p_value" <> None.
Proof.
  unfold _interpret_correlation, p_significant, is_significant_interp.
  destruct (get e "correlation") as [corr|]; [|discriminate].
  destruct (get e "p_value") as [p|]; [|discriminate].
  intros H; injection H as <-. cbn. conj; try discriminate.
  match goal with |- context [if ?b then _ else _] => destruct b end;
    reflexivity.
Qed.

(** X23. On a dict, the interpreter raises only for the entry of the
    correlation, whose two numbers it reads with [d[k]]: without
    'correlation' it raises [KeyError('correlation')], with it but without
    'p_value' it raises [KeyError('p_value')]; in every other case it
    returns, the entries of the other two tests being read with
    defaults. *)
Theorem interpretation_raises_only_for_the_correlation :
  forall d : list (string * entry),
    (forall e : entry, get d "title_length_correlation" = Some e ->
       (get e "correlation" = None ->
          interpret_all_results (AsDict d) = Raise (KeyError ["correlation"]))
       /\ (get e "correlation" <> None -> get e "p_value" = None ->
             interpret_all_results (AsDict d) = Raise (KeyError ["p_value"]))
       /\ (get e "correlation" <> None -> get e "p_value" <> None ->
             exists out, interpret_all_results (AsDict d) = Ok out))
    /\ (get d "title_length_correlation" = None ->
          exists out, interpret_all_results (AsDict d) = Ok out).
Proof.
  intros d. unfold interpret_all_results, contains, getitem. split.
  - intros e He. rewrite He. unfold _interpret_correlation. conj.
    + intros ->. reflexivity.
    + intros Hc ->. destruct (get e "correlation"); [reflexivity | tauto].
    + intros Hc Hp.
      destruct (get e "correlation"); [|tauto].
      destruct (get e "p_value"); [|tauto].
      destruct (get d "word_count_groups"), (get d "title_features_anova");
        eexists; reflexivity.
  - intros ->.
    destruct (get d "word_count_groups"), (get d "title_features_anova");
      eexists; reflexivity.
Qed.

Lemma interpretation_raises_only_for_the_correlation_witness :
  interpret_all_results (AsDict ResultSamples.without_p_value)
  = Raise (KeyError ["p_value"]).
Proof.
  refine (proj1 (proj2 (proj1
            (interpretation_raises_only_for_the_correlation
               ResultSamples.without_p_value) _ eq_refl)) _ _).
  - cbn. discriminate.
  - reflexivity.
Defined.

(** X24. When the interpreter returns on a dict, it has one interpretation per
    key that the dict has, in the order title length, word count, title
    features; and each says "significant" exactly when its entry has a
    p-value below 0.05, so that an entry without a p-value is "not
    significant". *)
Theorem interpretations_mirror_the_entries :
  forall (d : list (string * entry)) interpretations insights,
    interpret_all_results (AsDict d) = Ok (interpretations, insights) ->
    map fst interpretations
    = map snd
        (filter (fun kn => contains (AsDict d) (fst kn))
           [ ("title_length_correlation", "title_length");
             ("word_count_groups", "word_count");
             ("title_features_anova", "title_features") ])
    /\ (forall k name (e : entry),
          In (k, name) [ ("title_length_correlation", "title_length");
                         ("word_count_groups", "word_count");
                         ("title_features_anova", "title_features") ] ->
          get d k = Some e ->
          exists i, get interpretations name = Some i
                    /\ (significance i = "significant"
                        <-> exists p, get e "p_value" = Some p
                                      /\ Stats.lt p 0.05 = true))
    /\ insights = _generate_business_insights interpretations.
Proof.
  intros d interpretations insights.
  assert (Hsig : forall i e, is_significant_interp i = p_significant e ->
            (significance i = "significant"
             <-> exists p, get e "p_value" = Some p
                           /\ Stats.lt p 0.05 = true)).
  { intros i e. unfold is_significant_interp, p_significant.
    rewrite <- String.eqb_eq. intros ->.
    destruct (get e "p_value") as [p|].
    - split; [eauto | intros (p' & Hp & H); congruence].
    - split; [discriminate | intros (p' & Hp & H); discriminate]. }
  unfold interpret_all_results, contains, getitem.
  destruct (get d "title_length_correlation") as [e1|] eqn:H1;
    [destruct (_interpret_correlation e1 "title length" "popularity")
       as [i1|] eqn:Hi1; [apply correlation_significant in Hi1 as [Hi1 _]
                         | discriminate] |];
    destruct (get d "word_count_groups") as [e2|] eqn:H2;
    destruct (get d "title_features_anova") as [e3|] eqn:H3;
    intros H; injection H as <- <-; cbn [PostEDA.setitem String.eqb
      Ascii.eqb Bool.eqb filter fst snd map];
    rewrite ?H1, ?H2, ?H3; cbn [map fst snd];
    (conj; [reflexivity | | reflexivity]);
    intros k name e [Hk | [Hk | [Hk | []]]] Hget;
    injection Hk as <- <-;
    rewrite ?H1, ?H2, ?H3 in Hget; try discriminate;
    injection Hget as <-; cbn [get String.eqb Ascii.eqb Bool.eqb];
    eexists; (split; [reflexivity|]); apply Hsig;
    first [ exact Hi1 | apply group_significant | apply anova_significant ].
Qed.

Lemma interpretations_mirror_the_entries_witness :
  map fst
    (PostEDA.setitem "title_features"
       (_interpret_anova [("f_statistic", 2%float)] "title features")
       (PostEDA.setitem "word_count"
          (_interpret_group_comparison [("p_value", 0.01%float)]
             "word count groups") []))
  = ["word_count"; "title_features"].
Proof.
  refine (proj1 (@interpretations_mirror_the_entries
            [ ("word_count_groups", [("p_value", 0.01%float)]);
              ("title_features_anova", [("f_statistic", 2%float)]) ]
            _ _ eq_refl)).
Defined.

Lemma filter_length_both {A} (f : A -> bool) (l : list A) :
  List.length (filter f l) = List.length l -> filter f l = l.
Proof.
  induction l as [|x l IH]; cbn; [reflexivity|].
  destruct (f x); cbn.
  - intros H. f_equal. apply IH. lia.
  - intros H. pose proof (filter_length_le f l). lia.
Qed.

(** X25. The business insights open with one line and add one line per
    significant interpretation, in their order: the opening line says that
    nothing is significant when no interpretation is (also when there is
    none at all), that all are when all of at least one are, and gives
    the count out of the total otherwise. *)
Theorem insights_follow_the_significant_tests :
  forall interpretations,
    let significant :=
      filter (fun ni => is_significant_interp (snd ni)) interpretations in
    let k := List.length significant in
    let n := List.length interpretations in
    exists opening,
      _generate_business_insights interpretations
      = opening :: map (fun ni => ForTest (fst ni)
                                    (business_implication (snd ni)))
                     significant
      /\ (opening = NoneSignificant <-> k = 0%nat)
      /\ (opening = AllSignificant
          <-> k <> 0%nat /\ significant = interpretations)
      /\ (forall a b, opening = SomeSignificant a b
                      <-> a = k /\ b = n /\ (0 < k < n)%nat)
      /\ List.length (_generate_business_insights interpretations) = S k.
Proof.
  intros interpretations significant k n.
  unfold _generate_business_insights. fold significant. fold k. fold n.
  pose proof (filter_length_le
                (fun ni => is_significant_interp (snd ni)) interpretations)
    as Hle. fold significant in Hle. fold k in Hle. fold n in Hle.
  assert (Hlen : forall opening : insight,
            List.length
              (opening :: map (fun ni => ForTest (fst ni)
                                           (business_implication (snd ni)))
                            significant) = S k)
    by (intros opening; cbn [List.length]; now rewrite length_map).
  destruct (Nat.eqb_spec k 0) as [H0|H0];
    [| destruct (Nat.eqb_spec k n) as [Hn|Hn]];
    eexists; (split; [reflexivity|]); conj; try apply Hlen.
  - split; auto.
  - split; [discriminate | intros [H _]; contradiction].
  - intros a b. split; [discriminate | lia].
  - split; [discriminate | contradiction].
  - split; [|reflexivity]. intros _. split; [exact H0|].
    apply filter_length_both. exact Hn.
  - intros a b. split; [discriminate | lia].
  - split; [discriminate | contradiction].
  - split; [discriminate|]. intros [_ H]. exfalso. apply Hn.
    unfold k, n. now rewrite H.
  - intros a b. split.
    + intros H. injection H as <- <-. lia.
    + intros (-> & -> & _). reflexivity.
Qed.

End InterpreterFacts.

(* ================================================================== *)
(** * Further theorems: the statistical assumptions *)
(* ================================================================== *)

Module AssumptionsFacts.

Import Py Pandas Assumptions.

Lemma column_length df c values :
  column df c = Ok values -> llen values = llen (data df).
Proof.
  unfold column. destruct (position c (columns df)); [|discriminate].
  intros H; injection H as <-. unfold llen. now rewrite length_map.
Qed.

(** X26. The normality tests of [_check_statistical_assumptions] need 5000
    rows: on a smaller frame the Shapiro-Wilk branch asks for a sample of
    5000 values and raises, a [ValueError] when the frame has the column
    'title_length' and the [KeyError] of that column when not; when the
    step returns, the frame has at least 5000 rows and the test used is
    D'Agostino-Pearson. *)
Theorem normality_tests_need_5000_rows :
  forall shapiro normaltest draw df,
    (llen (data df) < 5000 ->
       (mem "title_length" (columns df) = true ->
          normality_tests shapiro normaltest draw df = Raise ValueError)
       /\ (mem "title_length" (columns df) = false ->
             normality_tests shapiro normaltest draw df
             = Raise (KeyError ["title_length"])))
    /\ (forall out,
          normality_tests shapiro normaltest draw df = Ok out ->
          5000 <= llen (data df) /\ test_used out = "D'Agostino-Pearson").
Proof.
  intros shapiro normaltest draw df. unfold normality_tests. split.
  - intros Hlen. rewrite (proj2 (Z.ltb_lt _ _) Hlen).
    destruct (column df "title_length") as [values|e] eqn:Hc.
    + split; intros Hm.
      * unfold sample. rewrite (column_length _ _ Hc).
        now rewrite (proj2 (Z.ltb_lt _ _) Hlen).
      * exfalso. revert Hc. unfold column.
        destruct (position "title_length" (columns df)) as [i|] eqn:Hp;
          [|discriminate].
        assert (mem "title_length" (columns df) = true)
          by (apply CleanerMoreFacts.position_mem; eauto).
        congruence.
    + split; intros Hm.
      * exfalso. apply CleanerMoreFacts.position_mem in Hm as [i Hp].
        revert Hc. unfold column. now rewrite Hp.
      * revert Hc. unfold column.
        destruct (position "title_length" (columns df)); [discriminate|].
        intros H; injection H as <-. reflexivity.
  - intros out. destruct (Z.ltb_spec (llen (data df)) 5000) as [Hlen|Hlen].
    + destruct (column df "title_length") as [values|e] eqn:Hc;
        [|discriminate].
      unfold sample at 1. rewrite (column_length _ _ Hc).
      rewrite (proj2 (Z.ltb_lt _ _) Hlen). discriminate.
    + destruct (column df "title_length"); [|discriminate].
      destruct (column df "word_count"); [|discriminate].
      destruct (column df "popularity"); [|discriminate].
      intros H; injection H as <-. split; [exact Hlen | reflexivity].
Qed.

Lemma normality_tests_need_5000_rows_witness :
  normality_tests (fun _ => (0, 1)%float) (fun _ => (0, 1)%float)
    (fun _ values => values) FrameSamples.genre_frame
  = Raise ValueError.
Proof.
  apply (proj1 (@normality_tests_need_5000_rows
                  (fun _ => (0, 1)%float) (fun _ => (0, 1)%float)
                  (fun _ values => values) FrameSamples.genre_frame));
    reflexivity.
Defined.

End AssumptionsFacts.

(* ================================================================== *)
(** * Further theorems: hypothesis testing from the menu *)
(* ================================================================== *)

Module Step7Facts.

Import Py Pandas Step7.

(** On a list none of the three keys is found. *)
Lemma interpret_list (l : list Analyzer.TestResult) :
  Interpreter.interpret_all_results (Interpreter.AsList l)
  = Ok ([], [Interpreter.NoneSignificant]).
Proof. reflexivity. Qed.

Lemma select_nil {A} (choice : string) : Menu.select (@nil A) choice = None.
Proof.
  unfold Menu.select. destruct (int choice) as [n|]; [|reflexivity].
  destruct (MenuFacts.index_in_range (@nil A) (n - 1)) as (_ & _ & H).
  apply H. unfold llen. cbn. lia.
Qed.

(** The first normality test decides for a small frame. *)
Lemma normality_test_small shapiro draw df col :
  llen (data df) < 5000 ->
  (mem col (columns df) = true ->
     normality_test shapiro draw df col = Raised ValueOrIndexError)
  /\ (mem col (columns df) = false ->
        normality_test shapiro draw df col = Raised AnyOther).
Proof.
  intros Hlen. unfold normality_test.
  destruct (column df col) as [values|e] eqn:Hc.
  - pose proof (AssumptionsFacts.column_length _ _ Hc) as Hl.
    split; intros Hm.
    + unfold Assumptions.sample. rewrite Hl.
      now rewrite (proj2 (Z.ltb_lt _ _) Hlen).
    + exfalso. revert Hc. unfold column.
      destruct (position col (columns df)) as [i|] eqn:Hp; [|discriminate].
      assert (mem col (columns df) = true)
        by (apply CleanerMoreFacts.position_mem; eauto).
      congruence.
  - revert Hc. unfold column.
    destruct (position col (columns df)) as [i|] eqn:Hp; [discriminate|].
    intros H; injection H as <-. split; intros Hm; [|reflexivity].
    apply CleanerMoreFacts.position_mem in Hm as [i Hi]. congruence.
Qed.

Lemma normality_test_returned shapiro draw df col u :
  normality_test shapiro draw df col = Returned u ->
  5000 <= llen (data df).
Proof.
  intros H. destruct (Z.ltb_spec (llen (data df)) 5000) as [Hlen|Hlen];
    [|exact Hlen].
  destruct (@normality_test_small shapiro draw df col Hlen) as [H1 H2].
  destruct (mem col (columns df));
    [rewrite (H1 eq_refl) in H | rewrite (H2 eq_refl) in H]; discriminate.
Qed.

(** X22. [run_step_7] with the choice to run all tests never shows an
    interpretation. On a selected dataset of fewer than 5000 rows the set-up
    of the tests asks for a sample of 5000 values and raises: the
    [ValueError] is caught by the handler of the menu choice, so that
    "Invalid selection" is shown for a valid selection (with the column
    'title_length' absent it is the [KeyError], shown as an error). And
    when every call returns, on a dataset of at least 5000 rows, the
    interpreter has been given the list of results, where it finds none of
    its keys: it is left with no interpretation and the one insight that
    nothing is significant, whatever the tests found. *)
Theorem step_7_never_interprets :
  forall (read_csv : string -> ended DataFrame)
         (shapiro : list cell -> ended (float * float))
         (draw : Z -> list cell -> list cell)
         (statistics : DataFrame -> ended Analyzer.numbers)
         (datasets : list string) (choice test_choice : string),
    (forall selected df,
        Menu.select datasets choice = Some selected ->
        read_csv selected = Returned df ->
        test_choice = "5" ->
        llen (data df) < 5000 ->
        (mem "title_length" (columns df) = true ->
           run_step_7 read_csv shapiro draw statistics datasets choice
             test_choice = InvalidSelection)
        /\ (mem "title_length" (columns df) = false ->
              run_step_7 read_csv shapiro draw statistics datasets choice
                test_choice = ErrorMessage))
    /\ (forall interpretations insights,
          run_step_7 read_csv shapiro draw statistics datasets choice
            test_choice = AllComplete interpretations insights ->
          interpretations = []
          /\ insights = [Interpreter.NoneSignificant]
          /\ test_choice = "5"
          /\ exists selected df s,
               Menu.select datasets choice = Some selected
               /\ read_csv selected = Returned df
               /\ 5000 <= llen (data df)
               /\ statistics df = Returned s).
Proof.
  intros read_csv shapiro draw statistics datasets choice test_choice. split.
  - intros selected df Hsel Hread -> Hlen. unfold run_step_7.
    destruct datasets as [|d ds]; [rewrite select_nil in Hsel; discriminate|].
    rewrite Hsel, Hread. cbn [String.eqb Ascii.eqb Bool.eqb].
    unfold setup_tests.
    destruct (@normality_test_small shapiro draw df "title_length" Hlen)
      as [H1 H2].
    split; intros Hm; [rewrite (H1 Hm) | rewrite (H2 Hm)]; reflexivity.
  - intros interpretations insights. unfold run_step_7.
    destruct datasets as [|d ds]; [discriminate|].
    destruct (Menu.select (d :: ds) choice) as [selected|]; [|discriminate].
    destruct (read_csv selected) as [df|h] eqn:Hread;
      [|destruct h; discriminate].
    destruct (String.eqb_spec test_choice "5") as [->|Hne]; [|discriminate].
    unfold setup_tests.
    destruct (normality_test shapiro draw df "title_length") as [u|h] eqn:Hn;
      [|destruct h; discriminate].
    apply normality_test_returned in Hn.
    destruct (normality_test shapiro draw df "word_count") as [u1|h];
      [|destruct h; discriminate].
    destruct (normality_test shapiro draw df "popularity") as [u2|h];
      [|destruct h; discriminate].
    destruct (statistics df) as [s|h] eqn:Hs; [|destruct h; discriminate].
    rewrite interpret_list. intros H; injection H as <- <-.
    conj; try reflexivity. exists selected, df, s. auto.
Qed.

Lemma step_7_never_interprets_witness :
  run_step_7 (fun _ => Returned FrameSamples.genre_frame)
    (fun _ => Returned (0, 1)%float) (fun _ values => values)
    (fun _ => Returned ResultSamples.clear_cut)
    ["spotify_tracks.csv"] "1" "5"
  = InvalidSelection.
Proof.
  refine (proj1 (proj1 (@step_7_never_interprets
                          (fun _ => Returned FrameSamples.genre_frame)
                          (fun _ => Returned (0, 1)%float)
                          (fun _ values => values)
                          (fun _ => Returned ResultSamples.clear_cut)
                          ["spotify_tracks.csv"] "1" "5")
                   "spotify_tracks.csv" FrameSamples.genre_frame
                   eq_refl eq_refl eq_refl _) eq_refl).
  reflexivity.
Defined.

End Step7Facts.
